(** * FinVault: the shared-expense settlement routes of [backend/server.py]

    A shallow embedding of the three shared-expense handlers
    ([create_shared_expense], [confirm_shared_expense], [get_settlements])
    together with the document collections they read and write, followed by
    the properties of the settlement model.

    Conventions of the embedding:
    - a Python [float] is an IEEE-754 binary64 value, [spec_float] with
      [prec = 53] and [emax = 1024];
    - a pydantic model or a stored document is a record, one module per model
      so that the fields keep their names;
    - a collection of the document store is the list of its documents in
      insertion order; [find_one] returns the first match and [update_one]
      rewrites the first match;
    - a handler is a function from the store to the new store and an
      [outcome]: the value returned or the exception raised;
    - [uuid.uuid4()] and [datetime.now()] are read from an [Env] stream, the
      k-th call of a handler reading position k. *)

From Stdlib Require Import List String Ascii Bool Arith ZArith QArith Lia.
From Stdlib Require Import Qabs Qpower Lqa.
From Stdlib Require Import Floats.SpecFloat.
Import ListNotations.
Open Scope string_scope.
Open Scope list_scope.

(** ** Python floats *)

Module PyFloat.

Definition prec : Z := 53.
Definition emax : Z := 1024.

Definition float := spec_float.

(** The literal [0.0]. *)
Definition zero : float := S754_zero false.

(** [float(n)] for a Python [int]: the nearest binary64, ties to even (an
    [int] beyond the binary64 range, which Python refuses with
    [OverflowError], is no length of a list). *)
Definition of_Z (n : Z) : float := binary_normalize prec emax n 0 false.
Definition of_nat (n : nat) : float := of_Z (Z.of_nat n).

Definition is_zero (x : float) : bool :=
  match x with S754_zero _ => true | _ => false end.

(** [x - y] and the comparison [x >= y] (false as soon as a NaN occurs). *)
Definition sub (x y : float) : float := SFsub prec emax x y.
Definition ge (x y : float) : bool := SFleb y x.

(** [x / y]: Python raises [ZeroDivisionError] on a zero divisor of either
    sign, so the quotient is partial. *)
Definition truediv (x y : float) : option float :=
  if is_zero y then None else Some (SFdiv prec emax x y).

(** The integer nearest to [m * 10^ndigits * 2^e], ties to even. *)
Definition round_half_even (num den : Z) : Z :=
  let q := (num / den)%Z in
  let r := (num mod den)%Z in
  match (2 * r ?= den)%Z with
  | Lt => q
  | Gt => (q + 1)%Z
  | Eq => if Z.even q then q else (q + 1)%Z
  end.

Definition scaled_round (m : positive) (e : Z) (ndigits : nat) : Z :=
  let scale := (10 ^ Z.of_nat ndigits)%Z in
  match e with
  | Zneg k => round_half_even (Zpos m * scale) (2 ^ Zpos k)
  | _ => (Zpos m * 2 ^ e * scale)%Z
  end.

(** [NDIGITS_MAX] of CPython's [float.__round__]. *)
Definition NDIGITS_MAX : nat := 323.

(** The built-in [round(x, ndigits)] on a float with [ndigits >= 0]: NaN,
    infinities and zeros round to themselves; a finite [x] is rounded
    correctly (on its exact binary value, ties to even) to a decimal with
    [ndigits] fractional digits, and that decimal is converted back to the
    nearest binary64. *)
Definition round (x : float) (ndigits : nat) : float :=
  match x with
  | S754_finite s m e =>
      if (NDIGITS_MAX <? ndigits)%nat then x
      else
        match scaled_round m e ndigits with
        | Zpos d =>
            SFdiv prec emax (S754_finite s d 0)
                  (S754_finite false (Z.to_pos (10 ^ Z.of_nat ndigits)) 0)
        | _ => S754_zero s
        end
  | _ => x
  end.

(** The exact rational value of a finite float (0 for the others). *)
Definition to_Q (x : float) : Q :=
  match x with
  | S754_finite s m e =>
      let v := (inject_Z (Zpos m) * Qpower 2 e)%Q in
      if s then Qopp v else v
  | _ => 0%Q
  end.

End PyFloat.

Abbreviation float := PyFloat.float.

(** ** Enumerations, models and stored documents *)

Inductive SplitType := EQUAL | CUSTOM.

(** The [User] model, as returned by [get_current_user] and as read from the
    [users] collection (the fields the shared-expense routes use). *)
Module User.
Record t := mk { id : string; email : string; full_name : string }.
End User.

Module SharedExpenseParticipant.
Record t := mk {
  user_id : string;
  email : string;
  full_name : string;
  amount : float;
  paid : float;
  confirmed : bool
}.

(** The item assignments [p["amount"] = v] and [p["confirmed"] = v]. *)
Definition set_amount (p : t) (v : float) : t :=
  mk (user_id p) (email p) (full_name p) v (paid p) (confirmed p).
Definition set_confirmed (p : t) (v : bool) : t :=
  mk (user_id p) (email p) (full_name p) (amount p) (paid p) v.
End SharedExpenseParticipant.

Module SharedExpenseCreate.
Record t := mk {
  title : string;
  description : string;
  total_amount : float;
  currency : string;
  participant_emails : list string;
  split_type : SplitType;
  category_id : option string;
  date : string;
  receipt_url : option string
}.
End SharedExpenseCreate.

Module SharedExpense.
Record t := mk {
  id : string;
  creator_id : string;
  participants : list SharedExpenseParticipant.t;
  status : string;
  created_at : string;
  title : string;
  description : string;
  total_amount : float;
  currency : string;
  split_type : SplitType;
  category_id : option string;
  date : string;
  receipt_url : option string
}.

(** [{"$set": {"participants": ps}}] *)
Definition set_participants (e : t) (ps : list SharedExpenseParticipant.t) : t :=
  mk (id e) (creator_id e) ps (status e) (created_at e) (title e)
     (description e) (total_amount e) (currency e) (split_type e)
     (category_id e) (date e) (receipt_url e).
End SharedExpense.

Module Notification.
Record t := mk {
  id : string;
  user_id : string;
  type : string;
  content : string;
  read : bool;
  created_at : string
}.
End Notification.

(** One record of the list [get_settlements] returns. *)
Module Settlement.
Record t := mk {
  user_id : string;
  user_name : string;
  amount_owed : float;
  amount_paid : float;
  balance : float;
  status : string
}.
End Settlement.

Module P := SharedExpenseParticipant.

(** The document store [db]. *)
Record DB := mkDB {
  users : list User.t;
  shared_expenses : list SharedExpense.t;
  notifications : list Notification.t
}.

(** What a handler reads from outside the store. *)
Record Env := mkEnv {
  uuid4 : nat -> string;
  now : nat -> string
}.

Inductive exn :=
| HTTPException (status_code : nat) (detail : string)
| ZeroDivisionError
| ValueError.

Inductive outcome (A : Type) :=
| Return (a : A)
| Raise (e : exn).
Arguments Return {A} a.
Arguments Raise {A} e.

(** The error kinds of the settlement engine, by status code. *)
Definition NotFound (detail : string) : exn := HTTPException 404 detail.
Definition Forbidden (detail : string) : exn := HTTPException 403 detail.

(** ** Queries on the collections *)

(** [db.users.find_one({"email": email})] *)
Definition find_user_by_email (us : list User.t) (email : string) : option User.t :=
  find (fun u => String.eqb (User.email u) email) us.

(** [db.shared_expenses.find_one({"id": expense_id})] *)
Definition find_expense (es : list SharedExpense.t) (expense_id : string)
  : option SharedExpense.t :=
  find (fun e => String.eqb (SharedExpense.id e) expense_id) es.

(** [db.shared_expenses.update_one({"id": expense_id},
    {"$set": {"participants": ps}})]: only the first match is rewritten. *)
Fixpoint update_participants (es : list SharedExpense.t) (expense_id : string)
         (ps : list P.t) : list SharedExpense.t :=
  match es with
  | [] => []
  | e :: rest =>
      if String.eqb (SharedExpense.id e) expense_id
      then SharedExpense.set_participants e ps :: rest
      else e :: update_participants rest expense_id ps
  end.

(** ** [get_current_user]

    The dependency every route resolves first.  [sub] is the ["sub"] entry of
    the payload [verify_token] returns, [None] when the payload has none. *)
Definition get_current_user (db : DB) (sub : option string) : outcome User.t :=
  match sub with
  | None => Raise (HTTPException 401 "Invalid token")
  | Some user_id =>
      if String.eqb user_id ""
      then Raise (HTTPException 401 "Invalid token")
      else
        match find (fun u => String.eqb (User.id u) user_id) (users db) with
        | None => Raise (HTTPException 404 "User not found")
        | Some user => Return user
        end
  end.

(** ** [create_shared_expense] *)

(** The loop over [expense_data.participant_emails]: a resolved email appends
    an entry, an unresolved one appends nothing. *)
Fixpoint resolve_participants (us : list User.t) (emails : list string)
         (participants : list P.t) : list P.t :=
  match emails with
  | [] => participants
  | email :: rest =>
      match find_user_by_email us email with
      | Some user =>
          resolve_participants us rest
            (participants ++
               [P.mk (User.id user) (User.email user) (User.full_name user)
                     PyFloat.zero PyFloat.zero false])
      | None => resolve_participants us rest participants
      end
  end.

(** The creator's entry, appended after the loop. *)
Definition creator_entry (expense_data : SharedExpenseCreate.t)
           (current_user : User.t) : P.t :=
  P.mk (User.id current_user) (User.email current_user)
       (User.full_name current_user)
       PyFloat.zero (SharedExpenseCreate.total_amount expense_data) true.

(** The [# Calculate split] block. *)
Definition calculate_split (expense_data : SharedExpenseCreate.t)
           (participants : list P.t) : outcome (list P.t) :=
  match SharedExpenseCreate.split_type expense_data with
  | EQUAL =>
      match PyFloat.truediv (SharedExpenseCreate.total_amount expense_data)
                            (PyFloat.of_nat (List.length participants)) with
      | None => Raise ZeroDivisionError
      | Some amount_per_person =>
          Return (map (fun p => P.set_amount p (PyFloat.round amount_per_person 2))
                      participants)
      end
  | CUSTOM => Return participants
  end.

(** The [# Create notifications] loop; [k] counts the [uuid4]/[now] calls
    already made. *)
Fixpoint create_notifications (env : Env) (k : nat) (title : string)
         (current_user : User.t) (participants : list P.t)
  : list Notification.t :=
  match participants with
  | [] => []
  | p :: rest =>
      if String.eqb (P.user_id p) (User.id current_user)
      then create_notifications env k title current_user rest
      else
        Notification.mk (uuid4 env k) (P.user_id p) "shared_expense_added"
          (User.full_name current_user ++ " đã thêm bạn vào khoản chi '"
             ++ title ++ "'")%string
          false (now env k)
        :: create_notifications env (S k) title current_user rest
  end.

Definition create_shared_expense (env : Env) (db : DB)
           (expense_data : SharedExpenseCreate.t) (current_user : User.t)
  : DB * outcome SharedExpense.t :=
  let participants :=
    resolve_participants (users db)
      (SharedExpenseCreate.participant_emails expense_data) [] in
  let participants := participants ++ [creator_entry expense_data current_user] in
  match calculate_split expense_data participants with
  | Raise e => (db, Raise e)
  | Return participants =>
      let expense_doc :=
        SharedExpense.mk (uuid4 env 0) (User.id current_user) participants
          "active" (now env 0)
          (SharedExpenseCreate.title expense_data)
          (SharedExpenseCreate.description expense_data)
          (SharedExpenseCreate.total_amount expense_data)
          (SharedExpenseCreate.currency expense_data)
          (SharedExpenseCreate.split_type expense_data)
          (SharedExpenseCreate.category_id expense_data)
          (SharedExpenseCreate.date expense_data)
          (SharedExpenseCreate.receipt_url expense_data) in
      (mkDB (users db)
            (shared_expenses db ++ [expense_doc])
            (notifications db ++
               create_notifications env 1
                 (SharedExpenseCreate.title expense_data) current_user
                 participants),
       Return expense_doc)
  end.

(** ** [confirm_shared_expense] *)

(** The scan of [participants] with its [updated] flag; the [break] leaves
    everything after the first match untouched. *)
Fixpoint confirm_loop (caller_id : string) (participants : list P.t)
  : list P.t * bool :=
  match participants with
  | [] => ([], false)
  | p :: rest =>
      if String.eqb (P.user_id p) caller_id
      then (P.set_confirmed p true :: rest, true)
      else
        let (rest', updated) := confirm_loop caller_id rest in
        (p :: rest', updated)
  end.

Definition confirm_shared_expense (db : DB) (expense_id : string)
           (current_user : User.t) : DB * outcome string :=
  match find_expense (shared_expenses db) expense_id with
  | None => (db, Raise (NotFound "Shared expense not found"))
  | Some expense =>
      let (participants, updated) :=
        confirm_loop (User.id current_user) (SharedExpense.participants expense) in
      if negb updated
      then (db, Raise (Forbidden "You are not a participant"))
      else
        (mkDB (users db)
              (update_participants (shared_expenses db) expense_id participants)
              (notifications db),
         Return "Confirmed")
  end.

(** ** [get_settlements] *)

(** The loop building [settlements], one [append] per participant. *)
Fixpoint settlements_loop (participants : list P.t)
         (settlements : list Settlement.t) : list Settlement.t :=
  match participants with
  | [] => settlements
  | p :: rest =>
      let balance := PyFloat.sub (P.paid p) (P.amount p) in
      settlements_loop rest
        (settlements ++
           [Settlement.mk (P.user_id p) (P.full_name p) (P.amount p) (P.paid p)
              balance
              (if PyFloat.ge balance PyFloat.zero then "settled" else "owes")])
  end.

Definition get_settlements (db : DB) (expense_id : string)
           (current_user : User.t) : DB * outcome (list Settlement.t) :=
  match find_expense (shared_expenses db) expense_id with
  | None => (db, Raise (NotFound "Shared expense not found"))
  | Some expense =>
      (db, Return (settlements_loop (SharedExpense.participants expense) []))
  end.

(** ** The operations of the core as transitions of the store *)

Inductive request :=
| CreateSharedExpense (env : Env) (expense_data : SharedExpenseCreate.t)
                      (current_user : User.t)
| ConfirmParticipation (expense_id : string) (current_user : User.t)
| GetSettlements (expense_id : string) (current_user : User.t).

Definition handle (db : DB) (r : request) : DB :=
  match r with
  | CreateSharedExpense env expense_data current_user =>
      fst (create_shared_expense env db expense_data current_user)
  | ConfirmParticipation expense_id current_user =>
      fst (confirm_shared_expense db expense_id current_user)
  | GetSettlements expense_id current_user =>
      fst (get_settlements db expense_id current_user)
  end.

(** ** Vocabulary of the statements *)

(** The identities the invitee emails resolve to, in input order; an email
    that resolves to nothing contributes nothing. *)
Fixpoint resolved_users (us : list User.t) (emails : list string) : list User.t :=
  match emails with
  | [] => []
  | email :: rest =>
      match find_user_by_email us email with
      | Some user => user :: resolved_users us rest
      | None => resolved_users us rest
      end
  end.

(** Two stored expenses that agree on every field except [participants]. *)
Definition same_fields (e e' : SharedExpense.t) : Prop :=
  SharedExpense.id e' = SharedExpense.id e /\
  SharedExpense.creator_id e' = SharedExpense.creator_id e /\
  SharedExpense.status e' = SharedExpense.status e /\
  SharedExpense.created_at e' = SharedExpense.created_at e /\
  SharedExpense.title e' = SharedExpense.title e /\
  SharedExpense.description e' = SharedExpense.description e /\
  SharedExpense.total_amount e' = SharedExpense.total_amount e /\
  SharedExpense.currency e' = SharedExpense.currency e /\
  SharedExpense.split_type e' = SharedExpense.split_type e /\
  SharedExpense.category_id e' = SharedExpense.category_id e /\
  SharedExpense.date e' = SharedExpense.date e /\
  SharedExpense.receipt_url e' = SharedExpense.receipt_url e.

(** What a confirmation by [caller_id] may do to one participant entry:
    nothing but raise [confirmed], and only on an entry of the caller. *)
Definition confirm_frame (caller_id : string) (p p' : P.t) : Prop :=
  P.user_id p' = P.user_id p /\
  P.email p' = P.email p /\
  P.full_name p' = P.full_name p /\
  P.amount p' = P.amount p /\
  P.paid p' = P.paid p /\
  (P.confirmed p' = P.confirmed p \/
   (P.user_id p = caller_id /\ P.confirmed p' = true)).

(** A confirmation flag is never lowered from [p] to [p']. *)
Definition confirmed_kept (p p' : P.t) : Prop :=
  P.confirmed p = true -> P.confirmed p' = true.

(** Exact sums over the participant list. *)
Definition sum_Q (f : P.t -> Q) (ps : list P.t) : Q :=
  fold_right (fun p acc => (f p + acc)%Q) 0%Q ps.

Definition amount_Q (p : P.t) : Q := PyFloat.to_Q (P.amount p).

(** The rounding residue of one participant: the exact share
    [total / count] minus the amount stored for the participant. *)
Definition residue (total : float) (count : nat) (p : P.t) : Q :=
  (PyFloat.to_Q total / inject_Z (Z.of_nat count) - amount_Q p)%Q.

(** The entry the loop of [create_shared_expense] appends for a resolved
    identity. *)
Definition invitee_entry (user : User.t) : P.t :=
  P.mk (User.id user) (User.email user) (User.full_name user)
       PyFloat.zero PyFloat.zero false.

(** The list handed to the split: the invitees, then the creator. *)
Definition built_participants (db : DB) (expense_data : SharedExpenseCreate.t)
           (current_user : User.t) : list P.t :=
  map invitee_entry
      (resolved_users (users db)
         (SharedExpenseCreate.participant_emails expense_data))
  ++ [creator_entry expense_data current_user].

(** The amount every entry receives. *)
Definition share_of (expense_data : SharedExpenseCreate.t) (count : nat)
  : float -> float :=
  match SharedExpenseCreate.split_type expense_data with
  | EQUAL => fun _ =>
      PyFloat.round
        (SFdiv PyFloat.prec PyFloat.emax
               (SharedExpenseCreate.total_amount expense_data)
               (PyFloat.of_nat count)) 2
  | CUSTOM => fun a => a
  end.

Definition stored_participants (db : DB) (expense_data : SharedExpenseCreate.t)
           (current_user : User.t) : list P.t :=
  let ps := built_participants db expense_data current_user in
  map (fun p => P.set_amount p (share_of expense_data (List.length ps) (P.amount p)))
      ps.

(** The document [create_shared_expense] stores and returns. *)
Definition created_doc (env : Env) (db : DB)
           (expense_data : SharedExpenseCreate.t) (current_user : User.t)
  : SharedExpense.t :=
  SharedExpense.mk (uuid4 env 0) (User.id current_user)
    (stored_participants db expense_data current_user)
    "active" (now env 0)
    (SharedExpenseCreate.title expense_data)
    (SharedExpenseCreate.description expense_data)
    (SharedExpenseCreate.total_amount expense_data)
    (SharedExpenseCreate.currency expense_data)
    (SharedExpenseCreate.split_type expense_data)
    (SharedExpenseCreate.category_id expense_data)
    (SharedExpenseCreate.date expense_data)
    (SharedExpenseCreate.receipt_url expense_data).

(** The record [get_settlements] derives from one participant entry. *)
Definition settlement_of (p : P.t) : Settlement.t :=
  Settlement.mk (P.user_id p) (P.full_name p) (P.amount p) (P.paid p)
    (PyFloat.sub (P.paid p) (P.amount p))
    (if PyFloat.ge (PyFloat.sub (P.paid p) (P.amount p)) PyFloat.zero
     then "settled" else "owes").

(** What the scan found, read off its result. *)
Inductive scan_result (caller_id : string) (ps : list P.t)
  : list P.t -> bool -> Prop :=
| scan_missed :
    (forall q, In q ps -> P.user_id q <> caller_id) ->
    scan_result caller_id ps ps false
| scan_hit pre p post :
    ps = pre ++ p :: post ->
    (forall q, In q pre -> P.user_id q <> caller_id) ->
    P.user_id p = caller_id ->
    scan_result caller_id ps (pre ++ P.set_confirmed p true :: post) true.

(** *** Exact values of floats *)

(** [2^e] as a rational. *)
Definition bpow (e : Z) : Q := Qpower 2 e.

(** Where an exact value [v] lies relative to the integer [m]: on it, or
    strictly between [m] and [m + 1], below, at or above the middle. *)
Definition located (v : Q) (m : Z) (l : location) : Prop :=
  match l with
  | loc_Exact => (v == inject_Z m)%Q
  | loc_Inexact c =>
      (inject_Z m < v)%Q /\ (v < inject_Z m + 1)%Q /\
      match c with
      | Lt => (v < inject_Z m + (1 # 2))%Q
      | Eq => (v == inject_Z m + (1 # 2))%Q
      | Gt => (inject_Z m + (1 # 2) < v)%Q
      end
  end.

(** A float that is a zero or a finite number. *)
Definition finite_float (x : float) : bool :=
  match x with
  | S754_zero _ | S754_finite _ _ _ => true
  | _ => false
  end.

(** ** A small store for the examples *)

Module Ex.
Definition an : User.t := User.mk "u-an" "an@example.com" "An".
Definition binh : User.t := User.mk "u-binh" "binh@example.com" "Binh".
Definition chi : User.t := User.mk "u-chi" "chi@example.com" "Chi".
Definition dung : User.t := User.mk "u-dung" "dung@example.com" "Dung".

Definition env : Env :=
  mkEnv (fun k => match k with
                  | O => "e-1"
                  | S _ => "n"
                  end)
        (fun _ => "2024-01-01T00:00:00+00:00").

Definition db0 : DB := mkDB [an; binh; chi] [] [].

Definition dinner (total : float) (emails : list string) (st : SplitType)
  : SharedExpenseCreate.t :=
  SharedExpenseCreate.mk "An nhom" "Dinner with friends" total "VND" emails st
    None "2024-01-01T00:00:00+00:00" None.

Definition f300000 : float := PyFloat.of_Z 300000.
Definition f200000 : float := PyFloat.of_Z 200000.
Definition f100000 : float := PyFloat.of_Z 100000.
Definition f100 : float := PyFloat.of_Z 100.
Definition f1e15 : float := PyFloat.of_Z 1000000000000000.

(** An creates a 300000 dinner with Binh and Chi, split equally. *)
Definition db1 : DB :=
  fst (create_shared_expense env db0
         (dinner f300000 ["binh@example.com"; "chi@example.com"] EQUAL) an).

(** An invites Binh twice: Binh is stored twice. *)
Definition db_twice : DB :=
  fst (create_shared_expense env db0
         (dinner f300000 ["binh@example.com"; "binh@example.com"] EQUAL) an).
End Ex.

(** * The other routes of [backend/server.py]

    The routes below work on the same store; they also read and write the
    [categories], [transactions], [friendships] and [budgets] collections
    and the full user documents.  [bcrypt] and [jwt] are outside the
    repository: what they answer is a parameter of the routes. *)

Inductive TransactionType := EXPENSE | INCOME.

Inductive FriendshipStatus := PENDING | ACCEPTED | REJECTED.

(** A document of [db.users] with all the fields [register] writes. *)
Module UserDoc.
Record t := mk {
  id : string;
  email : string;
  password_hash : string;
  full_name : string;
  avatar_url : option string;
  currency_preference : string;
  usd_vnd_rate : float;
  created_at : string
}.
End UserDoc.

Module UserRegister.
Record t := mk { email : string; password : string; full_name : string }.
End UserRegister.

Module UserLogin.
Record t := mk { email : string; password : string }.
End UserLogin.

(** The dictionary [register] and [login] answer with. *)
Module AuthResponse.
Record t := mk {
  access_token : string;
  token_type : string;
  user : User.t
}.
End AuthResponse.

Module Category.
Record t := mk {
  id : string;
  user_id : string;
  name : string;
  icon : string;
  color : string;
  type : TransactionType;
  is_default : bool;
  created_at : string
}.
End Category.

Module CategoryCreate.
Record t := mk {
  name : string;
  icon : string;
  color : string;
  type : TransactionType
}.
End CategoryCreate.

Module Transaction.
Record t := mk {
  id : string;
  user_id : string;
  category_id : string;
  amount : float;
  currency : string;
  description : string;
  date : string;
  receipt_url : option string;
  tags : list string;
  is_shared : bool;
  shared_expense_id : option string;
  created_at : string
}.
End Transaction.

Module TransactionCreate.
Record t := mk {
  category_id : string;
  amount : float;
  currency : string;
  description : string;
  date : string;
  receipt_url : option string;
  tags : list string
}.
End TransactionCreate.

Module Friendship.
Record t := mk {
  id : string;
  user_id : string;
  friend_id : string;
  friend_email : string;
  friend_name : string;
  status : FriendshipStatus;
  created_at : string
}.

(** [{"$set": {"status": v}}] *)
Definition set_status (f : t) (v : FriendshipStatus) : t :=
  mk (id f) (user_id f) (friend_id f) (friend_email f) (friend_name f) v
     (created_at f).
End Friendship.

Module Budget.
Record t := mk {
  id : string;
  user_id : string;
  category_id : string;
  amount : float;
  period : string;
  created_at : string
}.
End Budget.

Module BudgetCreate.
Record t := mk { category_id : string; amount : float; period : string }.
End BudgetCreate.

(** [{"$set": {"read": v}}] on a notification. *)
Definition set_read (n : Notification.t) (v : bool) : Notification.t :=
  Notification.mk (Notification.id n) (Notification.user_id n)
    (Notification.type n) (Notification.content n) v
    (Notification.created_at n).

(** The whole document store. *)
Record Store := mkStore {
  user_docs : list UserDoc.t;
  categories : list Category.t;
  transactions : list Transaction.t;
  friendships : list Friendship.t;
  budgets : list Budget.t;
  shared_expense_docs : list SharedExpense.t;
  notification_docs : list Notification.t
}.

(** What [find_one(..., {"_id": 0, "password_hash": 0})] keeps of a user
    document for the shared-expense routes. *)
Definition user_of_doc (d : UserDoc.t) : User.t :=
  User.mk (UserDoc.id d) (UserDoc.email d) (UserDoc.full_name d).

(** The part of the store the shared-expense routes see. *)
Definition db_of (s : Store) : DB :=
  mkDB (map user_of_doc (user_docs s)) (shared_expense_docs s)
       (notification_docs s).

(** What [bcrypt] and [jwt] answer during a call: the salt [gensalt()]
    draws, [hashpw(password, salt)], [checkpw(password, hashed)] and
    [jwt.encode] of a subject and the time the expiry is counted from.
    [hashpw] and [checkpw] may refuse their input with a [ValueError] (a
    password of more than 72 bytes, in the releases that do not truncate
    it); this is the answer [None]. *)
Record Auth := mkAuth {
  gensalt : string;
  hashpw : string -> string -> option string;
  checkpw : string -> string -> option bool;
  jwt_encode : string -> string -> string
}.

(** [None]: the [ValueError] of [bcrypt.hashpw], which [hash_password] does
    not catch. *)
Definition hash_password (auth : Auth) (password : string) : option string :=
  hashpw auth password (gensalt auth).

(** [None]: the [ValueError] of [bcrypt.checkpw], which [verify_password]
    does not catch. *)
Definition verify_password (auth : Auth) (plain_password hashed_password : string)
  : option bool :=
  checkpw auth plain_password hashed_password.

(** [create_access_token({"sub": sub})], with the [datetime.now()] it
    reads. *)
Definition create_access_token (auth : Auth) (sub now : string) : string :=
  jwt_encode auth sub now.

(** ** Collection primitives *)

(** [update_one(filter, {"$set": ...})]: the first match is rewritten. *)
Fixpoint update_one {A : Type} (filter : A -> bool) (set : A -> A)
         (docs : list A) : list A :=
  match docs with
  | [] => []
  | d :: rest =>
      if filter d then set d :: rest
      else d :: update_one filter set rest
  end.

(** [delete_one(filter)]: the first match is removed; the second component
    is [deleted_count]. *)
Fixpoint delete_one {A : Type} (filter : A -> bool) (docs : list A)
  : list A * nat :=
  match docs with
  | [] => ([], 0%nat)
  | d :: rest =>
      if filter d then (rest, 1%nat)
      else
        let (rest', deleted_count) := delete_one filter rest in
        (d :: rest', deleted_count)
  end.

(** [find(filter).to_list(n)] *)
Definition find_to_list {A : Type} (filter : A -> bool) (n : nat)
           (docs : list A) : list A :=
  firstn n (List.filter filter docs).

(** [db.users.find_one({"email": email})] on the full documents. *)
Definition find_user_doc_by_email (ds : list UserDoc.t) (email : string)
  : option UserDoc.t :=
  find (fun d => String.eqb (UserDoc.email d) email) ds.

(** ** Auth routes *)

(** The [default_categories] table of [register]. *)
Definition default_categories : list CategoryCreate.t :=
  [CategoryCreate.mk "Ăn uống" "UtensilsCrossed" "#F59E0B" EXPENSE;
   CategoryCreate.mk "Di chuyển" "Car" "#3B82F6" EXPENSE;
   CategoryCreate.mk "Mua sắm" "ShoppingBag" "#EC4899" EXPENSE;
   CategoryCreate.mk "Giải trí" "Gamepad2" "#8B5CF6" EXPENSE;
   CategoryCreate.mk "Sức khỏe" "Heart" "#EF4444" EXPENSE;
   CategoryCreate.mk "Hóa đơn" "Receipt" "#6366F1" EXPENSE;
   CategoryCreate.mk "Lương" "Wallet" "#10B981" INCOME;
   CategoryCreate.mk "Khác" "MoreHorizontal" "#64748B" EXPENSE].

(** The loop over [default_categories]; [k] counts the [uuid4]/[now] calls
    already made. *)
Fixpoint create_default_categories (env : Env) (k : nat) (user_id : string)
         (cats : list CategoryCreate.t) : list Category.t :=
  match cats with
  | [] => []
  | cat :: rest =>
      Category.mk (uuid4 env k) user_id (CategoryCreate.name cat)
        (CategoryCreate.icon cat) (CategoryCreate.color cat)
        (CategoryCreate.type cat) true (now env k)
      :: create_default_categories env (S k) user_id rest
  end.

Definition register (auth : Auth) (env : Env) (s : Store)
           (user_data : UserRegister.t) : Store * outcome AuthResponse.t :=
  match find_user_doc_by_email (user_docs s) (UserRegister.email user_data) with
  | Some _ => (s, Raise (HTTPException 400 "Email already registered"))
  | None =>
      let user_id := uuid4 env 0 in
      match hash_password auth (UserRegister.password user_data) with
      | None => (s, Raise ValueError)
      | Some password_hash =>
          let user_doc :=
            UserDoc.mk user_id (UserRegister.email user_data) password_hash
              (UserRegister.full_name user_data)
              None "VND" (PyFloat.of_Z 25000) (now env 0) in
          (mkStore (user_docs s ++ [user_doc])
                   (categories s ++
                      create_default_categories env 1 user_id default_categories)
                   (transactions s) (friendships s) (budgets s)
                   (shared_expense_docs s) (notification_docs s),
           Return (AuthResponse.mk
                     (create_access_token auth user_id (now env 9))
                     "bearer"
                     (User.mk user_id (UserRegister.email user_data)
                              (UserRegister.full_name user_data))))
      end
  end.

Definition login (auth : Auth) (env : Env) (s : Store)
           (credentials : UserLogin.t) : Store * outcome AuthResponse.t :=
  match find_user_doc_by_email (user_docs s) (UserLogin.email credentials) with
  | None => (s, Raise (HTTPException 401 "Invalid email or password"))
  | Some user =>
      match verify_password auth (UserLogin.password credentials)
              (UserDoc.password_hash user) with
      | None => (s, Raise ValueError)
      | Some false =>
          (s, Raise (HTTPException 401 "Invalid email or password"))
      | Some true =>
          (s,
           Return (AuthResponse.mk
                     (create_access_token auth (UserDoc.id user) (now env 0))
                     "bearer"
                     (User.mk (UserDoc.id user) (UserDoc.email user)
                              (UserDoc.full_name user))))
      end
  end.

(** ** Category routes *)

Definition get_categories (s : Store) (current_user : User.t)
  : Store * outcome (list Category.t) :=
  (s,
   Return (find_to_list
             (fun c => String.eqb (Category.user_id c) (User.id current_user))
             100 (categories s))).

Definition create_category (env : Env) (s : Store)
           (category_data : CategoryCreate.t) (current_user : User.t)
  : Store * outcome Category.t :=
  let category_doc :=
    Category.mk (uuid4 env 0) (User.id current_user)
      (CategoryCreate.name category_data) (CategoryCreate.icon category_data)
      (CategoryCreate.color category_data) (CategoryCreate.type category_data)
      false (now env 0) in
  (mkStore (user_docs s) (categories s ++ [category_doc]) (transactions s)
           (friendships s) (budgets s) (shared_expense_docs s)
           (notification_docs s),
   Return category_doc).

Definition delete_category (s : Store) (category_id : string)
           (current_user : User.t) : Store * outcome string :=
  match find (fun c => String.eqb (Category.id c) category_id &&
                       String.eqb (Category.user_id c) (User.id current_user))
             (categories s) with
  | None => (s, Raise (HTTPException 404 "Category not found"))
  | Some category =>
      if Category.is_default category
      then (s, Raise (HTTPException 400 "Cannot delete default category"))
      else
        (mkStore (user_docs s)
                 (fst (delete_one
                         (fun c => String.eqb (Category.id c) category_id)
                         (categories s)))
                 (transactions s) (friendships s) (budgets s)
                 (shared_expense_docs s) (notification_docs s),
         Return "Category deleted")
  end.

(** ** Transaction routes *)

Definition create_transaction (env : Env) (s : Store)
           (txn_data : TransactionCreate.t) (current_user : User.t)
  : Store * outcome Transaction.t :=
  let txn_doc :=
    Transaction.mk (uuid4 env 0) (User.id current_user)
      (TransactionCreate.category_id txn_data)
      (TransactionCreate.amount txn_data)
      (TransactionCreate.currency txn_data)
      (TransactionCreate.description txn_data)
      (TransactionCreate.date txn_data)
      (TransactionCreate.receipt_url txn_data)
      (TransactionCreate.tags txn_data)
      false None (now env 0) in
  (mkStore (user_docs s) (categories s) (transactions s ++ [txn_doc])
           (friendships s) (budgets s) (shared_expense_docs s)
           (notification_docs s),
   Return txn_doc).

Definition delete_transaction (s : Store) (transaction_id : string)
           (current_user : User.t) : Store * outcome string :=
  let (remaining, deleted_count) :=
    delete_one (fun t => String.eqb (Transaction.id t) transaction_id &&
                         String.eqb (Transaction.user_id t) (User.id current_user))
               (transactions s) in
  if Nat.eqb deleted_count 0
  then (s, Raise (HTTPException 404 "Transaction not found"))
  else
    (mkStore (user_docs s) (categories s) remaining (friendships s)
             (budgets s) (shared_expense_docs s) (notification_docs s),
     Return "Transaction deleted").

(** ** Friend routes *)

Definition get_friends (s : Store) (current_user : User.t)
  : Store * outcome (list Friendship.t) :=
  (s,
   Return (find_to_list
             (fun f =>
                (String.eqb (Friendship.user_id f) (User.id current_user) ||
                 String.eqb (Friendship.friend_id f) (User.id current_user)) &&
                match Friendship.status f with
                | ACCEPTED => true
                | _ => false
                end)
             1000 (friendships s))).

(** The [existing] query of [send_friend_request]: a friendship between the
    two users, in either direction. *)
Definition between (a b : string) (f : Friendship.t) : bool :=
  (String.eqb (Friendship.user_id f) a && String.eqb (Friendship.friend_id f) b)
  || (String.eqb (Friendship.user_id f) b && String.eqb (Friendship.friend_id f) a).

Definition send_friend_request (env : Env) (s : Store) (friend_email : string)
           (current_user : User.t) : Store * outcome string :=
  match find_user_doc_by_email (user_docs s) friend_email with
  | None => (s, Raise (HTTPException 404 "User not found"))
  | Some friend =>
      if String.eqb (UserDoc.id friend) (User.id current_user)
      then (s, Raise (HTTPException 400 "Cannot add yourself"))
      else
        match find (between (User.id current_user) (UserDoc.id friend))
                   (friendships s) with
        | Some _ =>
            (s, Raise (HTTPException 400 "Friend request already exists"))
        | None =>
            let friendship_doc :=
              Friendship.mk (uuid4 env 0) (User.id current_user)
                (UserDoc.id friend) (UserDoc.email friend)
                (UserDoc.full_name friend) PENDING (now env 0) in
            let notif_doc :=
              Notification.mk (uuid4 env 1) (UserDoc.id friend) "friend_request"
                (User.full_name current_user ++ " đã gửi lời mời kết bạn")%string
                false (now env 1) in
            (mkStore (user_docs s) (categories s) (transactions s)
                     (friendships s ++ [friendship_doc]) (budgets s)
                     (shared_expense_docs s)
                     (notification_docs s ++ [notif_doc]),
             Return "Friend request sent")
        end
  end.

Definition accept_friend_request (s : Store) (friendship_id : string)
           (current_user : User.t) : Store * outcome string :=
  match find (fun f => String.eqb (Friendship.id f) friendship_id)
             (friendships s) with
  | None => (s, Raise (HTTPException 404 "Friend request not found"))
  | Some friendship =>
      if negb (String.eqb (Friendship.friend_id friendship)
                          (User.id current_user))
      then (s, Raise (HTTPException 403 "Not authorized"))
      else
        (mkStore (user_docs s) (categories s) (transactions s)
                 (update_one
                    (fun f => String.eqb (Friendship.id f) friendship_id)
                    (fun f => Friendship.set_status f ACCEPTED)
                    (friendships s))
                 (budgets s) (shared_expense_docs s) (notification_docs s),
         Return "Friend request accepted")
  end.

(** ** Notification routes *)

Definition mark_notification_read (s : Store) (notification_id : string)
           (current_user : User.t) : Store * outcome string :=
  (mkStore (user_docs s) (categories s) (transactions s) (friendships s)
           (budgets s) (shared_expense_docs s)
           (update_one
              (fun n => String.eqb (Notification.id n) notification_id &&
                        String.eqb (Notification.user_id n) (User.id current_user))
              (fun n => set_read n true)
              (notification_docs s)),
   Return "Notification marked as read").

(** ** Budget routes *)

Definition get_budgets (s : Store) (current_user : User.t)
  : Store * outcome (list Budget.t) :=
  (s,
   Return (find_to_list
             (fun b => String.eqb (Budget.user_id b) (User.id current_user))
             100 (budgets s))).

Definition create_budget (env : Env) (s : Store) (budget_data : BudgetCreate.t)
           (current_user : User.t) : Store * outcome Budget.t :=
  let budget_doc :=
    Budget.mk (uuid4 env 0) (User.id current_user)
      (BudgetCreate.category_id budget_data) (BudgetCreate.amount budget_data)
      (BudgetCreate.period budget_data) (now env 0) in
  (mkStore (user_docs s) (categories s) (transactions s) (friendships s)
           (budgets s ++ [budget_doc]) (shared_expense_docs s)
           (notification_docs s),
   Return budget_doc).

Definition delete_budget (s : Store) (budget_id : string)
           (current_user : User.t) : Store * outcome string :=
  let (remaining, deleted_count) :=
    delete_one (fun b => String.eqb (Budget.id b) budget_id &&
                         String.eqb (Budget.user_id b) (User.id current_user))
               (budgets s) in
  if Nat.eqb deleted_count 0
  then (s, Raise (HTTPException 404 "Budget not found"))
  else
    (mkStore (user_docs s) (categories s) (transactions s) (friendships s)
             remaining (shared_expense_docs s) (notification_docs s),
     Return "Budget deleted").

(** ** The shared-expense routes on the whole store *)

Definition with_db (s : Store) (db : DB) : Store :=
  mkStore (user_docs s) (categories s) (transactions s) (friendships s)
          (budgets s) (shared_expenses db) (notifications db).

(** ** User routes *)

Module UserSettings.
Record t := mk {
  currency_preference : option string;
  usd_vnd_rate : option float;
  avatar_url : option string
}.
End UserSettings.

(** The [User] response model with all its fields. *)
Module UserOut.
Record t := mk {
  id : string;
  email : string;
  full_name : string;
  avatar_url : option string;
  currency_preference : string;
  usd_vnd_rate : float;
  created_at : string
}.
End UserOut.

(** [User( **doc )]: the model ignores [password_hash]. *)
Definition user_out_of_doc (d : UserDoc.t) : UserOut.t :=
  UserOut.mk (UserDoc.id d) (UserDoc.email d) (UserDoc.full_name d)
    (UserDoc.avatar_url d) (UserDoc.currency_preference d)
    (UserDoc.usd_vnd_rate d) (UserDoc.created_at d).

(** [update_data]: the settings that are not [None]; the dictionary is empty
    when all three are. *)
Definition update_data_is_empty (settings : UserSettings.t) : bool :=
  match UserSettings.currency_preference settings,
        UserSettings.usd_vnd_rate settings,
        UserSettings.avatar_url settings with
  | None, None, None => true
  | _, _, _ => false
  end.

(** [{"$set": update_data}] on a user document. *)
Definition set_update_data (settings : UserSettings.t) (d : UserDoc.t)
  : UserDoc.t :=
  UserDoc.mk (UserDoc.id d) (UserDoc.email d) (UserDoc.password_hash d)
    (UserDoc.full_name d)
    (match UserSettings.avatar_url settings with
     | Some v => Some v
     | None => UserDoc.avatar_url d
     end)
    (match UserSettings.currency_preference settings with
     | Some v => v
     | None => UserDoc.currency_preference d
     end)
    (match UserSettings.usd_vnd_rate settings with
     | Some v => v
     | None => UserDoc.usd_vnd_rate d
     end)
    (UserDoc.created_at d).

(** [update_profile] subscripts what [find_one] returns: on [None] Python
    raises [TypeError]. *)
Inductive profile_outcome :=
| ProfileReturn (user : UserOut.t)
| ProfileTypeError.

Definition update_profile (s : Store) (settings : UserSettings.t)
           (current_user : User.t) : Store * profile_outcome :=
  let docs :=
    if update_data_is_empty settings then user_docs s
    else update_one
           (fun d => String.eqb (UserDoc.id d) (User.id current_user))
           (set_update_data settings) (user_docs s) in
  let s' := mkStore docs (categories s) (transactions s) (friendships s)
                    (budgets s) (shared_expense_docs s) (notification_docs s) in
  match find (fun d => String.eqb (UserDoc.id d) (User.id current_user)) docs with
  | None => (s', ProfileTypeError)
  | Some updated_user => (s', ProfileReturn (user_out_of_doc updated_user))
  end.

(** ** Statistics *)

(** A Python number: the totals start as the [int] 0 and become floats with
    the first amount added. *)
Inductive number :=
| Int (z : Z)
| Float (x : float).

Definition to_float (n : number) : float :=
  match n with
  | Int z => PyFloat.of_Z z
  | Float x => x
  end.

(** [total += x] for a float [x]. *)
Definition add_float (total : number) (x : float) : number :=
  Float (SFadd PyFloat.prec PyFloat.emax (to_float total) x).

(** [a - b] *)
Definition number_sub (a b : number) : number :=
  match a, b with
  | Int x, Int y => Int (x - y)
  | _, _ => Float (PyFloat.sub (to_float a) (to_float b))
  end.

(** [round(n, 2)]: an [int] rounds to itself. *)
Definition number_round2 (n : number) : number :=
  match n with
  | Int z => Int z
  | Float x => Float (PyFloat.round x 2)
  end.

(** The [datetime] computations of the statistics routes, on ISO strings:
    [now.replace(day=1, ...)], [now.replace(month=1, day=1, ...)] and
    [now - timedelta(days=30)]. *)
Record Calendar := mkCalendar {
  month_start : string -> string;
  year_start : string -> string;
  minus_30_days : string -> string
}.

Module Overview.
Record t := mk {
  total_expense : number;
  total_income : number;
  balance : number;
  total_owed : number;
  transaction_count : nat
}.
End Overview.

(** The [# Calculate totals] loop. *)
Fixpoint calculate_totals (cats : list Category.t) (txns : list Transaction.t)
         (total_expense total_income : number) : number * number :=
  match txns with
  | [] => (total_expense, total_income)
  | txn :: rest =>
      match find (fun c => String.eqb (Category.id c)
                                      (Transaction.category_id txn)) cats with
      | Some category =>
          match Category.type category with
          | EXPENSE =>
              calculate_totals cats rest
                (add_float total_expense (Transaction.amount txn)) total_income
          | INCOME =>
              calculate_totals cats rest total_expense
                (add_float total_income (Transaction.amount txn))
          end
      | None => calculate_totals cats rest total_expense total_income
      end
  end.

(** The inner loop over [exp["participants"]]. *)
Fixpoint owed_in_participants (user_id : string) (ps : list P.t)
         (total_owed : number) : number :=
  match ps with
  | [] => total_owed
  | p :: rest =>
      if String.eqb (P.user_id p) user_id
      then
        let balance := PyFloat.sub (P.paid p) (P.amount p) in
        if SFltb balance PyFloat.zero
        then owed_in_participants user_id rest
               (add_float total_owed (SFabs balance))
        else owed_in_participants user_id rest total_owed
      else owed_in_participants user_id rest total_owed
  end.

(** The outer loop over [shared_expenses]. *)
Fixpoint owed_in_expenses (user_id : string) (es : list SharedExpense.t)
         (total_owed : number) : number :=
  match es with
  | [] => total_owed
  | exp :: rest =>
      owed_in_expenses user_id rest
        (owed_in_participants user_id (SharedExpense.participants exp)
           total_owed)
  end.

Definition get_statistics_overview (cal : Calendar) (env : Env) (s : Store)
           (period : string) (current_user : User.t)
  : Store * outcome Overview.t :=
  let now := now env 0 in
  let start_date :=
    if String.eqb period "month" then month_start cal now
    else if String.eqb period "year" then year_start cal now
    else minus_30_days cal now in
  let transactions :=
    find_to_list
      (fun t => String.eqb (Transaction.user_id t) (User.id current_user) &&
                String.leb start_date (Transaction.date t))
      10000 (transactions s) in
  let (total_expense, total_income) :=
    calculate_totals (categories s) transactions (Int 0) (Int 0) in
  let shared_expenses :=
    find_to_list
      (fun e => existsb (fun p => String.eqb (P.user_id p) (User.id current_user))
                        (SharedExpense.participants e))
      1000 (shared_expense_docs s) in
  let total_owed :=
    owed_in_expenses (User.id current_user) shared_expenses (Int 0) in
  (s,
   Return (Overview.mk (number_round2 total_expense)
             (number_round2 total_income)
             (number_round2 (number_sub total_income total_expense))
             (number_round2 total_owed)
             (List.length transactions))).

(** ** Vocabulary of the statements on the other routes *)

(** Two friendship documents join the same two users. *)
Definition same_pair (f g : Friendship.t) : Prop :=
  (Friendship.user_id f = Friendship.user_id g /\
   Friendship.friend_id f = Friendship.friend_id g) \/
  (Friendship.user_id f = Friendship.friend_id g /\
   Friendship.friend_id f = Friendship.user_id g).

(** No document joins a user to themself, and no two documents join the
    same two users. *)
Fixpoint pairs_unique (fs : list Friendship.t) : Prop :=
  match fs with
  | [] => True
  | f :: rest => (forall g, In g rest -> ~ same_pair f g) /\ pairs_unique rest
  end.

Definition friendships_ok (fs : list Friendship.t) : Prop :=
  (forall f, In f fs -> Friendship.user_id f <> Friendship.friend_id f) /\
  pairs_unique fs.

(** Documents with the same two users, position by position. *)
Definition same_users (f f' : Friendship.t) : Prop :=
  Friendship.user_id f' = Friendship.user_id f /\
  Friendship.friend_id f' = Friendship.friend_id f.

(** What [accept_friend_request] may do to one document: nothing but set
    [status] to [ACCEPTED], and only on a document with the given id. *)
Definition accept_frame (friendship_id : string) (f f' : Friendship.t) : Prop :=
  Friendship.id f' = Friendship.id f /\
  Friendship.user_id f' = Friendship.user_id f /\
  Friendship.friend_id f' = Friendship.friend_id f /\
  Friendship.friend_email f' = Friendship.friend_email f /\
  Friendship.friend_name f' = Friendship.friend_name f /\
  Friendship.created_at f' = Friendship.created_at f /\
  (f' = f \/ (Friendship.id f = friendship_id /\ Friendship.status f' = ACCEPTED)).

(** What [mark_notification_read] may do to one notification. *)
Definition read_frame (notification_id caller_id : string)
           (n n' : Notification.t) : Prop :=
  n' = n \/
  (Notification.id n = notification_id /\
   Notification.user_id n = caller_id /\
   n' = set_read n true).

(** The requests of the friend routes that write. *)
Inductive friend_request :=
| SendFriendRequest (env : Env) (friend_email : string) (current_user : User.t)
| AcceptFriendRequest (friendship_id : string) (current_user : User.t).

Definition handle_friend (s : Store) (r : friend_request) : Store :=
  match r with
  | SendFriendRequest env friend_email current_user =>
      fst (send_friend_request env s friend_email current_user)
  | AcceptFriendRequest friendship_id current_user =>
      fst (accept_friend_request s friendship_id current_user)
  end.

(** A float that is neither negative nor NaN. *)
Definition nonneg_float (x : float) : bool :=
  match x with
  | S754_zero _ => true
  | S754_infinity s => negb s
  | S754_finite s _ _ => negb s
  | S754_nan => false
  end.

Definition nonneg_number (n : number) : bool :=
  match n with
  | Int z => (0 <=? z)%Z
  | Float x => nonneg_float x
  end.

(** What [update_profile] may do to one user document: it keeps the id,
    email, password hash, name and creation date, keeps an avatar if there
    was one, and changes nothing in a document of another id. *)
Definition profile_frame (caller_id : string) (d d' : UserDoc.t) : Prop :=
  UserDoc.id d' = UserDoc.id d /\
  UserDoc.email d' = UserDoc.email d /\
  UserDoc.password_hash d' = UserDoc.password_hash d /\
  UserDoc.full_name d' = UserDoc.full_name d /\
  UserDoc.created_at d' = UserDoc.created_at d /\
  (UserDoc.avatar_url d <> None -> UserDoc.avatar_url d' <> None) /\
  (d' = d \/ UserDoc.id d = caller_id).

(** ** A store for the examples on the other routes *)

Module Ex2.
(** A stand-in for the two libraries: the "hash" is the salt followed by
    the password, and a password of more than 72 bytes is refused. *)
Definition auth : Auth :=
  mkAuth "salt:"
         (fun password salt =>
            if (72 <? String.length password)%nat then None
            else Some (salt ++ password)%string)
         (fun password hashed =>
            if (72 <? String.length password)%nat then None
            else Some (String.eqb hashed ("salt:" ++ password)%string))
         (fun sub now => ("jwt:" ++ sub ++ "@" ++ now)%string).

(** A password of 73 bytes. *)
Definition long_password : string :=
  "aaaaaaaaaaaaaaaaaaaaaaaaaaaaaaaaaaaaaaaaaaaaaaaaaaaaaaaaaaaaaaaaaaaaaaaaa".

Definition doc (id email password full_name : string) : UserDoc.t :=
  UserDoc.mk id email ("salt:" ++ password)%string full_name None "VND"
    (PyFloat.of_Z 25000) "2024-01-01T00:00:00+00:00".

Definition s0 : Store :=
  mkStore [doc "u-an" "an@example.com" "an-pw" "An";
           doc "u-binh" "binh@example.com" "binh-pw" "Binh";
           doc "u-chi" "chi@example.com" "chi-pw" "Chi"]
          [] [] [] [] [] [].

(** [uuid4] answers "0-x", "1-x", ... *)
Definition env : Env :=
  mkEnv (fun k => String (ascii_of_nat (48 + k)) "-x")
        (fun _ => "2024-02-01T00:00:00+00:00").

(** An asks Binh to be friends. *)
Definition s1 : Store :=
  fst (send_friend_request env s0 "binh@example.com" Ex.an).

(** Dung registers and gets the id "0-x" and eight default categories. *)
Definition dung_data : UserRegister.t :=
  UserRegister.mk "dung@example.com" "dung-pw" "Dung".
Definition dung : User.t := User.mk "0-x" "dung@example.com" "Dung".
Definition s_reg : Store := fst (register auth env s0 dung_data).

(** [uuid4] answers "a-y", "b-y", ... *)
Definition env2 : Env :=
  mkEnv (fun k => String (ascii_of_nat (97 + k)) "-y")
        (fun _ => "2024-03-01T00:00:00+00:00").

(** Dung adds a category of their own. *)
Definition books : CategoryCreate.t :=
  CategoryCreate.mk "Books" "Book" "#000000" EXPENSE.
Definition s_cat : Store := fst (create_category env2 s_reg books dung).

(** Dung records a lunch and sets a budget; both get the id "a-y". *)
Definition lunch : TransactionCreate.t :=
  TransactionCreate.mk "1-x" (PyFloat.of_Z 50000) "VND" "Lunch"
    "2024-03-01T12:00:00+00:00" None [].
Definition s_txn : Store := fst (create_transaction env2 s_reg lunch dung).

Definition food_budget : BudgetCreate.t :=
  BudgetCreate.mk "1-x" (PyFloat.of_Z 2000000) "monthly".
Definition s_bud : Store := fst (create_budget env2 s_reg food_budget dung).

(** An switches to USD and leaves the rest of the settings alone. *)
Definition to_usd : UserSettings.t := UserSettings.mk (Some "USD") None None.

(** The store with the 300000 dinner of An, Binh and Chi. *)
Definition s_dinner : Store := with_db s0 Ex.db1.

(** An records a lunch under a category nobody has. *)
Definition s_orphan : Store := fst (create_transaction env2 s0 lunch Ex.an).

(** A stand-in for the [datetime] computations: every period starts with
    the year 2024. *)
Definition cal : Calendar :=
  mkCalendar (fun _ => "2024-01-01T00:00:00+00:00")
             (fun _ => "2024-01-01T00:00:00+00:00")
             (fun _ => "2024-01-01T00:00:00+00:00").
End Ex2.

(** * Properties *)

(** ** Floats: [float(n)] of a positive count is never zero *)

Section FloatFacts.
Import PyFloat.
Local Open Scope Z_scope.

Lemma digits2_pos_size (m : positive) : digits2_pos m = Pos.size m.
Proof. induction m; simpl; congruence. Qed.

Lemma Zdigits2_log2 (m : positive) :
  Zdigits2 (Zpos m) = Z.log2 (Zpos m) + 1.
Proof.
  simpl. rewrite digits2_pos_size.
  destruct m; simpl; try rewrite Pos.add_1_r; reflexivity.
Qed.

Lemma shr_1_m r : 0 <= shr_m r -> shr_m (shr_1 r) = Z.div2 (shr_m r).
Proof.
  destruct r as [m b s]; simpl; intros Hm.
  destruct m as [|p|p]; [reflexivity| |lia].
  destruct p; reflexivity.
Qed.

Lemma iter_pos_shr_m p : forall r,
  0 <= shr_m r -> shr_m (iter_pos shr_1 p r) = Z.shiftr (shr_m r) (Zpos p).
Proof.
  induction p as [p IH|p IH|]; intros r Hr; simpl iter_pos.
  - assert (H1 : 0 <= shr_m (shr_1 r))
      by (rewrite shr_1_m, Z.div2_spec by assumption; now apply Z.shiftr_nonneg).
    assert (H2 : 0 <= shr_m (iter_pos shr_1 p (shr_1 r)))
      by (rewrite IH by assumption; now apply Z.shiftr_nonneg).
    rewrite IH, IH, shr_1_m, Z.div2_spec by assumption.
    rewrite !Z.shiftr_shiftr by lia. f_equal. lia.
  - assert (H2 : 0 <= shr_m (iter_pos shr_1 p r))
      by (rewrite IH by assumption; now apply Z.shiftr_nonneg).
    rewrite IH, IH by assumption.
    rewrite Z.shiftr_shiftr by lia. f_equal. lia.
  - rewrite shr_1_m, Z.div2_spec by assumption. reflexivity.
Qed.

Lemma shr_record_of_loc_m m l : shr_m (shr_record_of_loc m l) = m.
Proof. destruct l as [|[]]; reflexivity. Qed.

(** Above the smallest exponent, the shift of [shr_fexp] drops fewer bits
    than the mantissa has. *)
Lemma shr_fexp_pos (m : positive) e l :
  emin prec emax <= e ->
  0 < shr_m (fst (shr_fexp prec emax (Zpos m) e l)) /\
  e <= snd (shr_fexp prec emax (Zpos m) e l).
Proof.
  intros He. unfold shr_fexp, shr.
  rewrite Zdigits2_log2.
  remember (fexp prec emax (Z.log2 (Z.pos m) + 1 + e) - e) as n eqn:Hn.
  destruct n as [|p|p]; simpl fst; simpl snd;
    rewrite ?shr_record_of_loc_m; try (split; lia).
  rewrite iter_pos_shr_m by (rewrite shr_record_of_loc_m; lia).
  rewrite shr_record_of_loc_m. split; [|lia].
  assert (Hp : Z.pos p <= Z.log2 (Z.pos m))
    by (unfold fexp, emin, prec, emax in *; lia).
  assert (H0 : 0 <= Z.shiftr (Z.pos m) (Z.pos p))
    by (apply Z.shiftr_nonneg; lia).
  assert (H1 : Z.shiftr (Z.pos m) (Z.pos p) <> 0).
  { intros H. apply Z.shiftr_eq_0_iff in H. lia. }
  lia.
Qed.

Lemma round_nearest_even_pos m l : 0 < m -> 0 < round_nearest_even m l.
Proof.
  intros Hm. unfold round_nearest_even.
  destruct l as [|[]]; try lia. destruct (Z.even m); lia.
Qed.

Lemma binary_round_aux_nonzero s (m : positive) e l :
  emin prec emax <= e ->
  is_zero (binary_round_aux prec emax s (Zpos m) e l) = false.
Proof.
  intros He. unfold binary_round_aux.
  destruct (shr_fexp_pos m e l He) as [H1 H2].
  destruct (shr_fexp prec emax (Z.pos m) e l) as [mrs' e'].
  simpl in H1, H2.
  pose proof (round_nearest_even_pos _ (loc_of_shr_record mrs') H1) as H3.
  destruct (round_nearest_even (shr_m mrs') (loc_of_shr_record mrs'))
    as [|m1|m1]; try lia.
  assert (He' : emin prec emax <= e') by lia.
  destruct (shr_fexp_pos m1 e' loc_Exact He') as [H4 H5].
  destruct (shr_fexp prec emax (Z.pos m1) e' loc_Exact) as [mrs'' e''].
  simpl in H4, H5.
  destruct (shr_m mrs'') as [|m2|m2]; try lia.
  destruct (e'' <=? emax - prec); reflexivity.
Qed.

Lemma of_nat_S_nonzero (n : nat) : is_zero (of_nat (S n)) = false.
Proof.
  unfold of_nat, of_Z. rewrite Nat2Z.inj_succ.
  destruct (Z.succ (Z.of_nat n)) as [|p|p] eqn:E; try lia.
  unfold binary_normalize, binary_round, shl_align.
  set (ex' := fexp prec emax (Z.pos (digits2_pos p) + 0)).
  assert (Hex : emin prec emax <= ex') by (unfold ex', fexp; lia).
  destruct (ex' - 0) as [|d|d] eqn:Ed; apply binary_round_aux_nonzero;
    unfold emin, emax, prec in *; lia.
Qed.

(** The decimal rounding step of [round] picks a nearest integer. *)
Lemma round_half_even_nearest num den :
  0 < den ->
  2 * Z.abs (num - round_half_even num den * den) <= den.
Proof.
  intros Hden. unfold round_half_even.
  pose proof (Z.div_mod num den ltac:(lia)) as Hdm.
  pose proof (Z.mod_pos_bound num den Hden) as Hr.
  destruct (Z.compare_spec (2 * (num mod den)) den) as [He|Hl|Hg];
    [destruct (Z.even (num / den))| |]; nia.
Qed.

(** Hence the quotient by the participant count is always defined. *)
Lemma truediv_count (x : float) (n : nat) :
  truediv x (of_nat (S n)) = Some (SFdiv prec emax x (of_nat (S n))).
Proof. unfold truediv. now rewrite of_nat_S_nonzero. Qed.
End FloatFacts.

(** ** Floats: how close a quotient and [round(x, 2)] are to the exact value *)

Section FloatRounding.
Import PyFloat.
Local Open Scope Q_scope.

Lemma bpow_pos e : 0 < bpow e.
Proof. unfold bpow. apply Qpower_0_lt. reflexivity. Qed.

Lemma bpow_add a b : bpow (a + b) == bpow a * bpow b.
Proof. unfold bpow. apply Qpower_plus. discriminate. Qed.

Lemma bpow_le a b : (a <= b)%Z -> bpow a <= bpow b.
Proof. intros H. unfold bpow. apply Qpower_le_compat_l; [exact H|]. discriminate. Qed.

Lemma bpow_Z e : (0 <= e)%Z -> bpow e == inject_Z (2 ^ e).
Proof. intros H. unfold bpow. now rewrite (Zpower_Qpower 2 e H). Qed.

Lemma bpow_1 : bpow 1 == 2.
Proof. reflexivity. Qed.

Lemma bpow_m1 : bpow (-1) == 1 # 2.
Proof. reflexivity. Qed.

Lemma bpow_0 : bpow 0 == 1.
Proof. reflexivity. Qed.

Lemma bpow_opp e : bpow (- e) * bpow e == 1.
Proof.
  rewrite <- bpow_add. replace (- e + e)%Z with 0%Z by lia. reflexivity.
Qed.

Lemma located_ext v v' m l : v == v' -> located v m l -> located v' m l.
Proof.
  intros Hv. destruct l as [|[]]; simpl; rewrite Hv; auto.
Qed.

Lemma inj_xO p : inject_Z (Z.pos p~0) == 2 * inject_Z (Z.pos p).
Proof. rewrite Pos2Z.inj_xO, inject_Z_mult. reflexivity. Qed.

Lemma inj_xI p : inject_Z (Z.pos p~1) == 2 * inject_Z (Z.pos p) + 1.
Proof. rewrite Pos2Z.inj_xI, inject_Z_plus, inject_Z_mult. reflexivity. Qed.

Lemma shr_1_located v r :
  (0 <= shr_m r)%Z ->
  located v (shr_m r) (loc_of_shr_record r) ->
  located (v * (1 # 2)) (shr_m (shr_1 r)) (loc_of_shr_record (shr_1 r)).
Proof.
  destruct r as [m rb sb]. simpl. intros Hm.
  destruct m as [|p|p]; [| |lia].
  - destruct rb, sb; simpl; change (inject_Z 0) with 0; intros H; try destruct H as (H1 & H2 & H3);
      repeat split; lra.
  - destruct p as [p|p|].
    + pose proof (inj_xI p) as Hp.
      destruct rb, sb; simpl; revert Hp;
        generalize (inject_Z (Z.pos p~1)) (inject_Z (Z.pos p));
        intros a b Hp H; try destruct H as (H1 & H2 & H3); repeat split; lra.
    + pose proof (inj_xO p) as Hp.
      destruct rb, sb; simpl; revert Hp;
        generalize (inject_Z (Z.pos p~0)) (inject_Z (Z.pos p));
        intros a b Hp H; try destruct H as (H1 & H2 & H3); repeat split; lra.
    + destruct rb, sb; simpl; change (inject_Z 0) with 0;
        change (inject_Z 1) with 1; intros H; try destruct H as (H1 & H2 & H3); repeat split; lra.
Qed.

Lemma shr_1_nonneg r : (0 <= shr_m r)%Z -> (0 <= shr_m (shr_1 r))%Z.
Proof.
  intros H. rewrite shr_1_m, Z.div2_spec by assumption.
  now apply Z.shiftr_nonneg.
Qed.

Lemma iter_pos_shr_nonneg p r :
  (0 <= shr_m r)%Z -> (0 <= shr_m (iter_pos shr_1 p r))%Z.
Proof.
  intros H. rewrite iter_pos_shr_m by assumption. now apply Z.shiftr_nonneg.
Qed.

(** Shifting out [p] bits divides the located value by [2^p]. *)
Lemma iter_pos_shr_located p : forall r v,
  (0 <= shr_m r)%Z ->
  located v (shr_m r) (loc_of_shr_record r) ->
  located (v * bpow (Z.neg p)) (shr_m (iter_pos shr_1 p r))
          (loc_of_shr_record (iter_pos shr_1 p r)).
Proof.
  induction p as [p IH|p IH|]; intros r v Hr Hv; simpl iter_pos.
  - pose proof (shr_1_nonneg r Hr) as H1.
    pose proof (iter_pos_shr_nonneg p _ H1) as H2.
    apply (located_ext (v * (1 # 2) * bpow (Z.neg p) * bpow (Z.neg p))).
    + replace (Z.neg p~1) with (-1 + (Z.neg p + Z.neg p))%Z by lia.
      rewrite !bpow_add, bpow_m1. ring.
    + apply IH; [exact H2|]. apply IH; [exact H1|]. now apply shr_1_located.
  - pose proof (iter_pos_shr_nonneg p _ Hr) as H2.
    apply (located_ext (v * bpow (Z.neg p) * bpow (Z.neg p))).
    + replace (Z.neg p~0) with (Z.neg p + Z.neg p)%Z by lia.
      rewrite !bpow_add. ring.
    + apply IH; [exact H2|]. now apply IH.
  - apply (located_ext (v * (1 # 2))).
    + change (Z.neg 1) with (-1)%Z. rewrite bpow_m1. reflexivity.
    + now apply shr_1_located.
Qed.

Lemma loc_of_shr_record_of_loc m l :
  loc_of_shr_record (shr_record_of_loc m l) = l.
Proof. destruct l as [|[]]; reflexivity. Qed.

Lemma fexp_eq x : fexp prec emax x = Z.max (x - 53) (-1074).
Proof. reflexivity. Qed.

(** The first shift of the rounding: it brings the exponent to [E] and
    keeps track of where the exact value lies. *)
Lemma shr_fexp_located q e l v :
  (0 <= q)%Z -> located v q l ->
  exists mrs,
    shr_fexp prec emax q e l =
      (mrs, Z.max e (fexp prec emax (Zdigits2 q + e))) /\
    (0 <= shr_m mrs)%Z /\
    shr_m mrs = Z.shiftr q (Z.max e (fexp prec emax (Zdigits2 q + e)) - e) /\
    located (v * bpow (e - Z.max e (fexp prec emax (Zdigits2 q + e))))
            (shr_m mrs) (loc_of_shr_record mrs).
Proof.
  intros Hq Hv. unfold shr_fexp, shr.
  remember (fexp prec emax (Zdigits2 q + e)) as f eqn:Hf.
  destruct (f - e)%Z as [|p|p] eqn:En.
  - exists (shr_record_of_loc q l).
    replace (Z.max e f) with e by lia.
    rewrite shr_record_of_loc_m, loc_of_shr_record_of_loc.
    replace (e - e)%Z with 0%Z by lia.
    repeat split; auto.
    apply (located_ext v); [|exact Hv]. rewrite bpow_0. ring.
  - exists (iter_pos shr_1 p (shr_record_of_loc q l)).
    replace (Z.max e f) with (e + Z.pos p)%Z by lia.
    assert (H0 : (0 <= shr_m (shr_record_of_loc q l))%Z)
      by (now rewrite shr_record_of_loc_m).
    repeat split.
    + now apply iter_pos_shr_nonneg.
    + rewrite iter_pos_shr_m by assumption. rewrite shr_record_of_loc_m.
      f_equal. lia.
    + replace (e - (e + Z.pos p))%Z with (Z.neg p) by lia.
      apply iter_pos_shr_located; [exact H0|].
      now rewrite shr_record_of_loc_m, loc_of_shr_record_of_loc.
  - exists (shr_record_of_loc q l).
    replace (Z.max e f) with e by lia.
    rewrite shr_record_of_loc_m, loc_of_shr_record_of_loc.
    replace (e - e)%Z with 0%Z by lia.
    repeat split; auto.
    apply (located_ext v); [|exact Hv]. rewrite bpow_0. ring.
Qed.

(** Rounding to nearest, ties to even, moves by at most one half. *)
Lemma round_nearest_even_located v m l :
  located v m l ->
  inject_Z (round_nearest_even m l) - (1 # 2) <= v /\
  v <= inject_Z (round_nearest_even m l) + (1 # 2) /\
  (m <= round_nearest_even m l <= m + 1)%Z /\
  (l = loc_Exact -> round_nearest_even m l = m).
Proof.
  assert (H1 : inject_Z (m + 1) == inject_Z m + 1)
    by (rewrite inject_Z_plus; reflexivity).
  unfold round_nearest_even.
  destruct l as [|[]]; simpl; [|destruct (Z.even m)| |]; revert H1;
    generalize (inject_Z (m + 1)) (inject_Z m); intros a b Hab H;
    try destruct H as (Ha & Hb & Hc);
    (split; [lra|split; [lra|split; [lia|]]]); try discriminate; auto.
Qed.

(** ** Binary digits *)

Lemma Zdigits2_nonneg m : (0 <= Zdigits2 m)%Z.
Proof. destruct m; simpl; lia. Qed.

Lemma Zdigits2_bounds m :
  (0 < m)%Z -> (2 ^ (Zdigits2 m - 1) <= m < 2 ^ Zdigits2 m)%Z.
Proof.
  intros Hm. destruct m as [|p|p]; try lia.
  rewrite Zdigits2_log2.
  replace (Z.log2 (Z.pos p) + 1 - 1)%Z with (Z.log2 (Z.pos p)) by lia.
  apply Z.log2_spec. lia.
Qed.

Lemma Zdigits2_le m k :
  (0 <= m)%Z -> (0 <= k)%Z -> (m < 2 ^ k)%Z -> (Zdigits2 m <= k)%Z.
Proof.
  intros Hm Hk Hlt. destruct m as [|p|p]; try lia; [simpl; lia|].
  rewrite Zdigits2_log2.
  assert (Z.log2 (Z.pos p) < k)%Z by (apply Z.log2_lt_pow2; lia). lia.
Qed.

Lemma Zdigits2_gt m k :
  (0 <= k)%Z -> (2 ^ k <= m)%Z -> (k < Zdigits2 m)%Z.
Proof.
  intros Hk Hle.
  assert (0 < 2 ^ k)%Z by (apply Z.pow_pos_nonneg; lia).
  destruct m as [|p|p]; try lia.
  rewrite Zdigits2_log2.
  assert (k <= Z.log2 (Z.pos p))%Z by (apply Z.log2_le_pow2; lia). lia.
Qed.

Lemma shiftr_lt q n k :
  (0 <= q)%Z -> (0 <= n)%Z -> (0 <= k)%Z -> (Zdigits2 q - n <= k)%Z ->
  (Z.shiftr q n < 2 ^ k)%Z.
Proof.
  intros Hq Hn Hk Hd. rewrite Z.shiftr_div_pow2 by assumption.
  assert (H2 : (0 < 2 ^ n)%Z) by (apply Z.pow_pos_nonneg; lia).
  apply Z.div_lt_upper_bound; [exact H2|].
  rewrite <- Z.pow_add_r by assumption.
  destruct (Z.eq_dec q 0) as [->|Hne].
  - apply Z.pow_pos_nonneg; lia.
  - pose proof (Zdigits2_bounds q ltac:(lia)) as [_ Hb].
    eapply Z.lt_le_trans; [exact Hb|].
    apply Z.pow_le_mono_r; lia.
Qed.

Lemma shiftr_ge q n k :
  (0 <= n)%Z -> (0 <= k)%Z -> (k + n < Zdigits2 q)%Z -> (0 < q)%Z ->
  (2 ^ k <= Z.shiftr q n)%Z.
Proof.
  intros Hn Hk Hd Hq. rewrite Z.shiftr_div_pow2 by assumption.
  assert (H2 : (0 < 2 ^ n)%Z) by (apply Z.pow_pos_nonneg; lia).
  apply Z.div_le_lower_bound; [exact H2|].
  rewrite <- Z.pow_add_r by assumption.
  pose proof (Zdigits2_bounds q Hq) as [Hb _].
  eapply Z.le_trans; [|exact Hb].
  apply Z.pow_le_mono_r; lia.
Qed.

(** The second shift of the rounding loses nothing: the rounded mantissa
    has at most [prec] digits, or is [2^prec]. *)
Lemma shr_fexp_exact mr E :
  (0 <= mr <= 2 ^ 53)%Z -> (-1074 <= E)%Z ->
  exists mrs e2,
    shr_fexp prec emax mr E loc_Exact = (mrs, e2) /\
    ((e2 = E /\ shr_m mrs = mr /\ (mr < 2 ^ 53)%Z) \/
     (e2 = (E + 1)%Z /\ mr = (2 ^ 53)%Z /\ shr_m mrs = (2 ^ 52)%Z)).
Proof.
  intros [H0 H1] HE.
  destruct (Z.eq_dec mr (2 ^ 53)) as [->|Hne].
  - exists (Build_shr_record (2 ^ 52) false false), (E + 1)%Z.
    split; [|right; auto].
    unfold shr_fexp. change (Zdigits2 (2 ^ 53)) with 54%Z.
    rewrite fexp_eq.
    replace (Z.max (54 + E - 53) (-1074) - E)%Z with 1%Z by lia.
    reflexivity.
  - exists (shr_record_of_loc mr loc_Exact), E.
    split; [|left; split; [reflexivity|split; [reflexivity|lia]]].
    unfold shr_fexp. rewrite fexp_eq.
    assert (Hd : (Zdigits2 mr <= 53)%Z) by (apply Zdigits2_le; lia).
    unfold shr.
    destruct (Z.max (Zdigits2 mr + E - 53) (-1074) - E)%Z as [|p|p] eqn:En;
      try reflexivity.
    lia.
Qed.

(** What [binary_round_aux] answers for a non-negative mantissa [q] with
    exponent [e] whose exact value [v * 2^e] is located by [q] and [l]: the
    mantissa [mr] nearest to the value at the exponent [E], stored as it is,
    normalised by one bit, or replaced by an infinity. *)
Lemma binary_round_aux_spec s q e l v :
  (0 <= q)%Z -> located v q l ->
  exists mr : Z,
    (Z.shiftr q (Z.max e (fexp prec emax (Zdigits2 q + e)) - e) <= mr
     <= Z.shiftr q (Z.max e (fexp prec emax (Zdigits2 q + e)) - e) + 1)%Z /\
    inject_Z mr - (1 # 2)
      <= v * bpow (e - Z.max e (fexp prec emax (Zdigits2 q + e))) /\
    v * bpow (e - Z.max e (fexp prec emax (Zdigits2 q + e)))
      <= inject_Z mr + (1 # 2) /\
    (l = loc_Exact -> Z.max e (fexp prec emax (Zdigits2 q + e)) = e ->
     mr = q) /\
    ((mr = 0%Z /\ binary_round_aux prec emax s q e l = S754_zero s) \/
     (exists m e2,
         binary_round_aux prec emax s q e l = S754_finite s m e2 /\
         inject_Z (Z.pos m) * bpow e2 ==
         inject_Z mr * bpow (Z.max e (fexp prec emax (Zdigits2 q + e))) /\
         (e2 <= 971)%Z) \/
     (binary_round_aux prec emax s q e l = S754_infinity s /\
      (0 < mr)%Z /\
      ((971 < Z.max e (fexp prec emax (Zdigits2 q + e)))%Z \/
       ((971 <= Z.max e (fexp prec emax (Zdigits2 q + e)))%Z /\
        mr = (2 ^ 53)%Z)))).
Proof.
  intros Hq Hv.
  destruct (shr_fexp_located q e l v Hq Hv) as (mrs & Hshr & Hm0 & Hm & Hloc).
  set (E := Z.max e (fexp prec emax (Zdigits2 q + e))) in *.
  assert (HE : (-1074 <= E)%Z) by (unfold E; rewrite fexp_eq; lia).
  assert (HEe : (0 <= E - e)%Z) by (unfold E; lia).
  destruct (round_nearest_even_located _ _ _ Hloc) as (Hr1 & Hr2 & Hr3 & Hr4).
  set (mr := round_nearest_even (shr_m mrs) (loc_of_shr_record mrs)) in *.
  assert (Hlt : (Z.shiftr q (E - e) < 2 ^ 53)%Z).
  { apply shiftr_lt; try lia. unfold E. rewrite fexp_eq. lia. }
  assert (Hmr : (0 <= mr <= 2 ^ 53)%Z) by lia.
  destruct (shr_fexp_exact mr E Hmr HE) as (mrs2 & e2 & Hshr2 & Hcases).
  exists mr. rewrite <- Hm.
  split; [exact Hr3|]. split; [exact Hr1|]. split; [exact Hr2|].
  split.
  { intros -> Hsame. unfold mr. rewrite Hm, Hsame.
    replace (e - e)%Z with 0%Z by lia. rewrite Z.shiftr_0_r.
    assert (Hl : loc_of_shr_record mrs = loc_Exact).
    { unfold shr_fexp, shr in Hshr. fold E in Hshr.
      destruct (fexp prec emax (Zdigits2 q + e) - e)%Z as [|p|p] eqn:En;
        injection Hshr as <- _; try reflexivity.
      unfold E in Hsame. lia. }
    rewrite Hl. reflexivity. }
  unfold binary_round_aux. rewrite Hshr. fold mr. rewrite Hshr2.
  destruct Hcases as [(-> & Hsm & Hlt53)|(-> & Hmr53 & Hsm)]; rewrite Hsm.
  - destruct mr as [|p|p] eqn:Emr; [left; auto| |lia].
    right. destruct (Z.leb_spec E (emax - prec)) as [Hle|Hgt].
    + left. exists p, E. split; [reflexivity|]. split; [reflexivity|].
      unfold emax, prec in Hle. lia.
    + right. split; [reflexivity|]. split; [lia|]. left.
      unfold emax, prec in Hgt. lia.
  - right. change (2 ^ 52)%Z with (Z.pos 4503599627370496).
    destruct (Z.leb_spec (E + 1) (emax - prec)) as [Hle|Hgt].
    + left. exists 4503599627370496%positive, (E + 1)%Z.
      split; [reflexivity|]. split; [|unfold emax, prec in Hle; lia].
      rewrite Hmr53, bpow_add, bpow_1.
      change (inject_Z (2 ^ 53)) with (2 * inject_Z (Z.pos 4503599627370496)).
      ring.
    + right. split; [reflexivity|]. split; [lia|]. right.
      unfold emax, prec in Hgt. split; [lia|exact Hmr53].
Qed.

Lemma inject_Z_pos_lt p : 0 < inject_Z (Z.pos p).
Proof. change 0 with (inject_Z 0). rewrite <- Zlt_Qlt. lia. Qed.

(** The remainder of a division tells where the quotient lies. *)
Lemma new_location_located q r my :
  (0 < my)%Z -> (0 <= r < my)%Z ->
  located (inject_Z q + inject_Z r / inject_Z my) q (new_location my r).
Proof.
  intros Hmy Hr.
  assert (Hy : 0 < inject_Z my)
    by (change 0 with (inject_Z 0); rewrite <- Zlt_Qlt; lia).
  assert (Hr0 : 0 <= inject_Z r)
    by (change 0 with (inject_Z 0); rewrite <- Zle_Qle; lia).
  assert (Hr1 : inject_Z r < inject_Z my) by (rewrite <- Zlt_Qlt; lia).
  set (t := inject_Z r / inject_Z my).
  assert (Ht : t * inject_Z my == inject_Z r)
    by (unfold t; field; lra).
  clearbody t.
  assert (Ht1 : t < 1) by nra.
  assert (Ht0 : 0 <= t) by nra.
  assert (H2r : inject_Z (2 * r) == 2 * inject_Z r)
    by (rewrite inject_Z_mult; reflexivity).
  assert (Hzero : r = 0%Z -> t == 0).
  { intros ->. change (inject_Z 0) with 0 in Ht. nra. }
  assert (Hpos : r <> 0%Z -> 0 < t).
  { intros Hne.
    assert (Hr2 : 0 < inject_Z r)
      by (change 0 with (inject_Z 0); rewrite <- Zlt_Qlt; lia).
    nra. }
  unfold new_location.
  destruct (Z.even my) eqn:Ev; unfold new_location_even, new_location_odd;
    destruct (Z.eqb_spec r 0) as [Hz|Hne]; unfold located;
    try (rewrite (Hzero Hz); ring);
    pose proof (Hpos Hne) as Ht2; (split; [lra|]); (split; [lra|]).
  - destruct (Z.compare_spec (2 * r) my) as [He|Hl|Hg].
    + assert (inject_Z (2 * r) == inject_Z my) by (now rewrite He). nra.
    + rewrite Zlt_Qlt in Hl. nra.
    + rewrite Zlt_Qlt in Hg. nra.
  - assert (Hodd : Z.odd my = true) by (now rewrite <- Z.negb_even, Ev).
    apply Z.odd_spec in Hodd. destruct Hodd as [k Hk].
    destruct (Z.compare_spec (2 * r + 1) my) as [He|Hl|Hg].
    + assert (Hl : (2 * r < my)%Z) by lia. rewrite Zlt_Qlt in Hl. nra.
    + assert (Hl' : (2 * r < my)%Z) by lia. rewrite Zlt_Qlt in Hl'. nra.
    + assert (Hg' : (my < 2 * r)%Z) by lia. rewrite Zlt_Qlt in Hg'. nra.
Qed.

(** The quotient of two finite floats, the divisor positive: below the
    overflow range the answer is a zero or a finite float of the sign of the
    dividend, within half a unit in the last place of the exact quotient. *)
Lemma SFdiv_spec sx mx ex my ey :
  inject_Z (Z.pos mx) * bpow ex / (inject_Z (Z.pos my) * bpow ey)
    <= bpow 1023 ->
  exists R : Q,
    Qabs (R - inject_Z (Z.pos mx) * bpow ex / (inject_Z (Z.pos my) * bpow ey))
      <= bpow (-1075) +
         bpow (-53) *
         (inject_Z (Z.pos mx) * bpow ex / (inject_Z (Z.pos my) * bpow ey)) /\
    ((R == 0 /\
      SFdiv prec emax (S754_finite sx mx ex) (S754_finite false my ey)
      = S754_zero sx) \/
     (exists m e2,
         R == inject_Z (Z.pos m) * bpow e2 /\
         SFdiv prec emax (S754_finite sx mx ex) (S754_finite false my ey)
         = S754_finite sx m e2)).
Proof.
  set (A := inject_Z (Z.pos mx)). set (B := inject_Z (Z.pos my)).
  set (XY := A * bpow ex / (B * bpow ey)).
  intros Hbound.
  assert (HA : 0 < A) by apply inject_Z_pos_lt.
  assert (HB : 0 < B) by apply inject_Z_pos_lt.
  pose proof (bpow_pos ex) as Hbx. pose proof (bpow_pos ey) as Hby.
  unfold SFdiv, SFdiv_core_binary.
  set (d1 := Zdigits2 (Z.pos mx)). set (d2 := Zdigits2 (Z.pos my)).
  set (e' := Z.min (fexp prec emax (d1 + ex - (d2 + ey))) (ex - ey)).
  assert (He' : e' = Z.min (Z.max (d1 + ex - (d2 + ey) - 53) (-1074)) (ex - ey))
    by reflexivity.
  clearbody e'.
  set (s := (ex - ey - e')%Z).
  assert (Hs : (0 <= s)%Z) by (unfold s; lia).
  set (m' := match s with
             | 0%Z => Z.pos mx
             | Z.pos _ => Z.shiftl (Z.pos mx) s
             | Z.neg _ => 0%Z
             end).
  assert (Hm' : m' = (Z.pos mx * 2 ^ s)%Z).
  { unfold m'. destruct s as [|p|p] eqn:Es;
      [simpl; lia|apply Z.shiftl_mul_pow2; lia|lia]. }
  clearbody m'.
  pose proof (Z_div_mod m' (Z.pos my) ltac:(lia)) as Hdiv.
  destruct (Z.div_eucl m' (Z.pos my)) as [q r]. destruct Hdiv as [Hqr Hr].
  assert (H2s : (0 < 2 ^ s)%Z) by (apply Z.pow_pos_nonneg; lia).
  assert (Hq : (0 <= q)%Z) by nia.
  rewrite Bool.xorb_false_r.
  pose proof (new_location_located q r (Z.pos my) ltac:(lia) Hr) as Hloc.
  fold B in Hloc.
  set (v := inject_Z q + inject_Z r / B) in *.
  assert (Hqv : inject_Z q <= v).
  { unfold v. assert (0 <= inject_Z r / B); [|lra].
    apply Qle_shift_div_l; [exact HB|].
    rewrite Qmult_0_l. change 0 with (inject_Z 0). rewrite <- Zle_Qle. lia. }
  assert (Hv : v * bpow e' == XY).
  { unfold v, XY.
    assert (Hm'Q : inject_Z q * B + inject_Z r == A * bpow s).
    { unfold A, B. rewrite (bpow_Z s Hs), <- !inject_Z_mult, <- inject_Z_plus.
      assert (Hz : (q * Z.pos my + r = Z.pos mx * 2 ^ s)%Z) by lia.
      now rewrite Hz. }
    assert (Hbs : bpow ex == bpow e' * bpow s * bpow ey).
    { rewrite <- !bpow_add. replace (e' + s + ey)%Z with ex by (unfold s; lia).
      reflexivity. }
    rewrite Hbs.
    transitivity ((inject_Z q * B + inject_Z r) * bpow e' / B);
      [field; lra|]. rewrite Hm'Q. field. split; lra. }
  clearbody v.
  destruct (binary_round_aux_spec sx q e' (new_location (Z.pos my) r) v Hq Hloc)
    as (mr & Hmr & Hlo & Hhi & _ & Hshape).
  set (E := Z.max e' (fexp prec emax (Zdigits2 q + e'))) in *.
  assert (Hd1 : (1 <= d1)%Z) by (unfold d1; simpl; lia).
  assert (Hd2 : (1 <= d2)%Z) by (unfold d2; simpl; lia).
  assert (Hdq : (d1 + s - d2 <= Zdigits2 q)%Z).
  { destruct (Z_le_gt_dec (d1 + s - d2) 0) as [Hle|Hgt];
      [pose proof (Zdigits2_nonneg q); lia|].
    assert (Hk : (d1 + s - d2 - 1 < Zdigits2 q)%Z); [|lia].
    apply Zdigits2_gt; [lia|].
    pose proof (Zdigits2_bounds (Z.pos mx) ltac:(lia)) as [Hlo1 _].
    pose proof (Zdigits2_bounds (Z.pos my) ltac:(lia)) as [_ Hhi2].
    fold d1 in Hlo1. fold d2 in Hhi2.
    assert (Hpow : (2 ^ (d1 - 1) * 2 ^ s = 2 ^ (d1 + s - d2 - 1) * 2 ^ d2)%Z).
    { rewrite <- !Z.pow_add_r by lia. f_equal. lia. }
    assert (H2k : (0 < 2 ^ (d1 + s - d2 - 1))%Z)
      by (apply Z.pow_pos_nonneg; lia).
    revert Hpow H2k Hlo1 Hhi2.
    generalize (2 ^ (d1 + s - d2 - 1))%Z (2 ^ (d1 - 1))%Z (2 ^ d2)%Z.
    intros PK P1 PD Hpow H2k Hlo1 Hhi2.
    assert (H1 : (PK * (Z.pos my + 1) <= PK * PD)%Z) by nia.
    assert (H2 : (P1 * 2 ^ s <= m')%Z) by nia.
    assert (H3 : (PK * Z.pos my + PK <= Z.pos my * q + r)%Z) by nia.
    nia. }
  assert (HEf : E = Z.max (Zdigits2 q + e' - 53) (-1074)).
  { unfold E. rewrite fexp_eq. unfold s in Hdq. lia. }
  assert (HwE : XY == v * bpow (e' - E) * bpow E).
  { rewrite <- Hv, <- Qmult_assoc, <- bpow_add.
    replace (e' - E + E)%Z with e' by lia. reflexivity. }
  set (w := v * bpow (e' - E)) in *. clearbody w.
  pose proof (bpow_pos E) as HbEpos.
  assert (HXY0 : 0 <= XY).
  { rewrite <- Hv. pose proof (bpow_pos e').
    assert (0 <= inject_Z q)
      by (change 0 with (inject_Z 0); rewrite <- Zle_Qle; lia).
    nra. }
  pose proof (bpow_pos (-53)) as Hc53.
  pose proof (bpow_pos (-1075)) as Hc1075.
  assert (HbE : E <> (-1074)%Z -> bpow E * (1 # 2) <= bpow (-53) * XY).
  { intros HEn.
    assert (Hq0 : (0 < q)%Z).
    { destruct (Z.eq_dec q 0) as [->|]; [|lia].
      exfalso. simpl Zdigits2 in *. unfold E in HEf. lia. }
    assert (HEq : E = (Zdigits2 q - 1 + (e' + (-53 + 1)))%Z) by lia.
    pose proof (Zdigits2_bounds q Hq0) as [Hlo2 _].
    pose proof (Zdigits2_nonneg q) as Hdn.
    assert (Hd : (1 <= Zdigits2 q)%Z)
      by (destruct q; simpl in *; lia).
    rewrite Zle_Qle in Hlo2. rewrite <- bpow_Z in Hlo2 by lia.
    rewrite HEq, !bpow_add, bpow_1, <- Hv.
    pose proof (bpow_pos e'). pose proof (bpow_pos (Zdigits2 q - 1)).
    assert (bpow (Zdigits2 q - 1) * bpow e' <= v * bpow e') by nra.
    nra. }
  assert (HbE' : bpow E * (1 # 2) <= bpow (-1075) + bpow (-53) * XY).
  { destruct (Z.eq_dec E (-1074)) as [HEm|HEn].
    - rewrite HEm. change (-1074)%Z with (-1075 + 1)%Z.
      rewrite bpow_add, bpow_1. nra.
    - pose proof (HbE HEn). lra. }
  exists (inject_Z mr * bpow E).
  split.
  { apply Qabs_Qle_condition. fold XY. split; nra. }
  destruct Hshape as [(Hmr0 & Hres)|[(m & e2 & Hres & Hval & _)|
                                     (Hres & Hmrpos & Hbig)]].
  - left. split; [|exact Hres]. rewrite Hmr0. change (inject_Z 0) with 0. ring.
  - right. exists m, e2. split; [now rewrite Hval|exact Hres].
  - exfalso.
    assert (HEn : E <> (-1074)%Z) by lia.
    pose proof (HbE HEn) as Hhalf.
    assert (Hq0 : (0 < q)%Z).
    { destruct (Z.eq_dec q 0) as [->|]; [|lia].
      simpl Zdigits2 in *. lia. }
    assert (H52 : (2 ^ 52 <= mr)%Z).
    { eapply Z.le_trans; [|apply Hmr].
      apply shiftr_ge; try lia. }
    assert (HR : bpow 1024 <= inject_Z mr * bpow E).
    { destruct Hbig as [Hbig|[Hbig Hmr53]].
      - assert (Hb : bpow 972 <= bpow E) by (apply bpow_le; lia).
        rewrite Zle_Qle in H52.
        change (inject_Z (2 ^ 52)) with (bpow 52) in H52.
        change 1024%Z with (52 + 972)%Z. rewrite bpow_add.
        pose proof (bpow_pos 52). pose proof (bpow_pos 972). nra.
      - assert (Hb : bpow 971 <= bpow E) by (apply bpow_le; lia).
        rewrite Hmr53. change (inject_Z (2 ^ 53)) with (bpow 53).
        change 1024%Z with (53 + 971)%Z. rewrite bpow_add.
        pose proof (bpow_pos 53). pose proof (bpow_pos 971). nra. }
    assert (Hup : inject_Z mr * bpow E <= XY + bpow E * (1 # 2)) by nra.
    assert (Hc : bpow (-53) <= 1 # 2)
      by (rewrite <- bpow_m1; apply bpow_le; lia).
    assert (HP : 4 <= bpow 1023)
      by (change 4 with (bpow 2); apply bpow_le; lia).
    assert (H1024 : bpow 1024 == 2 * bpow 1023).
    { change 1024%Z with (1 + 1023)%Z. rewrite bpow_add, bpow_1. reflexivity. }
    nra.
Qed.

(** ** [float(n)] is exact below [2^53] *)

Lemma Pos_iter_xO k : forall m,
  Z.pos (Pos.iter xO m k) = (Z.pos m * 2 ^ Z.pos k)%Z.
Proof.
  induction k as [|k IH] using Pos.peano_ind; intros m.
  - simpl. lia.
  - rewrite Pos.iter_succ, Pos2Z.inj_xO, IH, Pos2Z.inj_succ, Z.pow_succ_r by lia.
    lia.
Qed.

Lemma Zdigits2_mul_pow2 m k :
  (0 <= k)%Z -> Zdigits2 (Z.pos m * 2 ^ k) = (Zdigits2 (Z.pos m) + k)%Z.
Proof.
  intros Hk.
  assert (H2 : (0 < 2 ^ k)%Z) by (apply Z.pow_pos_nonneg; lia).
  destruct (Z.pos m * 2 ^ k)%Z as [|p|p] eqn:Ep; try lia.
  rewrite !Zdigits2_log2, <- Ep, Z.log2_mul_pow2 by lia. lia.
Qed.

Lemma of_Z_exact p :
  (Z.pos p < 2 ^ 53)%Z ->
  exists my ey,
    of_Z (Z.pos p) = S754_finite false my ey /\
    inject_Z (Z.pos my) * bpow ey == inject_Z (Z.pos p).
Proof.
  intros Hp. unfold of_Z, binary_normalize, binary_round.
  change (Z.pos (digits2_pos p)) with (Zdigits2 (Z.pos p)).
  assert (Hd : (Zdigits2 (Z.pos p) <= 53)%Z) by (apply Zdigits2_le; lia).
  assert (Hd1 : (1 <= Zdigits2 (Z.pos p))%Z) by (simpl; lia).
  rewrite fexp_eq. unfold shl_align.
  replace (Z.max (Zdigits2 (Z.pos p) + 0 - 53) (-1074) - 0)%Z
    with (Zdigits2 (Z.pos p) - 53)%Z by lia.
  assert (Hmain : forall mz ez,
             (ez <= 0)%Z -> (-52 <= ez)%Z ->
             Z.pos mz = (Z.pos p * 2 ^ (- ez))%Z ->
             Zdigits2 (Z.pos mz) = 53%Z ->
             exists my ey,
               binary_round_aux prec emax false (Z.pos mz) ez loc_Exact
               = S754_finite false my ey /\
               inject_Z (Z.pos my) * bpow ey == inject_Z (Z.pos p)).
  { intros mz ez Hez Hez' Hmz Hdz.
    destruct (binary_round_aux_spec false (Z.pos mz) ez loc_Exact
                (inject_Z (Z.pos mz)) ltac:(lia))
      as (mr & _ & _ & _ & Hexact & Hshape); [simpl; reflexivity|].
    rewrite Hdz, fexp_eq in Hexact, Hshape.
    replace (Z.max ez (Z.max (53 + ez - 53) (-1074))) with ez
      in Hexact, Hshape by lia.
    specialize (Hexact eq_refl eq_refl). subst mr.
    destruct Hshape as [(H0 & _)|[(m & e2 & Hres & Hval & _)|(_ & _ & Hbig)]];
      [lia| |lia].
    exists m, e2. split; [exact Hres|]. rewrite Hval, Hmz, inject_Z_mult.
    rewrite <- (bpow_Z (- ez)) by lia.
    rewrite <- Qmult_assoc, bpow_opp. ring. }
  destruct (Zdigits2 (Z.pos p) - 53)%Z as [|k|k] eqn:Ek; try lia.
  - apply Hmain; lia.
  - replace (Z.max (Zdigits2 (Z.pos p) + 0 - 53) (-1074)) with (Z.neg k) by lia.
    apply Hmain; try lia.
    + rewrite Pos_iter_xO. reflexivity.
    + rewrite Pos_iter_xO, Zdigits2_mul_pow2 by lia. lia.
Qed.

(** ** The decimal step of [round(x, 2)] *)

Lemma round_half_even_nonneg num den :
  (0 <= num)%Z -> (0 < den)%Z -> (0 <= round_half_even num den)%Z.
Proof.
  intros Hn Hd. unfold round_half_even.
  pose proof (Z.div_pos num den Hn Hd).
  destruct (2 * (num mod den) ?= den)%Z; [destruct (Z.even (num / den))| |]; lia.
Qed.

(** The number of hundredths [round] settles on is a nearest integer to
    a hundred times the exact value of the float. *)
Lemma scaled_round_spec m e :
  (0 <= scaled_round m e 2)%Z /\
  Qabs (inject_Z (scaled_round m e 2) - 100 * (inject_Z (Z.pos m) * bpow e))
    <= 1 # 2.
Proof.
  unfold scaled_round. change (10 ^ Z.of_nat 2)%Z with 100%Z.
  assert (Hexact : forall e0, (0 <= e0)%Z ->
            (0 <= Z.pos m * 2 ^ e0 * 100)%Z /\
            Qabs (inject_Z (Z.pos m * 2 ^ e0 * 100) -
                  100 * (inject_Z (Z.pos m) * bpow e0)) <= 1 # 2).
  { intros e0 He0.
    assert (H2 : (0 < 2 ^ e0)%Z) by (apply Z.pow_pos_nonneg; lia).
    split; [nia|].
    rewrite !inject_Z_mult, <- (bpow_Z e0 He0).
    apply Qabs_Qle_condition. change (inject_Z 100) with 100.
    split; [|]; ring_simplify; discriminate. }
  destruct e as [|k|k]; [apply (Hexact 0%Z); lia|apply Hexact; lia|].
  assert (Hden : (0 < 2 ^ Z.pos k)%Z) by (apply Z.pow_pos_nonneg; lia).
  split; [apply round_half_even_nonneg; lia|].
  pose proof (round_half_even_nearest (Z.pos m * 100) (2 ^ Z.pos k) Hden) as Hn.
  set (d := round_half_even (Z.pos m * 100) (2 ^ Z.pos k)) in *.
  assert (Hb : bpow (Z.neg k) * inject_Z (2 ^ Z.pos k) == 1).
  { rewrite <- (bpow_Z (Z.pos k)) by lia.
    change (Z.neg k) with (- Z.pos k)%Z. apply bpow_opp. }
  assert (HD : 0 < inject_Z (2 ^ Z.pos k))
    by (change 0 with (inject_Z 0); rewrite <- Zlt_Qlt; lia).
  pose proof (bpow_pos (Z.neg k)) as Hbp.
  apply Qabs_Qle_condition.
  assert (Hn1 : (2 * (Z.pos m * 100) <= 2 ^ Z.pos k + 2 * (d * 2 ^ Z.pos k))%Z)
    by lia.
  assert (Hn2 : (2 * (d * 2 ^ Z.pos k) <= 2 ^ Z.pos k + 2 * (Z.pos m * 100))%Z)
    by lia.
  rewrite Zle_Qle in Hn1, Hn2.
  rewrite !inject_Z_plus, !inject_Z_mult in Hn1, Hn2.
  change (inject_Z 2) with 2 in *. change (inject_Z 100) with 100 in *.
  revert Hn1 Hn2 Hb HD Hbp.
  generalize (inject_Z (2 ^ Z.pos k)) (bpow (Z.neg k)) (inject_Z d)
             (inject_Z (Z.pos m)).
  intros D b dd mm Hn1 Hn2 Hb HD Hbp.
  assert (H1 : dd - 100 * (mm * b) == (dd * D - 100 * mm) * b)
    by (transitivity (dd * (b * D) - 100 * (mm * b)); [rewrite Hb|]; ring).
  rewrite H1. split; nra.
Qed.

(** ** The share [round(total / n, 2)] *)

Lemma bpow_consts :
  bpow (-1075) * 2 <= bpow (-53) /\ bpow (-53) * 4 == bpow (-51) /\
  bpow (-53) <= 1 # 2 /\ 4 <= bpow 1022 /\ bpow 1023 == 2 * bpow 1022 /\
  0 < bpow (-1075) /\ 0 < bpow (-53).
Proof.
  assert (K1 : bpow (-1075) * 2 <= bpow (-53)).
  { assert (H : bpow (-53) == bpow (-1075) * bpow 1022)
      by (rewrite <- bpow_add; reflexivity).
    rewrite H. pose proof (bpow_pos (-1075)).
    assert (bpow 1 <= bpow 1022) by (apply bpow_le; lia).
    rewrite bpow_1 in *. nra. }
  assert (K2 : bpow (-53) * 4 == bpow (-51)).
  { assert (H : bpow (-51) == bpow (-53) * bpow 2)
      by (rewrite <- bpow_add; reflexivity).
    rewrite H. reflexivity. }
  assert (K3 : bpow (-53) <= 1 # 2)
    by (rewrite <- bpow_m1; apply bpow_le; lia).
  assert (K4 : 4 <= bpow 1022).
  { assert (H : bpow 2 <= bpow 1022) by (apply bpow_le; lia). exact H. }
  assert (K5 : bpow 1023 == 2 * bpow 1022).
  { assert (H : bpow 1023 == bpow 1 * bpow 1022)
      by (rewrite <- bpow_add; reflexivity).
    rewrite H, bpow_1. reflexivity. }
  pose proof (bpow_pos (-1075)). pose proof (bpow_pos (-53)). tauto.
Qed.

(** The share of a positive finite total [mx * 2^ex] among [n]: the
    hundredths [d] that [round] settles on, and the magnitude [R] of the
    float it answers with. *)
Lemma rounded_share_magnitude s mx ex (n : positive) :
  inject_Z (Z.pos mx) * bpow ex <= bpow 1022 ->
  (Z.pos n < 2 ^ 53)%Z ->
  exists (d : Z) (R : Q),
    (0 <= d)%Z /\
    Qabs (inject_Z d / 100 - inject_Z (Z.pos mx) * bpow ex / inject_Z (Z.pos n))
      <= (1 # 200) + bpow (-1075) +
         bpow (-53) * (inject_Z (Z.pos mx) * bpow ex / inject_Z (Z.pos n)) /\
    Qabs (R - inject_Z d / 100) <= bpow (-1075) + bpow (-53) * (inject_Z d / 100) /\
    ((R == 0 /\
      round (SFdiv prec emax (S754_finite s mx ex) (of_Z (Z.pos n))) 2
      = S754_zero s) \/
     (exists m e,
         R == inject_Z (Z.pos m) * bpow e /\
         round (SFdiv prec emax (S754_finite s mx ex) (of_Z (Z.pos n))) 2
         = S754_finite s m e)).
Proof.
  intros HX Hn.
  destruct (of_Z_exact n Hn) as (my & ey & -> & HY).
  destruct bpow_consts as (K1 & K2 & K3 & K4 & K5 & K6 & K7).
  set (X := inject_Z (Z.pos mx) * bpow ex) in *.
  assert (HX0 : 0 < X).
  { unfold X. pose proof (inject_Z_pos_lt mx). pose proof (bpow_pos ex). nra. }
  set (N := inject_Z (Z.pos n)) in *.
  assert (HN : 1 <= N).
  { unfold N. change 1 with (inject_Z 1). rewrite <- Zle_Qle. lia. }
  set (XN := X / N).
  assert (HXN : XN * N == X) by (unfold XN; field; lra).
  assert (HXN0 : 0 < XN) by nra.
  assert (HXN1 : XN <= X) by nra.
  assert (HXY : X / (inject_Z (Z.pos my) * bpow ey) == XN).
  { unfold XN. now rewrite HY. }
  destruct (SFdiv_spec s mx ex my ey) as (R1 & Herr1 & Hshape1).
  { fold X. rewrite HXY. lra. }
  fold X in Herr1. rewrite HXY in Herr1.
  apply Qabs_Qle_condition in Herr1. destruct Herr1 as [Hlo1 Hhi1].
  assert (Hzero : forall R,
            R == 0 -> R1 <= 1 # 200 ->
            Qabs (inject_Z 0 / 100 - XN) <=
              (1 # 200) + bpow (-1075) + bpow (-53) * XN /\
            Qabs (R - inject_Z 0 / 100) <=
              bpow (-1075) + bpow (-53) * (inject_Z 0 / 100)).
  { intros R HR HR1.
    assert (Hz : inject_Z 0 / 100 == 0) by reflexivity. rewrite Hz.
    split; apply Qabs_Qle_condition; split; nra. }
  destruct Hshape1 as [(HR1 & ->)|(m & e2 & HR1 & ->)].
  - exists 0%Z, 0. split; [lia|].
    destruct (Hzero 0 ltac:(reflexivity) ltac:(lra)) as [H1 H2].
    split; [exact H1|]. split; [exact H2|].
    left. split; reflexivity.
  - unfold round. change (NDIGITS_MAX <? 2)%nat with false. cbv iota.
    change (Z.to_pos (10 ^ Z.of_nat 2)) with 100%positive.
    destruct (scaled_round_spec m e2) as [Hd0 Hd].
    rewrite <- HR1 in Hd.
    apply Qabs_Qle_condition in Hd. destruct Hd as [Hdlo Hdhi].
    destruct (scaled_round m e2 2) as [|d|d] eqn:Ed; [|clear Hzero|lia].
    + exists 0%Z, 0. split; [lia|].
      change (inject_Z 0) with 0 in Hdlo, Hdhi.
      destruct (Hzero 0 ltac:(reflexivity) ltac:(lra)) as [H1 H2].
      split; [exact H1|]. split; [exact H2|].
      left. split; reflexivity.
    + set (D := inject_Z (Z.pos d)) in *.
      set (h := D / 100).
      assert (Hh : h * 100 == D) by (unfold h; field).
      assert (HD100 : D * bpow 0 / (inject_Z 100 * bpow 0) == h).
      { unfold h. rewrite bpow_0. change (inject_Z 100) with 100. field. }
      assert (Hpre : D * bpow 0 / (inject_Z 100 * bpow 0) <= bpow 1023).
      { rewrite HD100. clearbody h D XN. nra. }
      destruct (SFdiv_spec s d 0 100 0 Hpre) as (R2 & Herr2 & Hshape2).
      fold D in Herr2. rewrite HD100 in Herr2.
      exists (Z.pos d), R2. fold D. fold h. split; [lia|].
      split; [clearbody h D XN; apply Qabs_Qle_condition; split; lra|].
      split; [exact Herr2|].
      destruct Hshape2 as [(HR2 & ->)|(m2 & e3 & HR2 & ->)];
        [left; auto|right; exists m2, e3; auto].
Qed.

Lemma to_Q_finite s m e :
  to_Q (S754_finite s m e) =
  if s then - (inject_Z (Z.pos m) * bpow e) else inject_Z (Z.pos m) * bpow e.
Proof. reflexivity. Qed.

(** The stored share: [round(total / n, 2)] is the binary64 nearest to a
    number of hundredths that is nearest to the binary64 quotient, so it is
    within half a hundredth of the exact share, up to the two binary64
    roundings. *)
Lemma rounded_share_spec (T : float) (n : positive) :
  finite_float T = true ->
  Qabs (to_Q T) <= bpow 1022 ->
  (Z.pos n < 2 ^ 53)%Z ->
  exists cents : Z,
    Qabs (inject_Z cents / 100 - to_Q T / inject_Z (Z.pos n))
      <= (1 # 200) + bpow (-1075) +
         bpow (-53) * (Qabs (to_Q T) / inject_Z (Z.pos n)) /\
    Qabs (to_Q (round (SFdiv prec emax T (of_Z (Z.pos n))) 2) -
          inject_Z cents / 100)
      <= bpow (-1075) + bpow (-53) * Qabs (inject_Z cents / 100) /\
    Qabs (to_Q (round (SFdiv prec emax T (of_Z (Z.pos n))) 2) -
          to_Q T / inject_Z (Z.pos n))
      <= (1 # 200) + (Qabs (to_Q T) / inject_Z (Z.pos n) + 1) * bpow (-51) /\
    finite_float (round (SFdiv prec emax T (of_Z (Z.pos n))) 2) = true.
Proof.
  intros Hfin HT Hn.
  destruct bpow_consts as (K1 & K2 & K3 & K4 & K5 & K6 & K7).
  pose proof (bpow_pos (-51)) as K8.
  assert (HN : 1 <= inject_Z (Z.pos n)).
  { change 1 with (inject_Z 1). rewrite <- Zle_Qle. lia. }
  destruct T as [s|s| |s mx ex]; try discriminate.
  - destruct (of_Z_exact n Hn) as (my & ey & -> & _).
    exists 0%Z. cbn [SFdiv round to_Q finite_float].
    assert (Hz : inject_Z 0 / 100 == 0) by reflexivity.
    assert (Hz' : 0 / inject_Z (Z.pos n) == 0) by (unfold Qdiv; ring).
    assert (Ha : Qabs 0 == 0) by reflexivity.
    rewrite Hz, Hz', Ha, Hz'.
    repeat split; try reflexivity; apply Qabs_Qle_condition; split; nra.
  - rewrite to_Q_finite in *.
    set (X := inject_Z (Z.pos mx) * bpow ex) in *.
    assert (HX0 : 0 < X).
    { unfold X. pose proof (inject_Z_pos_lt mx). pose proof (bpow_pos ex).
      nra. }
    assert (HabsT : Qabs (if s then - X else X) == X).
    { destruct s; [rewrite Qabs_opp|]; apply Qabs_pos; lra. }
    rewrite HabsT in HT.
    destruct (rounded_share_magnitude s mx ex n HT Hn)
      as (d & R & Hd & H1 & H2 & Hshape).
    fold X in H1.
    set (N := inject_Z (Z.pos n)) in *.
    set (XN := X / N) in *.
    assert (HXN : XN * N == X) by (unfold XN; field; lra).
    assert (HXN0 : 0 < XN) by nra.
    assert (HTN : (if s then - X else X) / N == if s then - XN else XN).
    { unfold XN. destruct s; field; lra. }
    set (dd := inject_Z d / 100) in *.
    assert (Hdd : 0 <= dd).
    { unfold dd. apply Qle_shift_div_l; [reflexivity|].
      rewrite Qmult_0_l. change 0 with (inject_Z 0). rewrite <- Zle_Qle. lia. }
    exists (if s then (- d)%Z else d).
    assert (Hc : inject_Z (if s then (- d)%Z else d) / 100
                 == if s then - dd else dd).
    { unfold dd. destruct s; [rewrite inject_Z_opp; field|reflexivity]. }
    rewrite HabsT, HTN, Hc. fold XN.
    assert (Habsd : Qabs (if s then - dd else dd) == dd).
    { destruct s; [rewrite Qabs_opp|]; apply Qabs_pos; lra. }
    rewrite Habsd.
    assert (HR0 : 0 <= R).
    { destruct Hshape as [(HR & _)|(m & e & HR & _)]; rewrite HR; [lra|].
      pose proof (inject_Z_pos_lt m). pose proof (bpow_pos e). nra. }
    assert (Ha : to_Q (round (SFdiv prec emax (S754_finite s mx ex)
                                 (of_Z (Z.pos n))) 2)
                 == if s then - R else R).
    { destruct Hshape as [(HR & ->)|(m & e & HR & ->)].
      - simpl. destruct s; rewrite HR; reflexivity.
      - rewrite to_Q_finite. destruct s; rewrite HR; reflexivity. }
    assert (Hf : finite_float (round (SFdiv prec emax (S754_finite s mx ex)
                                        (of_Z (Z.pos n))) 2) = true).
    { destruct Hshape as [(_ & ->)|(m & e & _ & ->)]; reflexivity. }
    rewrite Ha. clear Ha Hshape Hc HTN.
    apply Qabs_Qle_condition in H1, H2.
    clearbody dd XN. clear HabsT Habsd.
    destruct H1 as [H1a H1b], H2 as [H2a H2b].
    assert (Hdd2 : dd <= 2 * XN + 1) by nra.
    assert (Hp : bpow (-53) * (dd + XN) <= bpow (-53) * (3 * XN + 1)) by nra.
    split; [|split; [|split; [|exact Hf]]]; apply Qabs_Qle_condition;
      destruct s; split; nra.
Qed.
End FloatRounding.

(** ** The participant list built by [create_shared_expense] *)

Lemma resolve_participants_acc us emails : forall acc,
  resolve_participants us emails acc =
  acc ++ map invitee_entry (resolved_users us emails).
Proof.
  induction emails as [|email rest IH]; intros acc; simpl.
  - now rewrite app_nil_r.
  - destruct (find_user_by_email us email) as [user|].
    + rewrite IH, <- app_assoc. reflexivity.
    + apply IH.
Qed.

Lemma find_user_by_email_email us email user :
  find_user_by_email us email = Some user -> User.email user = email.
Proof.
  unfold find_user_by_email. intros H.
  apply find_some in H. now apply String.eqb_eq.
Qed.

Lemma find_user_by_email_In us user :
  In user us -> find_user_by_email us (User.email user) <> None.
Proof.
  unfold find_user_by_email. intros Hin Hnone.
  apply (find_none _ _ Hnone) in Hin.
  now rewrite String.eqb_refl in Hin.
Qed.

Lemma get_current_user_In db sub user :
  get_current_user db sub = Return user -> In user (users db).
Proof.
  unfold get_current_user. destruct sub as [user_id|]; [|discriminate].
  destruct (String.eqb user_id ""); [discriminate|].
  destruct (find _ (users db)) as [found|] eqn:E; [|discriminate].
  intros [= <-]. now apply find_some in E.
Qed.

(** Every resolved identity is the answer of the store for its own email
    and comes from an email of the invitation. *)
Lemma resolved_users_resolve us emails user :
  In user (resolved_users us emails) ->
  In (User.email user) emails /\
  find_user_by_email us (User.email user) = Some user.
Proof.
  induction emails as [|email rest IH]; simpl; [tauto|].
  destruct (find_user_by_email us email) as [found|] eqn:E.
  - intros [->|Hin].
    + pose proof (find_user_by_email_email _ _ _ E) as Hm.
      rewrite Hm. auto.
    + destruct (IH Hin). auto.
  - intros Hin. destruct (IH Hin). auto.
Qed.

Lemma resolved_users_none us emails :
  (forall email, In email emails -> find_user_by_email us email = None) ->
  resolved_users us emails = [].
Proof.
  induction emails as [|email rest IH]; simpl; intros H; [reflexivity|].
  rewrite (H email) by auto. apply IH. auto.
Qed.

Lemma resolved_users_length us emails :
  (List.length (resolved_users us emails) <= List.length emails)%nat.
Proof.
  induction emails as [|email rest IH]; simpl; [lia|].
  destruct (find_user_by_email us email); simpl; lia.
Qed.

Lemma built_participants_length db expense_data current_user :
  List.length (built_participants db expense_data current_user) =
  S (List.length (resolved_users (users db)
                    (SharedExpenseCreate.participant_emails expense_data))).
Proof.
  unfold built_participants. rewrite length_app, length_map. simpl. lia.
Qed.

Lemma set_amount_same p : P.set_amount p (P.amount p) = p.
Proof. now destruct p. Qed.

Lemma calculate_split_returns db expense_data current_user :
  calculate_split expense_data
    (built_participants db expense_data current_user) =
  Return (stored_participants db expense_data current_user).
Proof.
  unfold calculate_split, stored_participants, share_of.
  destruct (SharedExpenseCreate.split_type expense_data).
  - rewrite built_participants_length, truediv_count. reflexivity.
  - f_equal.
    transitivity (map (fun p : P.t => p)
                      (built_participants db expense_data current_user)).
    + now rewrite map_id.
    + apply map_ext. intros p. now rewrite set_amount_same.
Qed.

(** [create_shared_expense] never raises: it stores one document and
    returns it. *)
Lemma create_shared_expense_returns env db expense_data current_user :
  create_shared_expense env db expense_data current_user =
    (mkDB (users db)
          (shared_expenses db ++ [created_doc env db expense_data current_user])
          (notifications db ++
             create_notifications env 1
               (SharedExpenseCreate.title expense_data) current_user
               (stored_participants db expense_data current_user)),
     Return (created_doc env db expense_data current_user)).
Proof.
  unfold create_shared_expense.
  rewrite resolve_participants_acc. simpl app.
  fold (built_participants db expense_data current_user).
  rewrite calculate_split_returns. reflexivity.
Qed.

Lemma stored_participants_app db expense_data current_user :
  let n := List.length (built_participants db expense_data current_user) in
  stored_participants db expense_data current_user =
  map (fun p => P.set_amount p (share_of expense_data n (P.amount p)))
      (map invitee_entry
           (resolved_users (users db)
              (SharedExpenseCreate.participant_emails expense_data)))
  ++ [P.set_amount (creator_entry expense_data current_user)
        (share_of expense_data n PyFloat.zero)].
Proof.
  unfold stored_participants, built_participants.
  rewrite map_app. reflexivity.
Qed.

Lemma stored_participants_length db expense_data current_user :
  List.length (stored_participants db expense_data current_user) =
  S (List.length (resolved_users (users db)
                    (SharedExpenseCreate.participant_emails expense_data))).
Proof.
  unfold stored_participants.
  now rewrite length_map, built_participants_length.
Qed.

(** ** Exact sums *)

Lemma sum_Q_const_minus (c : Q) (f : P.t -> Q) (ps : list P.t) :
  (sum_Q (fun p => c - f p) ps ==
   inject_Z (Z.of_nat (List.length ps)) * c - sum_Q f ps)%Q.
Proof.
  induction ps as [|p ps IH].
  - simpl. unfold inject_Z. ring.
  - cbn [sum_Q fold_right List.length]. fold (sum_Q (fun p => c - f p) ps).
    fold (sum_Q f ps). rewrite IH, Nat2Z.inj_succ.
    unfold Z.succ. rewrite inject_Z_plus. ring.
Qed.

Lemma sum_Q_all_equal (f : P.t -> Q) (v : Q) (ps : list P.t) :
  Forall (fun p => (f p == v)%Q) ps ->
  (sum_Q f ps == inject_Z (Z.of_nat (List.length ps)) * v)%Q.
Proof.
  induction 1 as [|p ps Hp _ IH].
  - simpl. unfold inject_Z. ring.
  - cbn [sum_Q fold_right List.length]. fold (sum_Q f ps).
    rewrite IH, Hp, Nat2Z.inj_succ.
    unfold Z.succ. rewrite inject_Z_plus. ring.
Qed.

Lemma sum_residues (total : float) (ps : list P.t) :
  ps <> [] ->
  (PyFloat.to_Q total - sum_Q amount_Q ps ==
   sum_Q (residue total (List.length ps)) ps)%Q.
Proof.
  intros Hne. unfold residue.
  rewrite (sum_Q_const_minus
             (PyFloat.to_Q total / inject_Z (Z.of_nat (List.length ps)))
             amount_Q ps).
  assert (Hn : ~ (inject_Z (Z.of_nat (List.length ps)) == 0)%Q).
  { destruct ps as [|p ps]; [congruence|].
    unfold Qeq, inject_Z. simpl Qnum. simpl Qden. cbn [List.length]. lia. }
  field. exact Hn.
Qed.

(** ** Claims on [create_shared_expense] *)

(** A total of 10^15 split three ways: every stored amount is
    333333333333333.3125.  It is not a number of hundredths, it misses the
    exact share by 1/48, which is more than 1/200, and the three amounts
    fall short of the total by 1/16, which is more than 3/200. *)
Lemma equal_split_1e15_by_3 :
  exists db' doc,
    create_shared_expense Ex.env Ex.db0
      (Ex.dinner Ex.f1e15 ["binh@example.com"; "chi@example.com"] EQUAL) Ex.an
    = (db', Return doc) /\
    (PyFloat.to_Q Ex.f1e15 == 1000000000000000)%Q /\
    List.length (SharedExpense.participants doc) = 3%nat /\
    Forall (fun p => (amount_Q p == 5333333333333333 # 16)%Q /\
                     (residue Ex.f1e15 3 p == 1 # 48)%Q /\
                     ~ (Qabs (residue Ex.f1e15 3 p) <= 1 # 200)%Q /\
                     forall cents : Z,
                       ~ (amount_Q p == inject_Z cents / 100)%Q)
           (SharedExpense.participants doc) /\
    (PyFloat.to_Q Ex.f1e15 - sum_Q amount_Q (SharedExpense.participants doc)
     == 1 # 16)%Q /\
    ~ (Qabs (PyFloat.to_Q Ex.f1e15 -
             sum_Q amount_Q (SharedExpense.participants doc))
       <= 3 * (1 # 200))%Q.
Proof.
  rewrite create_shared_expense_returns. eexists _, _.
  split; [reflexivity|].
  split; [vm_compute; reflexivity|].
  split; [vm_compute; reflexivity|].
  assert (Hps : map P.amount
                    (stored_participants Ex.db0
                       (Ex.dinner Ex.f1e15
                          ["binh@example.com"; "chi@example.com"] EQUAL) Ex.an)
                = [S754_finite false 5333333333333333 (-4);
                   S754_finite false 5333333333333333 (-4);
                   S754_finite false 5333333333333333 (-4)])
    by (vm_compute; reflexivity).
  cbn [created_doc SharedExpense.participants].
  assert (Hnot : forall cents : Z,
             ~ (5333333333333333 # 16 == inject_Z cents / 100)%Q).
  { intros cents H. unfold Qeq in H. simpl in H. lia. }
  destruct (stored_participants Ex.db0 _ Ex.an) as [|p1 [|p2 [|p3 [|]]]];
    try discriminate.
  pose proof (f_equal (fun l => nth 0 l PyFloat.zero) Hps) as H1.
  pose proof (f_equal (fun l => nth 1 l PyFloat.zero) Hps) as H2.
  pose proof (f_equal (fun l => nth 2 l PyFloat.zero) Hps) as H3.
  cbn [map nth] in H1, H2, H3. clear Hps.
  assert (Hone : forall p,
             P.amount p = S754_finite false 5333333333333333 (-4) ->
             (amount_Q p == 5333333333333333 # 16)%Q /\
             (residue Ex.f1e15 3 p == 1 # 48)%Q /\
             ~ (Qabs (residue Ex.f1e15 3 p) <= 1 # 200)%Q /\
             forall cents : Z, ~ (amount_Q p == inject_Z cents / 100)%Q).
  { intros p Hp. unfold residue, amount_Q. rewrite Hp.
    assert (Ha : (PyFloat.to_Q (S754_finite false 5333333333333333 (-4))
                  == 5333333333333333 # 16)%Q) by (vm_compute; reflexivity).
    assert (Hr : (PyFloat.to_Q Ex.f1e15 / inject_Z (Z.of_nat 3) -
                  PyFloat.to_Q (S754_finite false 5333333333333333 (-4))
                  == 1 # 48)%Q) by (vm_compute; reflexivity).
    split; [exact Ha|]. split; [exact Hr|]. split.
    - rewrite Hr. vm_compute. intros H. now apply H.
    - intros cents. rewrite Ha. apply Hnot. }
  split.
  { constructor; [now apply Hone|]. constructor; [now apply Hone|].
    constructor; [now apply Hone|constructor]. }
  unfold sum_Q, amount_Q. cbn [fold_right]. rewrite H1, H2, H3.
  assert (Hgap : (PyFloat.to_Q Ex.f1e15 -
                  (PyFloat.to_Q (S754_finite false 5333333333333333 (-4)) +
                   (PyFloat.to_Q (S754_finite false 5333333333333333 (-4)) +
                    (PyFloat.to_Q (S754_finite false 5333333333333333 (-4)) + 0)))
                  == 1 # 16)%Q) by (vm_compute; reflexivity).
  split; [exact Hgap|]. rewrite Hgap. vm_compute. intros H. now apply H.
Qed.

(** C1 does not hold: the sum of the stored amounts is not always within
    the tolerance of a rounding to two decimals, half a hundredth per
    participant, of [total_amount]. *)
Lemma equal_split_exceeds_half_cent :
  ~ (forall env db expense_data current_user db' doc,
        SharedExpenseCreate.split_type expense_data = EQUAL ->
        create_shared_expense env db expense_data current_user =
          (db', Return doc) ->
        (Qabs (PyFloat.to_Q (SharedExpenseCreate.total_amount expense_data) -
               sum_Q amount_Q (SharedExpense.participants doc))
         <= inject_Z (Z.of_nat (List.length (SharedExpense.participants doc))) *
            (1 # 200))%Q).
Proof.
  intros H.
  destruct equal_split_1e15_by_3
    as (db' & doc & Hrun & _ & Hlen & _ & _ & Hnot).
  apply Hnot.
  pose proof (H Ex.env Ex.db0
                (Ex.dinner Ex.f1e15 ["binh@example.com"; "chi@example.com"] EQUAL)
                Ex.an db' doc eq_refl Hrun) as Hb.
  rewrite Hlen in Hb. exact Hb.
Qed.

(** C1, amended. With [split_type == EQUAL], a finite [total_amount] of
    magnitude at most [2^1022] and fewer than [2^53 - 1] invited emails, the
    creation succeeds and every stored participant, the creator included,
    has [amount = round(total_amount / len(participants), 2)].  That float
    is the binary64 nearest to [cents / 100], where [cents] is an integer
    nearest to a hundred times the binary64 quotient: it is within
    [bpow (-1075) + bpow (-53) * |cents / 100|] of [cents / 100], which is
    within [1/200 + bpow (-1075) + bpow (-53) * |total| / n] of the exact
    share [total / n].  So every rounding residue [total / n - amount] is at
    most [1/200 + (|total| / n + 1) * bpow (-51)]; in exact arithmetic the
    amounts add up to [n] times the stored share, what separates the sum
    from [total_amount] is the sum of the residues (nothing is
    redistributed), and it is at most
    [n / 200 + (|total| + n) * bpow (-51)]. *)
Theorem equal_split_amounts env db expense_data current_user :
  SharedExpenseCreate.split_type expense_data = EQUAL ->
  finite_float (SharedExpenseCreate.total_amount expense_data) = true ->
  (Qabs (PyFloat.to_Q (SharedExpenseCreate.total_amount expense_data))
   <= bpow 1022)%Q ->
  (Z.of_nat (List.length (SharedExpenseCreate.participant_emails expense_data))
   < 2 ^ 53 - 1)%Z ->
  exists db' doc amount_per_person (cents : Z),
    create_shared_expense env db expense_data current_user = (db', Return doc) /\
    PyFloat.truediv (SharedExpenseCreate.total_amount expense_data)
      (PyFloat.of_nat (List.length (SharedExpense.participants doc)))
    = Some amount_per_person /\
    Forall (fun p => P.amount p = PyFloat.round amount_per_person 2)
           (SharedExpense.participants doc) /\
    (Qabs (inject_Z cents / 100 -
           PyFloat.to_Q (SharedExpenseCreate.total_amount expense_data) /
           inject_Z (Z.of_nat (List.length (SharedExpense.participants doc))))
     <= (1 # 200) + bpow (-1075) +
        bpow (-53) *
        (Qabs (PyFloat.to_Q (SharedExpenseCreate.total_amount expense_data)) /
         inject_Z (Z.of_nat (List.length (SharedExpense.participants doc)))))%Q /\
    (Qabs (PyFloat.to_Q (PyFloat.round amount_per_person 2) -
           inject_Z cents / 100)
     <= bpow (-1075) + bpow (-53) * Qabs (inject_Z cents / 100))%Q /\
    Forall (fun p =>
              (Qabs (residue (SharedExpenseCreate.total_amount expense_data)
                             (List.length (SharedExpense.participants doc)) p)
               <= (1 # 200) +
                  (Qabs (PyFloat.to_Q
                           (SharedExpenseCreate.total_amount expense_data)) /
                   inject_Z (Z.of_nat
                               (List.length (SharedExpense.participants doc)))
                   + 1) * bpow (-51))%Q)
           (SharedExpense.participants doc) /\
    (sum_Q amount_Q (SharedExpense.participants doc) ==
     inject_Z (Z.of_nat (List.length (SharedExpense.participants doc))) *
     PyFloat.to_Q (PyFloat.round amount_per_person 2))%Q /\
    (PyFloat.to_Q (SharedExpenseCreate.total_amount expense_data) -
     sum_Q amount_Q (SharedExpense.participants doc) ==
     sum_Q (residue (SharedExpenseCreate.total_amount expense_data)
                    (List.length (SharedExpense.participants doc)))
           (SharedExpense.participants doc))%Q /\
    (Qabs (PyFloat.to_Q (SharedExpenseCreate.total_amount expense_data) -
           sum_Q amount_Q (SharedExpense.participants doc))
     <= inject_Z (Z.of_nat (List.length (SharedExpense.participants doc))) *
        (1 # 200) +
        (Qabs (PyFloat.to_Q (SharedExpenseCreate.total_amount expense_data)) +
         inject_Z (Z.of_nat (List.length (SharedExpense.participants doc)))) *
        bpow (-51))%Q.
Proof.
  intros Heq Hfin Hmag Hcount.
  rewrite create_shared_expense_returns.
  cbn [created_doc SharedExpense.participants].
  set (T := SharedExpenseCreate.total_amount expense_data) in *.
  set (ps := stored_participants db expense_data current_user).
  pose proof (stored_participants_length db expense_data current_user) as Hlen.
  fold ps in Hlen.
  pose proof (resolved_users_length (users db)
                (SharedExpenseCreate.participant_emails expense_data)) as Hres.
  set (k := List.length (resolved_users (users db)
                (SharedExpenseCreate.participant_emails expense_data))) in *.
  assert (Hall : Forall
    (fun p => P.amount p =
       PyFloat.round (SFdiv PyFloat.prec PyFloat.emax T (PyFloat.of_nat (S k))) 2)
    ps).
  { unfold ps, stored_participants. rewrite Forall_map.
    apply Forall_forall. intros p _. cbn [P.set_amount P.amount].
    unfold share_of. rewrite Heq.
    now rewrite built_participants_length. }
  assert (Hn : (Z.pos (Pos.of_succ_nat k) < 2 ^ 53)%Z) by lia.
  destruct (rounded_share_spec T (Pos.of_succ_nat k) Hfin Hmag Hn)
    as (cents & Hc1 & Hc2 & Hc3 & _).
  assert (HofZ : PyFloat.of_Z (Z.pos (Pos.of_succ_nat k)) = PyFloat.of_nat (S k))
    by (unfold PyFloat.of_nat; f_equal; lia).
  rewrite HofZ in Hc2, Hc3.
  assert (HSk : Z.pos (Pos.of_succ_nat k) = Z.of_nat (S k)) by lia.
  rewrite HSk in Hc1, Hc3.
  exists (mkDB (users db)
            (shared_expenses db ++ [created_doc env db expense_data current_user])
            (notifications db ++
               create_notifications env 1
                 (SharedExpenseCreate.title expense_data) current_user ps)),
         (created_doc env db expense_data current_user),
         (SFdiv PyFloat.prec PyFloat.emax T (PyFloat.of_nat (S k))),
         cents.
  cbn [created_doc SharedExpense.participants]. fold ps. fold T.
  rewrite Hlen.
  set (a := PyFloat.round
              (SFdiv PyFloat.prec PyFloat.emax T (PyFloat.of_nat (S k))) 2) in *.
  set (N := inject_Z (Z.of_nat (S k))) in *.
  assert (HN : (1 <= N)%Q).
  { unfold N. change 1%Q with (inject_Z 1). rewrite <- Zle_Qle. lia. }
  assert (Hsum : (sum_Q amount_Q ps == N * PyFloat.to_Q a)%Q).
  { unfold N. rewrite <- Hlen. apply sum_Q_all_equal. revert Hall.
    apply Forall_impl. intros p Hp. unfold amount_Q. now rewrite Hp. }
  assert (Hresid : Forall
            (fun p => (Qabs (residue T (S k) p)
                       <= (1 # 200) +
                          (Qabs (PyFloat.to_Q T) / N + 1) * bpow (-51))%Q) ps).
  { revert Hall. apply Forall_impl. intros p Hp.
    unfold residue, amount_Q. rewrite Hp. fold a. fold N.
    rewrite <- (Qabs_opp (PyFloat.to_Q T / N - PyFloat.to_Q a)).
    assert (He : (- (PyFloat.to_Q T / N - PyFloat.to_Q a)
                  == PyFloat.to_Q a - PyFloat.to_Q T / N)%Q) by ring.
    rewrite He. exact Hc3. }
  split; [reflexivity|].
  split; [apply truediv_count|].
  split; [exact Hall|].
  split; [exact Hc1|]. split; [exact Hc2|]. split; [exact Hresid|].
  split; [exact Hsum|].
  split.
  { rewrite <- Hlen. apply sum_residues. intros Hnil.
    rewrite Hnil in Hlen. discriminate. }
  rewrite Hsum.
  apply Qabs_Qle_condition in Hc3. destruct Hc3 as [Hlo Hhi].
  pose proof (Qabs_nonneg (PyFloat.to_Q T)) as HaT.
  pose proof (bpow_pos (-51)) as Hb51.
  set (tn := (PyFloat.to_Q T / N)%Q) in *.
  set (atn := (Qabs (PyFloat.to_Q T) / N)%Q) in *.
  assert (Htn : (tn * N == PyFloat.to_Q T)%Q) by (unfold tn; field; lra).
  assert (Hatn : (atn * N == Qabs (PyFloat.to_Q T))%Q)
    by (unfold atn; field; lra).
  clearbody tn atn.
  apply Qabs_Qle_condition. split; nra.
Qed.

Lemma equal_split_amounts_witness :
  exists db' doc amount_per_person (cents : Z),
    create_shared_expense Ex.env Ex.db0
      (Ex.dinner Ex.f100 ["binh@example.com"; "chi@example.com"] EQUAL) Ex.an
    = (db', Return doc) /\
    PyFloat.truediv Ex.f100
      (PyFloat.of_nat (List.length (SharedExpense.participants doc)))
    = Some amount_per_person /\
    Forall (fun p => P.amount p = PyFloat.round amount_per_person 2)
           (SharedExpense.participants doc) /\
    (Qabs (inject_Z cents / 100 -
           PyFloat.to_Q Ex.f100 /
           inject_Z (Z.of_nat (List.length (SharedExpense.participants doc))))
     <= (1 # 200) + bpow (-1075) +
        bpow (-53) *
        (Qabs (PyFloat.to_Q Ex.f100) /
         inject_Z (Z.of_nat (List.length (SharedExpense.participants doc)))))%Q /\
    (Qabs (PyFloat.to_Q (PyFloat.round amount_per_person 2) -
           inject_Z cents / 100)
     <= bpow (-1075) + bpow (-53) * Qabs (inject_Z cents / 100))%Q /\
    (Qabs (PyFloat.to_Q Ex.f100 -
           sum_Q amount_Q (SharedExpense.participants doc))
     <= inject_Z (Z.of_nat (List.length (SharedExpense.participants doc))) *
        (1 # 200) +
        (Qabs (PyFloat.to_Q Ex.f100) +
         inject_Z (Z.of_nat (List.length (SharedExpense.participants doc)))) *
        bpow (-51))%Q.
Proof.
  destruct (equal_split_amounts Ex.env Ex.db0
              (Ex.dinner Ex.f100 ["binh@example.com"; "chi@example.com"] EQUAL)
              Ex.an eq_refl eq_refl)
    as (db' & doc & app & cents & H1 & H2 & H3 & H4 & H5 & _ & _ & _ & H9).
  - vm_compute. discriminate.
  - vm_compute. reflexivity.
  - exists db', doc, app, cents. repeat split; assumption.
Defined.

(** 100 split three ways: each of the three entries is stored as 33.33, the
    binary64 nearest to it, and the amounts fall short of the total. *)
Example equal_split_100_by_3 :
  map P.amount
      (SharedExpense.participants
         (created_doc Ex.env Ex.db0
            (Ex.dinner Ex.f100 ["binh@example.com"; "chi@example.com"] EQUAL)
            Ex.an))
  = [S754_finite false 4690780486883082 (-47);
     S754_finite false 4690780486883082 (-47);
     S754_finite false 4690780486883082 (-47)]
  /\ (3 * PyFloat.to_Q (S754_finite false 4690780486883082 (-47)) < 100)%Q
  /\ (PyFloat.to_Q (S754_finite false 4690780486883082 (-47)) - (3333 # 100)
      < 1 # 1000000000000)%Q
  /\ ((3333 # 100) - PyFloat.to_Q (S754_finite false 4690780486883082 (-47))
      < 1 # 1000000000000)%Q.
Proof. repeat split; vm_compute; reflexivity. Qed.

(** C2. The stored participant list is the resolved invitees, in input
    order, each with [paid = 0.0] and [confirmed = False], followed by the
    creator as last entry with [paid = total_amount] and
    [confirmed = True]. *)
Theorem create_participant_layout env db expense_data current_user :
  exists db' doc invitees creator,
    create_shared_expense env db expense_data current_user = (db', Return doc) /\
    shared_expenses db' = shared_expenses db ++ [doc] /\
    SharedExpense.creator_id doc = User.id current_user /\
    SharedExpense.participants doc = invitees ++ [creator] /\
    map P.user_id invitees =
      map User.id (resolved_users (users db)
                     (SharedExpenseCreate.participant_emails expense_data)) /\
    map P.email invitees =
      map User.email (resolved_users (users db)
                        (SharedExpenseCreate.participant_emails expense_data)) /\
    map P.full_name invitees =
      map User.full_name (resolved_users (users db)
                            (SharedExpenseCreate.participant_emails expense_data)) /\
    Forall (fun p => P.paid p = PyFloat.zero /\ P.confirmed p = false) invitees /\
    P.user_id creator = User.id current_user /\
    P.email creator = User.email current_user /\
    P.full_name creator = User.full_name current_user /\
    P.paid creator = SharedExpenseCreate.total_amount expense_data /\
    P.confirmed creator = true.
Proof.
  rewrite create_shared_expense_returns.
  eexists _, _, _, _. split; [reflexivity|].
  split; [reflexivity|]. split; [reflexivity|].
  split.
  { cbn [created_doc SharedExpense.participants].
    apply stored_participants_app. }
  rewrite !map_map. cbn [P.set_amount invitee_entry P.user_id P.email
                         P.full_name P.paid P.confirmed creator_entry].
  repeat split; try reflexivity.
  rewrite Forall_map. apply Forall_forall. intros u _.
  cbn. split; reflexivity.
Qed.

(** C7 does not hold: a creation with [total_amount = -5.0] is not
    rejected. *)
Lemma create_accepts_negative_total :
  ~ (forall env db expense_data current_user,
        PyFloat.ge PyFloat.zero
                   (SharedExpenseCreate.total_amount expense_data) = true ->
        exists e,
          create_shared_expense env db expense_data current_user =
          (db, Raise e)).
Proof.
  intros H.
  destruct (H Ex.env Ex.db0 (Ex.dinner (PyFloat.of_Z (-5)) [] EQUAL) Ex.an
              eq_refl) as [e He].
  rewrite create_shared_expense_returns in He. discriminate He.
Qed.

(** C7, amended. [create_shared_expense] does not inspect [total_amount]:
    whatever its value, zero and negative ones included, the call returns
    the new document and has appended exactly that document, carrying the
    given [total_amount], to the collection. *)
Theorem create_accepts_any_total env db expense_data current_user :
  exists db' doc,
    create_shared_expense env db expense_data current_user = (db', Return doc) /\
    shared_expenses db' = shared_expenses db ++ [doc] /\
    users db' = users db /\
    SharedExpense.total_amount doc =
      SharedExpenseCreate.total_amount expense_data.
Proof.
  rewrite create_shared_expense_returns.
  eexists _, _. repeat split; reflexivity.
Qed.

(** C8. The creation succeeds whatever the emails resolve to.  Every entry
    before the creator's carries an email of the invitation that the store
    resolves, so an email that resolves to nothing labels no invitee entry,
    and, the creator being the user [get_current_user] loaded, no entry at
    all.  When no email
    resolves, the creator's entry is the only one. *)
Theorem unresolved_emails_dropped env db expense_data current_user :
  exists db' doc invitees creator,
    create_shared_expense env db expense_data current_user = (db', Return doc) /\
    SharedExpense.participants doc = invitees ++ [creator] /\
    P.user_id creator = User.id current_user /\
    P.email creator = User.email current_user /\
    (forall p, In p invitees ->
       In (P.email p) (SharedExpenseCreate.participant_emails expense_data) /\
       find_user_by_email (users db) (P.email p) <> None) /\
    (forall email,
       find_user_by_email (users db) email = None ->
       (forall p, In p invitees -> P.email p <> email) /\
       (forall sub,
          get_current_user db sub = Return current_user ->
          forall p, In p (SharedExpense.participants doc) -> P.email p <> email)) /\
    ((forall email,
        In email (SharedExpenseCreate.participant_emails expense_data) ->
        find_user_by_email (users db) email = None) ->
     SharedExpense.participants doc = [creator]).
Proof.
  rewrite create_shared_expense_returns.
  eexists _, _, _, _. split; [reflexivity|].
  cbn [created_doc SharedExpense.participants].
  split; [apply stored_participants_app|].
  split; [reflexivity|]. split; [reflexivity|].
  assert (Hinv : forall p,
    In p (map (fun p => P.set_amount p
                 (share_of expense_data
                    (List.length (built_participants db expense_data current_user))
                    (P.amount p)))
              (map invitee_entry
                 (resolved_users (users db)
                    (SharedExpenseCreate.participant_emails expense_data)))) ->
    In (P.email p) (SharedExpenseCreate.participant_emails expense_data) /\
    find_user_by_email (users db) (P.email p) <> None).
  { intros p Hp. rewrite map_map in Hp. apply in_map_iff in Hp.
    destruct Hp as [u [<- Hu]]. cbn.
    destruct (resolved_users_resolve _ _ _ Hu) as [Hin Hfind].
    split; [exact Hin|]. rewrite Hfind. discriminate. }
  split; [exact Hinv|]. split.
  - intros email Hnone.
    assert (Hno : forall p,
      In p (map (fun p => P.set_amount p
                   (share_of expense_data
                      (List.length (built_participants db expense_data current_user))
                      (P.amount p)))
                (map invitee_entry
                   (resolved_users (users db)
                      (SharedExpenseCreate.participant_emails expense_data)))) ->
      P.email p <> email).
    { intros p Hp Heq. destruct (Hinv p Hp) as [_ Hres].
      rewrite Heq in Hres. contradiction. }
    split; [exact Hno|].
    intros sub Hsub p Hp.
    pose proof (get_current_user_In _ _ _ Hsub) as Hcur.
    rewrite stored_participants_app in Hp.
    apply in_app_or in Hp. destruct Hp as [Hp|[<-|[]]].
    + now apply Hno.
    + cbn. intros Heq. apply (find_user_by_email_In _ _ Hcur).
      now rewrite Heq.
  - intros Hall. rewrite stored_participants_app.
    now rewrite (resolved_users_none _ _ Hall).
Qed.

(** With only unknown addresses invited, the stored list is the creator's
    entry alone. *)
Lemma unresolved_emails_dropped_witness :
  exists doc creator,
    snd (create_shared_expense Ex.env Ex.db0
           (Ex.dinner Ex.f100 ["nobody@example.com"; "ghost@example.com"] EQUAL)
           Ex.an) = Return doc /\
    SharedExpense.participants doc = [creator] /\
    P.user_id creator = "u-an".
Proof.
  destruct (unresolved_emails_dropped Ex.env Ex.db0
              (Ex.dinner Ex.f100 ["nobody@example.com"; "ghost@example.com"] EQUAL)
              Ex.an)
    as (db' & doc & invitees & creator & Hrun & _ & Hid & _ & _ & _ & Hone).
  exists doc, creator. split; [now rewrite Hrun|]. split; [|exact Hid].
  apply Hone. intros email [<-|[<-|[]]]; reflexivity.
Defined.

(** C9 does not hold: when the creator invites their own address the
    creator's [user_id] labels two entries of the stored list. *)
Lemma create_duplicates_creator :
  ~ (forall env db expense_data current_user db' doc,
        create_shared_expense env db expense_data current_user =
          (db', Return doc) ->
        NoDup (map P.user_id (SharedExpense.participants doc))).
Proof.
  intros H.
  pose proof (H Ex.env Ex.db0
                (Ex.dinner Ex.f300000 ["an@example.com"; "binh@example.com"] EQUAL)
                Ex.an _ _ (create_shared_expense_returns _ _ _ _)) as Hnd.
  change (NoDup ["u-an"; "u-binh"; "u-an"]) in Hnd.
  inversion Hnd as [|x l Hnotin _]. apply Hnotin. right. left. reflexivity.
Qed.

Example create_with_own_email :
  option_map (fun doc => map P.user_id (SharedExpense.participants doc))
    (match snd (create_shared_expense Ex.env Ex.db0
                  (Ex.dinner Ex.f300000 ["an@example.com"; "binh@example.com"]
                     EQUAL) Ex.an) with
     | Return doc => Some doc
     | Raise _ => None
     end)
  = Some ["u-an"; "u-binh"; "u-an"].
Proof. reflexivity. Qed.

(** C9, amended. The stored list is never empty: it has one entry for each
    invited email that resolves, in input order and without any
    de-duplication, followed by one entry for the creator.  Its [user_id]s
    are those of the resolved identities followed by the creator's, so they
    are pairwise distinct exactly when the invitation resolves to pairwise
    distinct identities other than the creator. *)
Theorem create_participants_nonempty env db expense_data current_user :
  exists db' doc,
    create_shared_expense env db expense_data current_user = (db', Return doc) /\
    SharedExpense.participants doc <> [] /\
    List.length (SharedExpense.participants doc) =
      S (List.length (resolved_users (users db)
                        (SharedExpenseCreate.participant_emails expense_data))) /\
    map P.user_id (SharedExpense.participants doc) =
      map User.id (resolved_users (users db)
                     (SharedExpenseCreate.participant_emails expense_data))
      ++ [User.id current_user] /\
    (NoDup (map P.user_id (SharedExpense.participants doc)) <->
     NoDup (map User.id (resolved_users (users db)
                           (SharedExpenseCreate.participant_emails expense_data))
            ++ [User.id current_user])).
Proof.
  rewrite create_shared_expense_returns.
  eexists _, _. split; [reflexivity|].
  cbn [created_doc SharedExpense.participants].
  assert (Hids : map P.user_id (stored_participants db expense_data current_user) =
                 map User.id (resolved_users (users db)
                                (SharedExpenseCreate.participant_emails expense_data))
                 ++ [User.id current_user]).
  { rewrite stored_participants_app, map_app, !map_map. reflexivity. }
  split.
  { intros Hnil.
    pose proof (stored_participants_length db expense_data current_user) as Hl.
    rewrite Hnil in Hl. discriminate. }
  split; [apply stored_participants_length|].
  split; [exact Hids|]. now rewrite Hids.
Qed.

(** ** The scan of [confirm_shared_expense] *)

Lemma confirm_loop_not_found caller_id ps :
  (forall q, In q ps -> P.user_id q <> caller_id) ->
  confirm_loop caller_id ps = (ps, false).
Proof.
  induction ps as [|p rest IH]; intros Hno; simpl; [reflexivity|].
  destruct (String.eqb_spec (P.user_id p) caller_id) as [Heq|_].
  - exfalso. apply (Hno p); simpl; auto.
  - rewrite IH; [reflexivity|]. intros q Hq. apply Hno. simpl; auto.
Qed.

Lemma confirm_loop_found caller_id pre p post :
  (forall q, In q pre -> P.user_id q <> caller_id) ->
  P.user_id p = caller_id ->
  confirm_loop caller_id (pre ++ p :: post) =
  (pre ++ P.set_confirmed p true :: post, true).
Proof.
  intros Hpre Hp.
  induction pre as [|q pre IH]; simpl.
  - rewrite Hp, String.eqb_refl. reflexivity.
  - destruct (String.eqb_spec (P.user_id q) caller_id) as [Heq|_].
    + exfalso. apply (Hpre q); simpl; auto.
    + rewrite IH; [reflexivity|]. intros r Hr. apply Hpre. simpl; auto.
Qed.

Lemma confirm_loop_inv caller_id ps :
  scan_result caller_id ps (fst (confirm_loop caller_id ps))
              (snd (confirm_loop caller_id ps)).
Proof.
  induction ps as [|p rest IH]; simpl.
  - constructor. intros q [].
  - destruct (String.eqb_spec (P.user_id p) caller_id) as [Heq|Hne]; simpl.
    + apply (@scan_hit caller_id (p :: rest) [] p rest);
        [reflexivity| intros q []| exact Heq].
    + destruct (confirm_loop caller_id rest) as [rest' updated].
      simpl in IH. destruct IH as [Hno|pre q post Hsplit Hpre Hq].
      * constructor. intros q [<-|Hq]; auto.
      * apply (@scan_hit caller_id (p :: rest) (p :: pre) q post);
          [now rewrite Hsplit| |exact Hq].
        intros r [<-|Hr]; auto.
Qed.

Lemma set_confirmed_idem p :
  P.set_confirmed (P.set_confirmed p true) true = P.set_confirmed p true.
Proof. reflexivity. Qed.

Lemma set_confirmed_same p :
  P.confirmed p = true -> P.set_confirmed p true = p.
Proof. destruct p; simpl; intros ->; reflexivity. Qed.

(** ** [find_one] and [update_one] on the expense collection *)

Lemma find_expense_none es expense_id :
  (forall e, In e es -> SharedExpense.id e <> expense_id) ->
  find_expense es expense_id = None.
Proof.
  intros Hno. unfold find_expense.
  induction es as [|e rest IH]; simpl; [reflexivity|].
  destruct (String.eqb_spec (SharedExpense.id e) expense_id) as [Heq|_].
  - exfalso. apply (Hno e); simpl; auto.
  - apply IH. intros e' He'. apply Hno. simpl; auto.
Qed.

Lemma find_expense_update es expense_id ps e :
  find_expense es expense_id = Some e ->
  find_expense (update_participants es expense_id ps) expense_id =
  Some (SharedExpense.set_participants e ps).
Proof.
  unfold find_expense.
  induction es as [|e0 rest IH]; simpl; [discriminate|].
  destruct (String.eqb (SharedExpense.id e0) expense_id) eqn:E.
  - intros [= ->]. simpl. now rewrite E.
  - intros H. simpl. rewrite E. now apply IH.
Qed.

Lemma update_participants_twice es expense_id ps ps' :
  update_participants (update_participants es expense_id ps) expense_id ps' =
  update_participants es expense_id ps'.
Proof.
  induction es as [|e0 rest IH]; simpl; [reflexivity|].
  destruct (String.eqb (SharedExpense.id e0) expense_id) eqn:E; simpl; rewrite E.
  - reflexivity.
  - now rewrite IH.
Qed.

Lemma set_participants_same e :
  SharedExpense.set_participants e (SharedExpense.participants e) = e.
Proof. now destruct e. Qed.

Lemma update_participants_same es expense_id e :
  find_expense es expense_id = Some e ->
  update_participants es expense_id (SharedExpense.participants e) = es.
Proof.
  unfold find_expense.
  induction es as [|e0 rest IH]; simpl; [reflexivity|].
  destruct (String.eqb (SharedExpense.id e0) expense_id) eqn:E.
  - intros [= ->]. now rewrite set_participants_same.
  - intros H. now rewrite IH.
Qed.

Lemma update_participants_length es expense_id ps :
  List.length (update_participants es expense_id ps) = List.length es.
Proof.
  induction es as [|e0 rest IH]; simpl; [reflexivity|].
  destruct (String.eqb (SharedExpense.id e0) expense_id); simpl; auto.
Qed.

(** Position by position, [update_one] leaves a document alone unless it is
    the one [find_one] returns. *)
Lemma update_participants_nth es expense_id ps : forall j e,
  nth_error es j = Some e ->
  nth_error (update_participants es expense_id ps) j = Some e \/
  (find_expense es expense_id = Some e /\
   nth_error (update_participants es expense_id ps) j =
   Some (SharedExpense.set_participants e ps)).
Proof.
  unfold find_expense.
  induction es as [|e0 rest IH]; intros j e Hj.
  - destruct j; discriminate.
  - simpl. destruct (String.eqb (SharedExpense.id e0) expense_id) eqn:E.
    + destruct j as [|j]; simpl in *.
      * injection Hj as ->. right. auto.
      * left. exact Hj.
    + destruct j as [|j]; simpl in *.
      * left. exact Hj.
      * now apply IH.
Qed.

(** The three ways [confirm_shared_expense] can end. *)
Lemma confirm_shared_expense_cases db expense_id current_user :
  (find_expense (shared_expenses db) expense_id = None /\
   confirm_shared_expense db expense_id current_user =
   (db, Raise (NotFound "Shared expense not found")))
  \/
  (exists expense,
      find_expense (shared_expenses db) expense_id = Some expense /\
      (forall q, In q (SharedExpense.participants expense) ->
                 P.user_id q <> User.id current_user) /\
      confirm_shared_expense db expense_id current_user =
      (db, Raise (Forbidden "You are not a participant")))
  \/
  (exists expense pre p post,
      find_expense (shared_expenses db) expense_id = Some expense /\
      SharedExpense.participants expense = pre ++ p :: post /\
      (forall q, In q pre -> P.user_id q <> User.id current_user) /\
      P.user_id p = User.id current_user /\
      confirm_shared_expense db expense_id current_user =
      (mkDB (users db)
            (update_participants (shared_expenses db) expense_id
               (pre ++ P.set_confirmed p true :: post))
            (notifications db),
       Return "Confirmed")).
Proof.
  unfold confirm_shared_expense.
  destruct (find_expense (shared_expenses db) expense_id) as [expense|] eqn:Ef.
  - right.
    pose proof (confirm_loop_inv (User.id current_user)
                  (SharedExpense.participants expense)) as Hscan.
    destruct (confirm_loop (User.id current_user)
                (SharedExpense.participants expense)) as [ps updated].
    simpl in Hscan.
    destruct Hscan as [Hno|pre p post Hsplit Hpre Hp]; simpl negb; cbv iota.
    + left. exists expense. auto.
    + right. exists expense, pre, p, post. auto.
  - left. auto.
Qed.

(** ** Claims on [confirm_shared_expense] *)

(** C4. An [expense_id] no stored expense carries is answered with 404
    (NotFound); a caller whose id labels no entry of the stored expense is
    answered with 403 (Forbidden).  In both cases the store, and with it the
    stored participant list, is the one before the call. *)
Theorem confirm_errors db expense_id current_user :
  ((forall e, In e (shared_expenses db) -> SharedExpense.id e <> expense_id) ->
   exists detail,
     confirm_shared_expense db expense_id current_user =
     (db, Raise (NotFound detail))) /\
  (forall expense,
     find_expense (shared_expenses db) expense_id = Some expense ->
     (forall p, In p (SharedExpense.participants expense) ->
                P.user_id p <> User.id current_user) ->
     (exists detail,
        confirm_shared_expense db expense_id current_user =
        (db, Raise (Forbidden detail))) /\
     find_expense
       (shared_expenses (fst (confirm_shared_expense db expense_id current_user)))
       expense_id = Some expense).
Proof.
  split.
  - intros Hno. unfold confirm_shared_expense.
    rewrite (find_expense_none _ _ Hno). eauto.
  - intros expense Hfind Hno. unfold confirm_shared_expense.
    rewrite Hfind, (confirm_loop_not_found _ _ Hno). simpl. eauto.
Qed.

Lemma confirm_errors_witness :
  (exists detail,
     confirm_shared_expense Ex.db1 "e-404" Ex.binh =
     (Ex.db1, Raise (NotFound detail))) /\
  (exists detail,
     confirm_shared_expense Ex.db1 "e-1" Ex.dung =
     (Ex.db1, Raise (Forbidden detail))).
Proof.
  split.
  - apply (proj1 (confirm_errors Ex.db1 "e-404" Ex.binh)).
    intros e [<-|[]]. vm_compute. discriminate.
  - refine (proj1 (proj2 (confirm_errors Ex.db1 "e-1" Ex.dung) _ eq_refl _)).
    intros p [<-|[<-|[<-|[]]]]; vm_compute; discriminate.
Defined.

(** C5. Confirming a second time changes nothing: the second call leaves
    the store the first call produced and gives the same answer.  When the
    entry the scan stops at is already confirmed, the call itself leaves the
    store as it was. *)
Theorem confirm_idempotent db expense_id current_user :
  confirm_shared_expense
    (fst (confirm_shared_expense db expense_id current_user))
    expense_id current_user
  = confirm_shared_expense db expense_id current_user
  /\
  (forall expense pre p post,
      find_expense (shared_expenses db) expense_id = Some expense ->
      SharedExpense.participants expense = pre ++ p :: post ->
      (forall q, In q pre -> P.user_id q <> User.id current_user) ->
      P.user_id p = User.id current_user ->
      P.confirmed p = true ->
      confirm_shared_expense db expense_id current_user =
      (db, Return "Confirmed")).
Proof.
  split.
  - destruct (confirm_shared_expense_cases db expense_id current_user)
      as [[_ Hrun]|[(expense & _ & _ & Hrun)
                   |(expense & pre & p & post & Hf & Hsplit & Hpre & Hp & Hrun)]];
      rewrite Hrun; simpl fst; try exact Hrun.
    unfold confirm_shared_expense at 1. simpl shared_expenses.
    rewrite (find_expense_update _ _ _ _ Hf). simpl SharedExpense.participants.
    rewrite (confirm_loop_found _ pre (P.set_confirmed p true) post Hpre Hp).
    simpl negb. cbv iota.
    rewrite set_confirmed_idem, update_participants_twice. reflexivity.
  - intros expense pre p post Hf Hsplit Hpre Hp Hconf.
    unfold confirm_shared_expense.
    rewrite Hf, Hsplit, (confirm_loop_found _ pre p post Hpre Hp).
    simpl negb. cbv iota.
    rewrite (set_confirmed_same _ Hconf), <- Hsplit.
    rewrite (update_participants_same _ _ _ Hf). now destruct db.
Qed.

(** Binh confirms the dinner twice; the second confirmation finds Binh's
    entry already confirmed. *)
Lemma confirm_idempotent_witness :
  let db2 := fst (confirm_shared_expense Ex.db1 "e-1" Ex.binh) in
  confirm_shared_expense db2 "e-1" Ex.binh = (db2, Return "Confirmed").
Proof.
  intros db2.
  refine (proj2 (confirm_idempotent db2 "e-1" Ex.binh) _ [] _ _
            eq_refl eq_refl _ eq_refl eq_refl).
  intros q [].
Defined.

Lemma nth_error_app_middle (pre post : list P.t) (x y : P.t) (k : nat) :
  k <> List.length pre ->
  nth_error (pre ++ x :: post) k = nth_error (pre ++ y :: post) k.
Proof.
  intros Hk. destruct (Nat.lt_ge_cases k (List.length pre)) as [Hlt|Hge].
  - now rewrite !nth_error_app1.
  - rewrite !nth_error_app2 by exact Hge.
    destruct (k - List.length pre)%nat eqn:E; [lia|reflexivity].
Qed.

Lemma confirm_frame_refl caller_id ps :
  Forall2 (confirm_frame caller_id) ps ps.
Proof.
  induction ps as [|p ps IH]; constructor; auto.
  unfold confirm_frame. tauto.
Qed.

Lemma confirm_frame_hit caller_id pre p post :
  P.user_id p = caller_id ->
  Forall2 (confirm_frame caller_id)
          (pre ++ p :: post) (pre ++ P.set_confirmed p true :: post).
Proof.
  intros Hp. apply Forall2_app; [apply confirm_frame_refl|].
  constructor; [|apply confirm_frame_refl].
  unfold confirm_frame. simpl. tauto.
Qed.

Lemma confirm_frame_kept caller_id ps ps' :
  Forall2 (confirm_frame caller_id) ps ps' -> Forall2 confirmed_kept ps ps'.
Proof.
  induction 1 as [|p p' ps ps' Hp _ IH]; constructor; auto.
  unfold confirmed_kept. destruct Hp as (_ & _ & _ & _ & _ & [Hc|[_ Hc]]);
    congruence.
Qed.

Lemma same_fields_refl e : same_fields e e.
Proof. unfold same_fields. repeat split. Qed.

Lemma same_fields_set_participants e ps :
  same_fields e (SharedExpense.set_participants e ps).
Proof. unfold same_fields. repeat split. Qed.

(** The frame of a successful confirmation, position by position. *)
Lemma confirm_shared_expense_frame db expense_id current_user db' msg :
  confirm_shared_expense db expense_id current_user = (db', Return msg) ->
  users db' = users db /\
  notifications db' = notifications db /\
  List.length (shared_expenses db') = List.length (shared_expenses db) /\
  forall j e,
    nth_error (shared_expenses db) j = Some e ->
    exists e',
      nth_error (shared_expenses db') j = Some e' /\
      same_fields e e' /\
      Forall2 (confirm_frame (User.id current_user))
              (SharedExpense.participants e) (SharedExpense.participants e') /\
      (exists i, forall k, k <> i ->
         nth_error (SharedExpense.participants e') k =
         nth_error (SharedExpense.participants e) k) /\
      (SharedExpense.id e <> expense_id -> e' = e).
Proof.
  intros Hrun.
  destruct (confirm_shared_expense_cases db expense_id current_user)
    as [[_ Hc]|[(expense & _ & _ & Hc)
               |(expense & pre & p & post & Hf & Hsplit & Hpre & Hp & Hc)]];
    rewrite Hc in Hrun; try discriminate Hrun.
  injection Hrun as <- _. simpl.
  split; [reflexivity|]. split; [reflexivity|].
  split; [apply update_participants_length|].
  intros j e Hj.
  destruct (update_participants_nth (shared_expenses db) expense_id
              (pre ++ P.set_confirmed p true :: post) j e Hj)
    as [Hsame|[Hfirst Hupd]].
  - exists e. split; [exact Hsame|]. split; [apply same_fields_refl|].
    split; [apply confirm_frame_refl|].
    split; [exists 0%nat; reflexivity|]. reflexivity.
  - exists (SharedExpense.set_participants e
              (pre ++ P.set_confirmed p true :: post)).
    split; [exact Hupd|]. split; [apply same_fields_set_participants|].
    rewrite Hf in Hfirst. injection Hfirst as <-.
    split; [|split].
    + simpl. rewrite Hsplit. now apply confirm_frame_hit.
    + exists (List.length pre). intros k Hk. simpl. rewrite Hsplit.
      now apply nth_error_app_middle.
    + intros Hne. exfalso. apply Hne.
      unfold find_expense in Hf. apply find_some in Hf.
      now apply String.eqb_eq.
Qed.

(** C6. A successful confirmation leaves [users] and [notifications] alone
    and keeps every stored expense in its place with all fields but
    [participants] as they were; in each participant list every entry keeps
    [user_id], [email], [full_name], [amount] and [paid], and [confirmed]
    changes only on an entry of the caller, and then to [True]; at most one
    position of the list differs from before; an expense with another id is
    untouched.  No request of the core, creation,
    confirmation or settlement query, ever lowers a [confirmed] flag of a
    stored expense. *)
Theorem confirm_changes_only_confirmed :
  (forall db expense_id current_user db' msg,
      confirm_shared_expense db expense_id current_user = (db', Return msg) ->
      users db' = users db /\
      notifications db' = notifications db /\
      List.length (shared_expenses db') = List.length (shared_expenses db) /\
      forall j e,
        nth_error (shared_expenses db) j = Some e ->
        exists e',
          nth_error (shared_expenses db') j = Some e' /\
          same_fields e e' /\
          Forall2 (confirm_frame (User.id current_user))
                  (SharedExpense.participants e)
                  (SharedExpense.participants e') /\
          (exists i, forall k, k <> i ->
             nth_error (SharedExpense.participants e') k =
             nth_error (SharedExpense.participants e) k) /\
          (SharedExpense.id e <> expense_id -> e' = e)) /\
  (forall db r j e,
      nth_error (shared_expenses db) j = Some e ->
      exists e',
        nth_error (shared_expenses (handle db r)) j = Some e' /\
        same_fields e e' /\
        Forall2 confirmed_kept
                (SharedExpense.participants e) (SharedExpense.participants e')).
Proof.
  split; [exact confirm_shared_expense_frame|].
  intros db r j e Hj.
  assert (Hid : exists e',
             nth_error (shared_expenses db) j = Some e' /\
             same_fields e e' /\
             Forall2 confirmed_kept (SharedExpense.participants e)
                     (SharedExpense.participants e')).
  { exists e. split; [exact Hj|]. split; [apply same_fields_refl|].
    apply (confirm_frame_kept ""). apply confirm_frame_refl. }
  destruct r as [env expense_data current_user
                |expense_id current_user|expense_id current_user]; simpl handle.
  - rewrite create_shared_expense_returns. simpl.
    exists e. split.
    + rewrite nth_error_app1; [exact Hj|].
      apply nth_error_Some. congruence.
    + split; [apply same_fields_refl|].
      apply (confirm_frame_kept ""). apply confirm_frame_refl.
  - destruct (confirm_shared_expense db expense_id current_user)
      as [db' [msg|err]] eqn:Hrun.
    + destruct (confirm_shared_expense_frame _ _ _ _ _ Hrun)
        as (_ & _ & _ & Hframe).
      destruct (Hframe j e Hj) as (e' & Hj' & Hsame & Hfr & _ & _).
      exists e'. simpl. split; [exact Hj'|]. split; [exact Hsame|].
      exact (confirm_frame_kept _ _ _ Hfr).
    + destruct (confirm_shared_expense_cases db expense_id current_user)
        as [[_ Hc]|[(expense & _ & _ & Hc)|(? & ? & ? & ? & _ & _ & _ & _ & Hc)]];
        rewrite Hc in Hrun; try discriminate Hrun;
        injection Hrun as <- _; exact Hid.
  - unfold get_settlements.
    destruct (find_expense (shared_expenses db) expense_id); exact Hid.
Qed.

(** Binh confirms the dinner: the one stored expense keeps its fields, and
    An's and Chi's entries are the ones stored before. *)
Lemma confirm_changes_only_confirmed_witness :
  exists e e',
    nth_error (shared_expenses Ex.db1) 0 = Some e /\
    nth_error
      (shared_expenses (fst (confirm_shared_expense Ex.db1 "e-1" Ex.binh))) 0
    = Some e' /\
    same_fields e e' /\
    Forall2 (confirm_frame "u-binh")
            (SharedExpense.participants e) (SharedExpense.participants e').
Proof.
  destruct (proj1 confirm_changes_only_confirmed Ex.db1 "e-1" Ex.binh
              (fst (confirm_shared_expense Ex.db1 "e-1" Ex.binh)) "Confirmed"
              eq_refl)
    as (_ & _ & _ & Hframe).
  destruct (Hframe 0%nat
              (created_doc Ex.env Ex.db0
                 (Ex.dinner Ex.f300000 ["binh@example.com"; "chi@example.com"]
                    EQUAL) Ex.an)
              eq_refl)
    as (e' & Hj' & Hsame & Hfr & _ & _).
  eexists _, e'. split; [reflexivity|]. auto.
Defined.

(** C10. When the caller's id labels an entry of the stored expense, the
    call succeeds and the stored list differs from the one before in one
    position only: the first entry of the caller, whose [confirmed] is now
    [True].  The entries before it and all entries after it, later entries
    of the same caller included, are the ones stored before. *)
Theorem confirm_first_match_only db expense_id current_user expense pre p post :
  find_expense (shared_expenses db) expense_id = Some expense ->
  SharedExpense.participants expense = pre ++ p :: post ->
  (forall q, In q pre -> P.user_id q <> User.id current_user) ->
  P.user_id p = User.id current_user ->
  exists db',
    confirm_shared_expense db expense_id current_user =
      (db', Return "Confirmed") /\
    find_expense (shared_expenses db') expense_id =
      Some (SharedExpense.set_participants expense
              (pre ++ P.set_confirmed p true :: post)).
Proof.
  intros Hf Hsplit Hpre Hp.
  unfold confirm_shared_expense.
  rewrite Hf, Hsplit, (confirm_loop_found _ pre p post Hpre Hp).
  simpl negb. cbv iota.
  eexists. split; [reflexivity|].
  simpl shared_expenses. now apply find_expense_update.
Qed.

(** Binh was invited twice and confirms: only the first of Binh's two
    entries is confirmed afterwards. *)
Lemma confirm_first_match_only_witness :
  exists db' e',
    confirm_shared_expense Ex.db_twice "e-1" Ex.binh =
      (db', Return "Confirmed") /\
    find_expense (shared_expenses db') "e-1" = Some e' /\
    map (fun q => (P.user_id q, P.confirmed q)) (SharedExpense.participants e')
    = [("u-binh", true); ("u-binh", false); ("u-an", true)].
Proof.
  destruct (confirm_first_match_only Ex.db_twice "e-1" Ex.binh
              (created_doc Ex.env Ex.db0
                 (Ex.dinner Ex.f300000 ["binh@example.com"; "binh@example.com"]
                    EQUAL) Ex.an)
              []
              (P.mk "u-binh" "binh@example.com" "Binh"
                    Ex.f100000 PyFloat.zero false)
              [P.mk "u-binh" "binh@example.com" "Binh"
                    Ex.f100000 PyFloat.zero false;
               P.mk "u-an" "an@example.com" "An"
                    Ex.f100000 Ex.f300000 true]
              eq_refl eq_refl (fun q (H : In q []) => match H with end) eq_refl)
    as (db' & Hrun & Hfind).
  exists db'. eexists. split; [exact Hrun|]. split; [exact Hfind|].
  reflexivity.
Defined.

(** ** Claims on [get_settlements] *)

Lemma settlements_loop_acc ps : forall acc,
  settlements_loop ps acc = acc ++ map settlement_of ps.
Proof.
  induction ps as [|p rest IH]; intros acc; simpl.
  - now rewrite app_nil_r.
  - rewrite IH, <- app_assoc. reflexivity.
Qed.

(** C3. For a stored expense, [get_settlements] returns one record per
    participant, in the stored order; the record at a position copies
    [user_id], [full_name], [amount] and [paid] of the participant there,
    its [balance] is [paid - amount] and its [status] is ["settled"] when
    [balance >= 0] and ["owes"] otherwise.  The store is returned as it was
    and the answer depends on the stored participant list only.  For the
    300000 dinner split equally among Binh, Chi and the creator An, An's
    balance is 200000 (settled), Binh's and Chi's are -100000 (owes). *)
Theorem get_settlements_records :
  (forall db expense_id current_user expense,
      find_expense (shared_expenses db) expense_id = Some expense ->
      exists settlements,
        get_settlements db expense_id current_user = (db, Return settlements) /\
        List.length settlements =
          List.length (SharedExpense.participants expense) /\
        forall i p,
          nth_error (SharedExpense.participants expense) i = Some p ->
          exists s,
            nth_error settlements i = Some s /\
            Settlement.user_id s = P.user_id p /\
            Settlement.user_name s = P.full_name p /\
            Settlement.amount_owed s = P.amount p /\
            Settlement.amount_paid s = P.paid p /\
            Settlement.balance s = PyFloat.sub (P.paid p) (P.amount p) /\
            Settlement.status s =
              (if PyFloat.ge (Settlement.balance s) PyFloat.zero
               then "settled" else "owes")) /\
  (forall db1 db2 id1 id2 user1 user2 expense1 expense2,
      find_expense (shared_expenses db1) id1 = Some expense1 ->
      find_expense (shared_expenses db2) id2 = Some expense2 ->
      SharedExpense.participants expense1 = SharedExpense.participants expense2 ->
      snd (get_settlements db1 id1 user1) = snd (get_settlements db2 id2 user2)) /\
  get_settlements Ex.db1 "e-1" Ex.binh =
    (Ex.db1,
     Return
       [Settlement.mk "u-binh" "Binh" Ex.f100000 PyFloat.zero
          (PyFloat.of_Z (-100000)) "owes";
        Settlement.mk "u-chi" "Chi" Ex.f100000 PyFloat.zero
          (PyFloat.of_Z (-100000)) "owes";
        Settlement.mk "u-an" "An" Ex.f100000 Ex.f300000 Ex.f200000 "settled"]).
Proof.
  split; [|split].
  - intros db expense_id current_user expense Hf.
    unfold get_settlements. rewrite Hf, settlements_loop_acc. simpl app.
    eexists. split; [reflexivity|]. split; [apply length_map|].
    intros i p Hi. exists (settlement_of p).
    split; [now apply map_nth_error|].
    repeat split; reflexivity.
  - intros db1 db2 id1 id2 user1 user2 expense1 expense2 Hf1 Hf2 Hps.
    unfold get_settlements. now rewrite Hf1, Hf2, Hps.
  - vm_compute. reflexivity.
Qed.

Lemma get_settlements_records_witness :
  exists settlements,
    get_settlements Ex.db1 "e-1" Ex.dung = (Ex.db1, Return settlements) /\
    List.length settlements = 3%nat.
Proof.
  destruct (proj1 get_settlements_records Ex.db1 "e-1" Ex.dung
              (created_doc Ex.env Ex.db0
                 (Ex.dinner Ex.f300000 ["binh@example.com"; "chi@example.com"]
                    EQUAL) Ex.an)
              eq_refl)
    as (settlements & Hrun & Hlen & _).
  exists settlements. split; [exact Hrun|exact Hlen].
Defined.

(** * Properties of the other routes *)

(** ** [update_one], [delete_one] and [find_to_list] *)

Lemma firstn_In {A : Type} (n : nat) : forall (docs : list A) (d : A),
  In d (firstn n docs) -> In d docs.
Proof.
  induction n as [|n IH]; intros [|x rest] d; simpl; try tauto.
  intros [->|H]; auto.
Qed.

Section Collections.
Context {A : Type}.
Variable filter : A -> bool.

Lemma find_none_iff (docs : list A) :
  find filter docs = None <-> (forall d, In d docs -> filter d = false).
Proof.
  split; [apply find_none|].
  induction docs as [|d rest IH]; intros H; simpl; [reflexivity|].
  rewrite (H d) by (simpl; auto). apply IH. intros x Hx. apply H. simpl; auto.
Qed.

(** The first match splits the collection. *)
Lemma find_split (docs : list A) (d : A) :
  find filter docs = Some d ->
  exists pre post,
    docs = pre ++ d :: post /\
    (forall x, In x pre -> filter x = false) /\
    filter d = true.
Proof.
  induction docs as [|x rest IH]; simpl; [discriminate|].
  destruct (filter x) eqn:E.
  - intros [= <-]. exists [], rest. repeat split; auto. intros y [].
  - intros H. destruct (IH H) as (pre & post & -> & Hpre & Hd).
    exists (x :: pre), post. repeat split; auto.
    intros y [<-|Hy]; auto.
Qed.

Lemma find_app_first (pre post : list A) (d : A) :
  (forall x, In x pre -> filter x = false) ->
  filter d = true ->
  find filter (pre ++ d :: post) = Some d.
Proof.
  intros Hpre Hd. induction pre as [|x pre IH]; simpl.
  - now rewrite Hd.
  - rewrite (Hpre x) by (simpl; auto). apply IH.
    intros y Hy. apply Hpre. simpl; auto.
Qed.

Lemma delete_one_none (docs : list A) :
  (forall d, In d docs -> filter d = false) ->
  delete_one filter docs = (docs, 0%nat).
Proof.
  induction docs as [|d rest IH]; intros H; simpl; [reflexivity|].
  rewrite (H d) by (simpl; auto).
  rewrite IH; [reflexivity|]. intros x Hx. apply H. simpl; auto.
Qed.

Lemma delete_one_first (pre post : list A) (d : A) :
  (forall x, In x pre -> filter x = false) ->
  filter d = true ->
  delete_one filter (pre ++ d :: post) = (pre ++ post, 1%nat).
Proof.
  intros Hpre Hd. induction pre as [|x pre IH]; simpl.
  - now rewrite Hd.
  - rewrite (Hpre x) by (simpl; auto).
    rewrite IH; [reflexivity|]. intros y Hy. apply Hpre. simpl; auto.
Qed.

(** [delete_one] either finds nothing and deletes nothing, or removes the
    first match and nothing else. *)
Lemma delete_one_cases (docs : list A) :
  ((forall d, In d docs -> filter d = false) /\
   delete_one filter docs = (docs, 0%nat)) \/
  (exists pre d post,
      docs = pre ++ d :: post /\
      (forall x, In x pre -> filter x = false) /\
      filter d = true /\
      delete_one filter docs = (pre ++ post, 1%nat)).
Proof.
  destruct (find filter docs) as [d|] eqn:E.
  - right. destruct (find_split docs d E) as (pre & post & -> & Hpre & Hd).
    exists pre, d, post. repeat split; auto. now apply delete_one_first.
  - left. rewrite find_none_iff in E. split; [exact E|].
    now apply delete_one_none.
Qed.

Variable set : A -> A.

Lemma update_one_none (docs : list A) :
  (forall d, In d docs -> filter d = false) ->
  update_one filter set docs = docs.
Proof.
  induction docs as [|d rest IH]; intros H; simpl; [reflexivity|].
  rewrite (H d) by (simpl; auto).
  rewrite IH; [reflexivity|]. intros x Hx. apply H. simpl; auto.
Qed.

Lemma update_one_first (pre post : list A) (d : A) :
  (forall x, In x pre -> filter x = false) ->
  filter d = true ->
  update_one filter set (pre ++ d :: post) = pre ++ set d :: post.
Proof.
  intros Hpre Hd. induction pre as [|x pre IH]; simpl.
  - now rewrite Hd.
  - rewrite (Hpre x) by (simpl; auto).
    rewrite IH; [reflexivity|]. intros y Hy. apply Hpre. simpl; auto.
Qed.

Lemma update_one_cases (docs : list A) :
  ((forall d, In d docs -> filter d = false) /\
   update_one filter set docs = docs) \/
  (exists pre d post,
      docs = pre ++ d :: post /\
      (forall x, In x pre -> filter x = false) /\
      filter d = true /\
      update_one filter set docs = pre ++ set d :: post).
Proof.
  destruct (find filter docs) as [d|] eqn:E.
  - right. destruct (find_split docs d E) as (pre & post & -> & Hpre & Hd).
    exists pre, d, post. repeat split; auto. now apply update_one_first.
  - left. rewrite find_none_iff in E. split; [exact E|].
    now apply update_one_none.
Qed.

Lemma update_one_length (docs : list A) :
  List.length (update_one filter set docs) = List.length docs.
Proof.
  induction docs as [|d rest IH]; simpl; [reflexivity|].
  destruct (filter d); simpl; auto.
Qed.

(** One relation between the collection before and after an [update_one]. *)
Lemma update_one_Forall2 (R : A -> A -> Prop) (docs : list A) :
  (forall d, R d d) ->
  (forall d, filter d = true -> R d (set d)) ->
  Forall2 R docs (update_one filter set docs).
Proof.
  intros Hrefl Hset.
  assert (Hid : forall l, Forall2 R l l)
    by (induction l; constructor; auto).
  induction docs as [|d rest IH]; simpl; [constructor|].
  destruct (filter d) eqn:E; constructor; auto.
Qed.

Lemma find_to_list_In (n : nat) (docs : list A) (d : A) :
  In d (find_to_list filter n docs) -> In d docs /\ filter d = true.
Proof.
  unfold find_to_list. intros H.
  apply firstn_In in H. now apply filter_In in H.
Qed.

Lemma find_to_list_all (n : nat) (docs : list A) :
  (List.length docs <= n)%nat ->
  find_to_list filter n docs = List.filter filter docs.
Proof.
  intros Hlen. unfold find_to_list. apply firstn_all2.
  pose proof (filter_length_le filter docs). lia.
Qed.

Lemma find_to_list_length (n : nat) (docs : list A) :
  (List.length (find_to_list filter n docs) <= n)%nat.
Proof. unfold find_to_list. apply firstn_le_length. Qed.

End Collections.

(** ** Friend routes *)

Lemma between_spec a b f :
  between a b f = true <->
  (Friendship.user_id f = a /\ Friendship.friend_id f = b) \/
  (Friendship.user_id f = b /\ Friendship.friend_id f = a).
Proof.
  unfold between.
  rewrite Bool.orb_true_iff, !Bool.andb_true_iff, !String.eqb_eq. tauto.
Qed.

Lemma between_false a b f :
  between a b f = false ->
  ~ ((Friendship.user_id f = a /\ Friendship.friend_id f = b) \/
     (Friendship.user_id f = b /\ Friendship.friend_id f = a)).
Proof.
  intros Hf H. apply between_spec in H. congruence.
Qed.

(** The four ways [send_friend_request] can end. *)
Lemma send_friend_request_cases env s friend_email current_user :
  (find_user_doc_by_email (user_docs s) friend_email = None /\
   send_friend_request env s friend_email current_user =
   (s, Raise (HTTPException 404 "User not found")))
  \/
  (exists friend,
      find_user_doc_by_email (user_docs s) friend_email = Some friend /\
      UserDoc.id friend = User.id current_user /\
      send_friend_request env s friend_email current_user =
      (s, Raise (HTTPException 400 "Cannot add yourself")))
  \/
  (exists friend existing,
      find_user_doc_by_email (user_docs s) friend_email = Some friend /\
      UserDoc.id friend <> User.id current_user /\
      In existing (friendships s) /\
      between (User.id current_user) (UserDoc.id friend) existing = true /\
      send_friend_request env s friend_email current_user =
      (s, Raise (HTTPException 400 "Friend request already exists")))
  \/
  (exists friend,
      find_user_doc_by_email (user_docs s) friend_email = Some friend /\
      UserDoc.id friend <> User.id current_user /\
      (forall f, In f (friendships s) ->
                 between (User.id current_user) (UserDoc.id friend) f = false) /\
      send_friend_request env s friend_email current_user =
      (mkStore (user_docs s) (categories s) (transactions s)
         (friendships s ++
            [Friendship.mk (uuid4 env 0) (User.id current_user)
               (UserDoc.id friend) (UserDoc.email friend)
               (UserDoc.full_name friend) PENDING (now env 0)])
         (budgets s) (shared_expense_docs s)
         (notification_docs s ++
            [Notification.mk (uuid4 env 1) (UserDoc.id friend) "friend_request"
               (User.full_name current_user ++ " đã gửi lời mời kết bạn")%string
               false (now env 1)]),
       Return "Friend request sent")).
Proof.
  unfold send_friend_request.
  destruct (find_user_doc_by_email (user_docs s) friend_email) as [friend|] eqn:Ef;
    [|left; auto].
  right.
  destruct (String.eqb_spec (UserDoc.id friend) (User.id current_user)) as [Heq|Hne].
  { left. exists friend. auto. }
  right.
  destruct (find (between (User.id current_user) (UserDoc.id friend))
                 (friendships s)) as [existing|] eqn:Eb.
  - left. exists friend, existing. apply find_some in Eb. tauto.
  - right. exists friend. repeat split; auto.
    now apply find_none_iff.
Qed.

(** A friendship between the two users, in either direction, blocks the
    request. *)
Lemma send_friend_request_existing env s friend_email current_user friend existing :
  find_user_doc_by_email (user_docs s) friend_email = Some friend ->
  UserDoc.id friend <> User.id current_user ->
  In existing (friendships s) ->
  (Friendship.user_id existing = User.id current_user /\
   Friendship.friend_id existing = UserDoc.id friend) \/
  (Friendship.user_id existing = UserDoc.id friend /\
   Friendship.friend_id existing = User.id current_user) ->
  send_friend_request env s friend_email current_user =
  (s, Raise (HTTPException 400 "Friend request already exists")).
Proof.
  intros Hfriend Hne Hin Hpair.
  destruct (send_friend_request_cases env s friend_email current_user)
    as [[Hf _]|[(fr & Hf & Hid & _)|[(fr & ex & Hf & _ & _ & _ & Hrun)
                                    |(fr & Hf & _ & Hno & _)]]];
    rewrite Hfriend in Hf; try discriminate Hf; injection Hf as <-.
  - contradiction.
  - exact Hrun.
  - exfalso. apply (between_false _ _ _ (Hno existing Hin)). exact Hpair.
Qed.

(** X1. [send_friend_request] refuses an email no user has (404), the
    caller's own email (400), and a pair of users some friendship document
    already joins, whoever asked first and whatever its status (400).  The
    store is left as it was. *)
Theorem send_friend_request_refused env s friend_email current_user :
  (find_user_doc_by_email (user_docs s) friend_email = None ->
   send_friend_request env s friend_email current_user =
   (s, Raise (HTTPException 404 "User not found"))) /\
  (forall friend,
      find_user_doc_by_email (user_docs s) friend_email = Some friend ->
      (UserDoc.id friend = User.id current_user ->
       send_friend_request env s friend_email current_user =
       (s, Raise (HTTPException 400 "Cannot add yourself"))) /\
      (UserDoc.id friend <> User.id current_user ->
       forall existing,
         In existing (friendships s) ->
         (Friendship.user_id existing = User.id current_user /\
          Friendship.friend_id existing = UserDoc.id friend) \/
         (Friendship.user_id existing = UserDoc.id friend /\
          Friendship.friend_id existing = User.id current_user) ->
         send_friend_request env s friend_email current_user =
         (s, Raise (HTTPException 400 "Friend request already exists")))).
Proof.
  split.
  - intros Hnone. unfold send_friend_request. now rewrite Hnone.
  - intros friend Hfriend. split.
    + intros Hself. unfold send_friend_request.
      now rewrite Hfriend, Hself, String.eqb_refl.
    + intros Hne existing Hin Hpair.
      now apply (send_friend_request_existing env s friend_email current_user
                   friend existing).
Qed.

Lemma send_friend_request_refused_witness :
  send_friend_request Ex2.env Ex2.s1 "nobody@example.com" Ex.an =
    (Ex2.s1, Raise (HTTPException 404 "User not found")) /\
  send_friend_request Ex2.env Ex2.s1 "an@example.com" Ex.an =
    (Ex2.s1, Raise (HTTPException 400 "Cannot add yourself")) /\
  send_friend_request Ex2.env Ex2.s1 "an@example.com" Ex.binh =
    (Ex2.s1, Raise (HTTPException 400 "Friend request already exists")).
Proof.
  split; [|split].
  - exact (proj1 (send_friend_request_refused Ex2.env Ex2.s1
                    "nobody@example.com" Ex.an) eq_refl).
  - exact (proj1 (proj2 (send_friend_request_refused Ex2.env Ex2.s1
                           "an@example.com" Ex.an) _ eq_refl) eq_refl).
  - refine (proj2 (proj2 (send_friend_request_refused Ex2.env Ex2.s1
                            "an@example.com" Ex.binh) _ eq_refl) _ _
                  (or_introl eq_refl) (or_intror (conj eq_refl eq_refl))).
    vm_compute. discriminate.
Defined.

(** X2. A request that was sent stored one [PENDING] friendship from the
    caller to the friend and one unread notification for the friend, and
    nothing else.  After it, the same request again and the request in the
    opposite direction are both refused and change nothing. *)
Theorem friend_request_not_repeated env s friend_email current_user s' msg :
  send_friend_request env s friend_email current_user = (s', Return msg) ->
  exists friend,
    find_user_doc_by_email (user_docs s) friend_email = Some friend /\
    friendships s' =
      friendships s ++
        [Friendship.mk (uuid4 env 0) (User.id current_user)
           (UserDoc.id friend) (UserDoc.email friend)
           (UserDoc.full_name friend) PENDING (now env 0)] /\
    notification_docs s' =
      notification_docs s ++
        [Notification.mk (uuid4 env 1) (UserDoc.id friend) "friend_request"
           (User.full_name current_user ++ " đã gửi lời mời kết bạn")%string
           false (now env 1)] /\
    user_docs s' = user_docs s /\
    categories s' = categories s /\
    transactions s' = transactions s /\
    budgets s' = budgets s /\
    shared_expense_docs s' = shared_expense_docs s /\
    (forall env',
        send_friend_request env' s' friend_email current_user =
        (s', Raise (HTTPException 400 "Friend request already exists"))) /\
    (forall env' back_email me friend_user,
        find_user_doc_by_email (user_docs s) back_email = Some me ->
        UserDoc.id me = User.id current_user ->
        User.id friend_user = UserDoc.id friend ->
        send_friend_request env' s' back_email friend_user =
        (s', Raise (HTTPException 400 "Friend request already exists"))).
Proof.
  intros Hrun.
  destruct (send_friend_request_cases env s friend_email current_user)
    as [[_ Hc]|[(fr & _ & _ & Hc)|[(fr & ex & _ & _ & _ & _ & Hc)
                                  |(friend & Hf & Hne & Hno & Hc)]]];
    rewrite Hc in Hrun; try discriminate Hrun.
  injection Hrun as <- _.
  exists friend. simpl. repeat (split; [reflexivity || exact Hf|]).
  set (new := Friendship.mk (uuid4 env 0) (User.id current_user)
                (UserDoc.id friend) (UserDoc.email friend)
                (UserDoc.full_name friend) PENDING (now env 0)).
  set (s' := mkStore _ _ _ _ _ _ _).
  assert (Hin : In new (friendships s')) by (simpl; apply in_or_app; simpl; auto).
  split.
  - intros env'.
    apply (send_friend_request_existing env' s' friend_email current_user
             friend new Hf Hne Hin).
    left. split; reflexivity.
  - intros env' back_email me friend_user Hme Hmeid Hfid.
    apply (send_friend_request_existing env' s' back_email friend_user me new
             Hme).
    + rewrite Hmeid, Hfid. congruence.
    + exact Hin.
    + right. simpl. rewrite Hmeid, Hfid. split; reflexivity.
Qed.

Lemma friend_request_not_repeated_witness :
  exists friend,
    find_user_doc_by_email (user_docs Ex2.s0) "binh@example.com" = Some friend /\
    List.length (friendships Ex2.s1) = 1%nat /\
    List.length (notification_docs Ex2.s1) = 1%nat /\
    send_friend_request Ex2.env Ex2.s1 "binh@example.com" Ex.an =
      (Ex2.s1, Raise (HTTPException 400 "Friend request already exists")) /\
    send_friend_request Ex2.env Ex2.s1 "an@example.com" Ex.binh =
      (Ex2.s1, Raise (HTTPException 400 "Friend request already exists")).
Proof.
  destruct (friend_request_not_repeated Ex2.env Ex2.s0 "binh@example.com" Ex.an
              Ex2.s1 "Friend request sent" eq_refl)
    as (friend & Hf & Hfs & Hns & _ & _ & _ & _ & _ & Hagain & Hback).
  exists friend. split; [exact Hf|].
  split; [now rewrite Hfs, length_app|].
  split; [now rewrite Hns, length_app|].
  split; [apply Hagain|].
  injection Hf as <-.
  exact (Hback Ex2.env "an@example.com" _ Ex.binh eq_refl eq_refl eq_refl).
Defined.

Lemma pairs_unique_app_one fs x :
  pairs_unique (fs ++ [x]) <->
  pairs_unique fs /\ (forall g, In g fs -> ~ same_pair g x).
Proof.
  induction fs as [|f rest IH]; simpl.
  - split; [intros _; split; [exact I|intros g []]|intros _; split; [intros g []|exact I]].
  - rewrite IH. split.
    + intros [Hf [Hrest Hx]]. split; [split; [|exact Hrest]|].
      * intros g Hg. apply Hf. apply in_or_app. now left.
      * intros g [<-|Hg]; [|now apply Hx].
        apply Hf. apply in_or_app. right. simpl. auto.
    + intros [[Hf Hrest] Hx]. split; [|split; [exact Hrest|]].
      * intros g Hg. apply in_app_or in Hg. destruct Hg as [Hg|[<-|[]]].
        -- now apply Hf.
        -- apply Hx. now left.
      * intros g Hg. apply Hx. now right.
Qed.

Lemma Forall2_In_r {A B : Type} (R : A -> B -> Prop) l l' y :
  Forall2 R l l' -> In y l' -> exists x, In x l /\ R x y.
Proof.
  induction 1 as [|a b l l' Hab _ IH]; simpl; [tauto|].
  intros [<-|Hy].
  - exists a. auto.
  - destruct (IH Hy) as (x & Hx & Hr). exists x. auto.
Qed.

Lemma Forall2_In_l {A B : Type} (R : A -> B -> Prop) l l' x :
  Forall2 R l l' -> In x l -> exists y, In y l' /\ R x y.
Proof.
  induction 1 as [|a b l l' Hab _ IH]; simpl; [tauto|].
  intros [<-|Hx].
  - exists b. auto.
  - destruct (IH Hx) as (y & Hy & Hr). exists y. auto.
Qed.

Lemma friendships_ok_same_users fs fs' :
  Forall2 same_users fs fs' -> friendships_ok fs -> friendships_ok fs'.
Proof.
  intros H. unfold friendships_ok.
  induction H as [|f f' fs fs' [Hu Hf] Hrest IH]; [tauto|].
  intros [Hself [Hfirst Hunique]].
  destruct IH as [IHself IHunique].
  { split; [|exact Hunique]. intros g Hg. apply Hself. now right. }
  split.
  - intros g [<-|Hg]; [|now apply IHself].
    rewrite Hu, Hf. apply Hself. now left.
  - simpl. split; [|exact IHunique].
    intros g' Hg' Hpair.
    destruct (Forall2_In_r _ _ _ _ Hrest Hg') as (g & Hg & [Hgu Hgf]).
    apply (Hfirst g Hg). unfold same_pair in *.
    rewrite Hu, Hf, Hgu, Hgf in Hpair. exact Hpair.
Qed.

(** X3. The friend routes keep the friendship collection well formed: if no
    document joins a user to themself and no two documents join the same
    two users, in either direction, the same holds after any
    [send_friend_request] or [accept_friend_request], refused or not. *)
Theorem friendships_stay_unique s r :
  friendships_ok (friendships s) ->
  friendships_ok (friendships (handle_friend s r)).
Proof.
  intros Hok.
  destruct r as [env friend_email current_user|friendship_id current_user];
    simpl handle_friend.
  - destruct (send_friend_request_cases env s friend_email current_user)
      as [[_ Hc]|[(fr & _ & _ & Hc)|[(fr & ex & _ & _ & _ & _ & Hc)
                                    |(friend & Hf & Hne & Hno & Hc)]]];
      rewrite Hc; simpl; try exact Hok.
    destruct Hok as [Hself Hunique]. split.
    + intros f Hin. apply in_app_or in Hin. destruct Hin as [Hin|[<-|[]]].
      * now apply Hself.
      * simpl. congruence.
    + apply pairs_unique_app_one. split; [exact Hunique|].
      intros g Hg Hpair. apply (between_false _ _ _ (Hno g Hg)).
      unfold same_pair in Hpair. simpl in Hpair. exact Hpair.
  - unfold accept_friend_request.
    destruct (find _ (friendships s)) as [friendship|]; [|exact Hok].
    destruct (negb _); [exact Hok|]. simpl.
    refine (friendships_ok_same_users _ _ _ Hok).
    apply update_one_Forall2; intros d; unfold same_users; simpl; auto.
Qed.

Lemma friendships_stay_unique_witness :
  friendships_ok (friendships Ex2.s1).
Proof.
  refine (friendships_stay_unique Ex2.s0
            (SendFriendRequest Ex2.env "binh@example.com" Ex.an) _).
  split; [intros f []|exact I].
Defined.

(** The three ways [accept_friend_request] can end. *)
Lemma accept_friend_request_cases s friendship_id current_user :
  ((forall f, In f (friendships s) ->
              String.eqb (Friendship.id f) friendship_id = false) /\
   accept_friend_request s friendship_id current_user =
   (s, Raise (HTTPException 404 "Friend request not found")))
  \/
  (exists pre f post,
      friendships s = pre ++ f :: post /\
      (forall g, In g pre -> String.eqb (Friendship.id g) friendship_id = false) /\
      Friendship.id f = friendship_id /\
      Friendship.friend_id f <> User.id current_user /\
      accept_friend_request s friendship_id current_user =
      (s, Raise (HTTPException 403 "Not authorized")))
  \/
  (exists pre f post,
      friendships s = pre ++ f :: post /\
      (forall g, In g pre -> String.eqb (Friendship.id g) friendship_id = false) /\
      Friendship.id f = friendship_id /\
      Friendship.friend_id f = User.id current_user /\
      accept_friend_request s friendship_id current_user =
      (mkStore (user_docs s) (categories s) (transactions s)
         (pre ++ Friendship.set_status f ACCEPTED :: post)
         (budgets s) (shared_expense_docs s) (notification_docs s),
       Return "Friend request accepted")).
Proof.
  unfold accept_friend_request.
  destruct (find (fun f => String.eqb (Friendship.id f) friendship_id)
                 (friendships s)) as [f|] eqn:Ef.
  - right.
    destruct (find_split _ _ _ Ef) as (pre & post & Hsplit & Hpre & Hf).
    apply String.eqb_eq in Hf.
    destruct (String.eqb_spec (Friendship.friend_id f) (User.id current_user))
      as [Heq|Hne]; simpl.
    + right. exists pre, f, post. repeat split; auto.
      rewrite Hsplit at 1. rewrite update_one_first; auto.
      now apply String.eqb_eq.
    + left. exists pre, f, post. repeat split; auto.
  - left. split; [|reflexivity]. now apply find_none_iff.
Qed.

(** X4. [accept_friend_request] answers 404 when no friendship has the id
    and 403 when the caller is not the [friend_id] of the friendship found,
    so the user who sent a request cannot accept it; the store is left as it
    was. *)
Theorem accept_friend_request_refused s friendship_id current_user :
  ((forall f, In f (friendships s) -> Friendship.id f <> friendship_id) ->
   accept_friend_request s friendship_id current_user =
   (s, Raise (HTTPException 404 "Friend request not found"))) /\
  (forall friendship,
      find (fun f => String.eqb (Friendship.id f) friendship_id)
           (friendships s) = Some friendship ->
      Friendship.friend_id friendship <> User.id current_user ->
      accept_friend_request s friendship_id current_user =
      (s, Raise (HTTPException 403 "Not authorized"))).
Proof.
  split.
  - intros Hno. unfold accept_friend_request.
    replace (find _ (friendships s)) with (@None Friendship.t); [reflexivity|].
    symmetry. apply find_none_iff. intros f Hf.
    apply String.eqb_neq. now apply Hno.
  - intros friendship Hfind Hne. unfold accept_friend_request.
    rewrite Hfind. apply String.eqb_neq in Hne. now rewrite Hne.
Qed.

Lemma accept_friend_request_refused_witness :
  accept_friend_request Ex2.s1 "9-x" Ex.binh =
    (Ex2.s1, Raise (HTTPException 404 "Friend request not found")) /\
  accept_friend_request Ex2.s1 "0-x" Ex.an =
    (Ex2.s1, Raise (HTTPException 403 "Not authorized")).
Proof.
  split.
  - apply (proj1 (accept_friend_request_refused Ex2.s1 "9-x" Ex.binh)).
    intros f [<-|[]]. vm_compute. discriminate.
  - refine (proj2 (accept_friend_request_refused Ex2.s1 "0-x" Ex.an)
                  _ eq_refl _).
    vm_compute. discriminate.
Defined.

Lemma accept_frame_refl friendship_id fs :
  Forall2 (accept_frame friendship_id) fs fs.
Proof.
  induction fs as [|f fs IH]; constructor; auto.
  unfold accept_frame. tauto.
Qed.

Lemma nth_error_app_middle_gen {A : Type} (pre post : list A) (x y : A) (k : nat) :
  k <> List.length pre ->
  nth_error (pre ++ x :: post) k = nth_error (pre ++ y :: post) k.
Proof.
  intros Hk. destruct (Nat.lt_ge_cases k (List.length pre)) as [Hlt|Hge].
  - now rewrite !nth_error_app1.
  - rewrite !nth_error_app2 by exact Hge.
    destruct (k - List.length pre)%nat eqn:E; [lia|reflexivity].
Qed.

(** X5. An accepted request changed nothing but the [status] of one
    friendship with the given id, now [ACCEPTED]: every friendship keeps its
    place, id, users, snapshot and date, at most one position differs, and
    the other collections are untouched.  The route does not look at the
    status it overwrites, and accepting again changes nothing more. *)
Theorem accept_changes_only_status s friendship_id current_user :
  (forall s' msg,
      accept_friend_request s friendship_id current_user = (s', Return msg) ->
      Forall2 (accept_frame friendship_id) (friendships s) (friendships s') /\
      (exists i, forall k, k <> i ->
         nth_error (friendships s') k = nth_error (friendships s) k) /\
      (exists f', In f' (friendships s') /\
                  Friendship.id f' = friendship_id /\
                  Friendship.friend_id f' = User.id current_user /\
                  Friendship.status f' = ACCEPTED) /\
      user_docs s' = user_docs s /\
      categories s' = categories s /\
      transactions s' = transactions s /\
      budgets s' = budgets s /\
      shared_expense_docs s' = shared_expense_docs s /\
      notification_docs s' = notification_docs s) /\
  accept_friend_request
    (fst (accept_friend_request s friendship_id current_user))
    friendship_id current_user
  = accept_friend_request s friendship_id current_user.
Proof.
  destruct (accept_friend_request_cases s friendship_id current_user)
    as [[_ Hc]|[(pre & f & post & _ & _ & _ & _ & Hc)
               |(pre & f & post & Hsplit & Hpre & Hid & Hfr & Hc)]];
    rewrite Hc; simpl fst.
  - split; [intros s' msg H; discriminate H|exact Hc].
  - split; [intros s' msg H; discriminate H|exact Hc].
  - split.
    + intros s' msg [= <- _]. simpl. rewrite Hsplit.
      split; [|split; [|split]].
      * apply Forall2_app; [apply accept_frame_refl|].
        constructor; [|apply accept_frame_refl].
        unfold accept_frame. simpl. tauto.
      * exists (List.length pre). intros k Hk.
        now apply nth_error_app_middle_gen.
      * exists (Friendship.set_status f ACCEPTED). simpl.
        split; [apply in_or_app; simpl; auto|tauto].
      * tauto.
    + unfold accept_friend_request at 1. simpl friendships.
      rewrite (find_app_first _ pre post (Friendship.set_status f ACCEPTED))
        by (simpl; auto; now apply String.eqb_eq).
      simpl Friendship.friend_id. rewrite Hfr, String.eqb_refl. simpl negb.
      cbv iota.
      rewrite update_one_first by (simpl; auto; now apply String.eqb_eq).
      reflexivity.
Qed.

Lemma accept_changes_only_status_witness :
  exists s',
    accept_friend_request Ex2.s1 "0-x" Ex.binh =
      (s', Return "Friend request accepted") /\
    map Friendship.status (friendships s') = [ACCEPTED] /\
    Forall2 (accept_frame "0-x") (friendships Ex2.s1) (friendships s').
Proof.
  eexists. split; [reflexivity|]. split; [reflexivity|].
  exact (proj1 (proj1 (accept_changes_only_status Ex2.s1 "0-x" Ex.binh)
                  _ "Friend request accepted" eq_refl)).
Defined.

(** X6. A request in flight is in nobody's friend list.  Once the friend
    accepts it (the id being new among the stored friendships, of which
    there are fewer than 1000), the accepted friendship is appended to the
    friend list of both users. *)
Theorem accepted_request_shows env s friend_email current_user s1 msg
        friend friend_user :
  send_friend_request env s friend_email current_user = (s1, Return msg) ->
  find_user_doc_by_email (user_docs s) friend_email = Some friend ->
  User.id friend_user = UserDoc.id friend ->
  (forall f, In f (friendships s) -> Friendship.id f <> uuid4 env 0) ->
  (List.length (friendships s) < 1000)%nat ->
  let accepted :=
    Friendship.mk (uuid4 env 0) (User.id current_user) (UserDoc.id friend)
      (UserDoc.email friend) (UserDoc.full_name friend) ACCEPTED (now env 0) in
  (forall u, snd (get_friends s1 u) = snd (get_friends s u)) /\
  exists s2,
    accept_friend_request s1 (uuid4 env 0) friend_user =
      (s2, Return "Friend request accepted") /\
    friendships s2 = friendships s ++ [accepted] /\
    (forall l, snd (get_friends s current_user) = Return l ->
               snd (get_friends s2 current_user) = Return (l ++ [accepted])) /\
    (forall l, snd (get_friends s friend_user) = Return l ->
               snd (get_friends s2 friend_user) = Return (l ++ [accepted])).
Proof.
  intros Hrun Hfriend Hfid Hfresh Hlen accepted.
  destruct (send_friend_request_cases env s friend_email current_user)
    as [[_ Hc]|[(fr & _ & _ & Hc)|[(fr & ex & _ & _ & _ & _ & Hc)
                                  |(fr & Hf & Hne & Hno & Hc)]]];
    rewrite Hc in Hrun; try discriminate Hrun.
  rewrite Hfriend in Hf. injection Hf as <-.
  injection Hrun as <- _.
  assert (Hpre : forall g, In g (friendships s) ->
                   String.eqb (Friendship.id g) (uuid4 env 0) = false).
  { intros g Hg. apply String.eqb_neq. now apply Hfresh. }
  assert (Hflen : forall (flt : Friendship.t -> bool),
             (List.length (List.filter flt (friendships s)) < 1000)%nat).
  { intros flt. pose proof (filter_length_le flt (friendships s)). lia. }
  split.
  - intros u. unfold get_friends, find_to_list. cbn [snd friendships].
    rewrite filter_app. cbn [List.filter Friendship.status].
    rewrite Bool.andb_false_r. now rewrite app_nil_r.
  - exists (mkStore (user_docs s) (categories s) (transactions s)
              (friendships s ++ [accepted]) (budgets s) (shared_expense_docs s)
              (notification_docs s ++
                 [Notification.mk (uuid4 env 1) (UserDoc.id friend)
                    "friend_request"
                    (User.full_name current_user ++ " đã gửi lời mời kết bạn")%string
                    false (now env 1)])).
    split; [|split; [|split]].
    + unfold accept_friend_request. simpl friendships.
      rewrite (find_app_first _ (friendships s) [] _ Hpre)
        by apply String.eqb_refl.
      simpl Friendship.friend_id. rewrite Hfid, String.eqb_refl.
      simpl negb. cbv iota.
      rewrite (update_one_first _ _ (friendships s) [] _ Hpre)
        by apply String.eqb_refl.
      reflexivity.
    + reflexivity.
    + intros l Hl. unfold get_friends in *. cbn [snd friendships] in *.
      injection Hl as <-. f_equal. unfold find_to_list.
      rewrite filter_app. cbn [List.filter accepted Friendship.user_id
                                Friendship.friend_id Friendship.status].
      rewrite String.eqb_refl. cbn [orb andb app].
      rewrite !firstn_all2; [reflexivity| |].
      * pose proof (Hflen (fun f =>
          (String.eqb (Friendship.user_id f) (User.id current_user)
           || String.eqb (Friendship.friend_id f) (User.id current_user))
          && match Friendship.status f with ACCEPTED => true | _ => false end)).
        lia.
      * rewrite length_app. cbn [List.length].
        pose proof (Hflen (fun f =>
          (String.eqb (Friendship.user_id f) (User.id current_user)
           || String.eqb (Friendship.friend_id f) (User.id current_user))
          && match Friendship.status f with ACCEPTED => true | _ => false end)).
        lia.
    + intros l Hl. unfold get_friends in *. cbn [snd friendships] in *.
      injection Hl as <-. f_equal. unfold find_to_list.
      rewrite filter_app. cbn [List.filter accepted Friendship.user_id
                                Friendship.friend_id Friendship.status].
      rewrite Hfid, String.eqb_refl, Bool.orb_true_r. cbn [orb andb app].
      rewrite !firstn_all2; [reflexivity| |].
      * pose proof (Hflen (fun f =>
          (String.eqb (Friendship.user_id f) (UserDoc.id friend)
           || String.eqb (Friendship.friend_id f) (UserDoc.id friend))
          && match Friendship.status f with ACCEPTED => true | _ => false end)).
        lia.
      * rewrite length_app. cbn [List.length].
        pose proof (Hflen (fun f =>
          (String.eqb (Friendship.user_id f) (UserDoc.id friend)
           || String.eqb (Friendship.friend_id f) (UserDoc.id friend))
          && match Friendship.status f with ACCEPTED => true | _ => false end)).
        lia.
Qed.

Lemma accepted_request_shows_witness :
  snd (get_friends Ex2.s1 Ex.an) = Return [] /\
  exists s2,
    accept_friend_request Ex2.s1 "0-x" Ex.binh =
      (s2, Return "Friend request accepted") /\
    option_map (map Friendship.id)
      (match snd (get_friends s2 Ex.an) with
       | Return l => Some l
       | Raise _ => None
       end) = Some ["0-x"] /\
    option_map (map Friendship.id)
      (match snd (get_friends s2 Ex.binh) with
       | Return l => Some l
       | Raise _ => None
       end) = Some ["0-x"].
Proof.
  destruct (accepted_request_shows Ex2.env Ex2.s0 "binh@example.com" Ex.an
              Ex2.s1 "Friend request sent"
              (Ex2.doc "u-binh" "binh@example.com" "binh-pw" "Binh") Ex.binh
              eq_refl eq_refl eq_refl
              (fun f (H : In f []) => match H with end)
              ltac:(simpl; lia))
    as (Hbefore & s2 & Hacc & _ & Han & Hbinh).
  split; [now rewrite Hbefore|].
  exists s2. split; [exact Hacc|].
  rewrite (Han [] eq_refl), (Hbinh [] eq_refl). split; reflexivity.
Defined.

(** ** Notification routes *)

Lemma Forall2_refl_of {A : Type} (R : A -> A -> Prop) (l : list A) :
  (forall x, R x x) -> Forall2 R l l.
Proof. intros H. induction l; constructor; auto. Qed.

(** X7. [mark_notification_read] always answers with its message.  It
    changes at most one notification, one that has the given id and belongs
    to the caller, and only sets its [read] flag: a notification of another
    user is never touched, and when the caller has no notification with
    that id the store stays as it was, without any error.  Marking again
    changes nothing more. *)
Theorem mark_read_only_own s notification_id current_user :
  exists s',
    mark_notification_read s notification_id current_user =
      (s', Return "Notification marked as read") /\
    Forall2 (read_frame notification_id (User.id current_user))
            (notification_docs s) (notification_docs s') /\
    (exists i, forall k, k <> i ->
       nth_error (notification_docs s') k = nth_error (notification_docs s) k) /\
    user_docs s' = user_docs s /\
    categories s' = categories s /\
    transactions s' = transactions s /\
    friendships s' = friendships s /\
    budgets s' = budgets s /\
    shared_expense_docs s' = shared_expense_docs s /\
    ((forall n, In n (notification_docs s) ->
                Notification.id n = notification_id ->
                Notification.user_id n <> User.id current_user) ->
     s' = s) /\
    mark_notification_read s' notification_id current_user =
      (s', Return "Notification marked as read").
Proof.
  unfold mark_notification_read. eexists. split; [reflexivity|].
  cbn [notification_docs user_docs categories transactions friendships budgets
       shared_expense_docs].
  set (flt := fun n => String.eqb (Notification.id n) notification_id &&
                       String.eqb (Notification.user_id n) (User.id current_user)).
  set (upd := fun n => set_read n true).
  assert (Hflt : forall n, flt n = true ->
                   Notification.id n = notification_id /\
                   Notification.user_id n = User.id current_user).
  { intros n Hn. unfold flt in Hn.
    rewrite Bool.andb_true_iff, !String.eqb_eq in Hn. exact Hn. }
  split.
  { apply update_one_Forall2; intros n; unfold read_frame; [tauto|].
    intros Hn. right. destruct (Hflt n Hn). auto. }
  destruct (update_one_cases flt upd (notification_docs s))
    as [[Hno Hsame]|(pre & n & post & Hsplit & Hpre & Hn & Hupd)].
  - rewrite Hsame. repeat split; try reflexivity.
    + exists 0%nat. reflexivity.
    + intros _. now destruct s.
    + now rewrite Hsame.
  - rewrite Hupd. split; [|repeat split; try reflexivity].
    + exists (List.length pre). intros k Hk. rewrite Hsplit.
      now apply nth_error_app_middle_gen.
    + intros Hother. exfalso. destruct (Hflt n Hn) as [Hid Huser].
      apply (Hother n); auto. rewrite Hsplit. apply in_or_app. simpl. auto.
    + rewrite (update_one_first flt upd pre post (upd n) Hpre)
        by (destruct (Hflt n Hn) as [Hid Huser]; unfold flt, upd; simpl;
            now rewrite Hid, Huser, !String.eqb_refl).
      reflexivity.
Qed.

(** ** Category routes *)

Lemma NoDup_map_In_eq {A B : Type} (f : A -> B) (l : list A) (x y : A) :
  NoDup (map f l) -> In x l -> In y l -> f x = f y -> x = y.
Proof.
  induction l as [|a l IH]; simpl; [tauto|].
  intros Hnd Hx Hy Hf. inversion Hnd as [|b bs Hnotin Hnd']; subst.
  destruct Hx as [->|Hx], Hy as [->|Hy]; auto.
  - exfalso. apply Hnotin. rewrite Hf. now apply in_map.
  - exfalso. apply Hnotin. rewrite <- Hf. now apply in_map.
Qed.

(** With distinct keys, a document sits at one place only. *)
Lemma NoDup_map_split_eq {A B : Type} (f : A -> B) (pre post pre' post' : list A)
      (x : A) :
  NoDup (map f (pre ++ x :: post)) ->
  pre ++ x :: post = pre' ++ x :: post' ->
  pre = pre' /\ post = post'.
Proof.
  revert pre'. induction pre as [|a pre IH]; intros pre' Hnd Heq.
  - destruct pre' as [|b pre']; simpl in *.
    + injection Heq as ->. auto.
    + injection Heq as <- ->. exfalso.
      inversion Hnd as [|? ? Hnotin _]; subst. apply Hnotin.
      rewrite map_app. apply in_or_app. right. simpl. auto.
  - destruct pre' as [|b pre']; simpl in *.
    + injection Heq as -> <-. exfalso.
      inversion Hnd as [|? ? Hnotin _]; subst. apply Hnotin.
      rewrite map_app. apply in_or_app. right. simpl. auto.
    + injection Heq as <- Heq. inversion Hnd as [|? ? _ Hnd']; subst.
      destruct (IH pre' Hnd' Heq) as [-> ->]. auto.
Qed.

(** X8. [delete_category] answers 404 when the caller owns no category
    with the id, even if another user's category carries it, and 400 when
    the category found is a default one; the store is left as it was. *)
Theorem delete_category_refused s category_id current_user :
  ((forall c, In c (categories s) ->
              Category.id c = category_id ->
              Category.user_id c <> User.id current_user) ->
   delete_category s category_id current_user =
   (s, Raise (HTTPException 404 "Category not found"))) /\
  (forall category,
      find (fun c => String.eqb (Category.id c) category_id &&
                     String.eqb (Category.user_id c) (User.id current_user))
           (categories s) = Some category ->
      Category.is_default category = true ->
      delete_category s category_id current_user =
      (s, Raise (HTTPException 400 "Cannot delete default category"))).
Proof.
  split.
  - intros Hno. unfold delete_category.
    replace (find _ (categories s)) with (@None Category.t); [reflexivity|].
    symmetry. apply find_none_iff. intros c Hc.
    apply Bool.andb_false_iff.
    destruct (String.eqb_spec (Category.id c) category_id) as [Hid|]; auto.
    right. apply String.eqb_neq. now apply Hno.
  - intros category Hfind Hdef. unfold delete_category.
    now rewrite Hfind, Hdef.
Qed.

(** X9. When the categories have pairwise distinct ids, a successful
    [delete_category] removed exactly one category, one with the given id
    that belongs to the caller and is not a default one; all the others
    keep their order and the other collections are untouched. *)
Theorem delete_category_removes_own s category_id current_user s' msg :
  NoDup (map Category.id (categories s)) ->
  delete_category s category_id current_user = (s', Return msg) ->
  exists pre c post,
    categories s = pre ++ c :: post /\
    categories s' = pre ++ post /\
    Category.id c = category_id /\
    Category.user_id c = User.id current_user /\
    Category.is_default c = false /\
    user_docs s' = user_docs s /\
    transactions s' = transactions s /\
    friendships s' = friendships s /\
    budgets s' = budgets s /\
    shared_expense_docs s' = shared_expense_docs s /\
    notification_docs s' = notification_docs s.
Proof.
  intros Hnd. unfold delete_category.
  destruct (find _ (categories s)) as [c|] eqn:Ef; [|discriminate].
  destruct (Category.is_default c) eqn:Hdef; [discriminate|].
  intros [= <- _]. simpl.
  destruct (find_split _ _ _ Ef) as (pre & post & Hsplit & _ & Hc).
  apply Bool.andb_true_iff in Hc. destruct Hc as [Hid Huser].
  apply String.eqb_eq in Huser.
  exists pre, c, post. split; [exact Hsplit|].
  split; [|apply String.eqb_eq in Hid; tauto].
  destruct (delete_one_cases
              (fun c0 => String.eqb (Category.id c0) category_id) (categories s))
    as [[Hno _]|(pre' & d & post' & Hsplit' & _ & Hd & Hdel)].
  - exfalso. rewrite (Hno c) in Hid; [discriminate|].
    rewrite Hsplit. apply in_or_app. simpl. auto.
  - rewrite Hdel. simpl.
    assert (d = c).
    { apply (NoDup_map_In_eq Category.id (categories s)); auto.
      - rewrite Hsplit'. apply in_or_app. simpl. auto.
      - rewrite Hsplit. apply in_or_app. simpl. auto.
      - apply String.eqb_eq in Hid, Hd. congruence. }
    subst d. rewrite Hsplit in Hnd, Hsplit'.
    destruct (NoDup_map_split_eq Category.id _ _ _ _ _ Hnd Hsplit') as [-> ->].
    reflexivity.
Qed.

(** X10. A category that was just created can be deleted again by its
    creator, and the store is then the one before the creation (the id
    being new among the stored categories).  In between, the creator's
    category list shows it, provided fewer than 100 categories are
    stored. *)
Theorem create_then_delete_category env s category_data current_user :
  (forall c, In c (categories s) -> Category.id c <> uuid4 env 0) ->
  exists s1 c,
    create_category env s category_data current_user = (s1, Return c) /\
    Category.id c = uuid4 env 0 /\
    Category.user_id c = User.id current_user /\
    Category.is_default c = false /\
    ((List.length (categories s) < 100)%nat ->
     exists l, snd (get_categories s1 current_user) = Return l /\ In c l) /\
    delete_category s1 (Category.id c) current_user =
      (s, Return "Category deleted").
Proof.
  intros Hfresh. unfold create_category. eexists _, _.
  split; [reflexivity|]. cbn [Category.id Category.user_id Category.is_default].
  repeat (split; [reflexivity|]).
  assert (Hpre : forall c, In c (categories s) ->
                   String.eqb (Category.id c) (uuid4 env 0) = false).
  { intros c Hc. apply String.eqb_neq. now apply Hfresh. }
  split.
  - intros Hlen. unfold get_categories. cbn [snd categories].
    eexists. split; [reflexivity|].
    rewrite find_to_list_all by (rewrite length_app; simpl; lia).
    apply filter_In. split; [apply in_or_app; simpl; auto|].
    simpl. apply String.eqb_refl.
  - unfold delete_category. cbn [categories].
    rewrite (find_app_first _ (categories s) []).
    + cbn [Category.is_default].
      rewrite (delete_one_first _ (categories s) [] _ Hpre)
        by (simpl; apply String.eqb_refl).
      cbn. rewrite app_nil_r. now destruct s.
    + intros c Hc. now rewrite (Hpre c Hc).
    + simpl. now rewrite !String.eqb_refl.
Qed.

Lemma delete_category_refused_witness :
  delete_category Ex2.s_reg "1-x" Ex.an =
    (Ex2.s_reg, Raise (HTTPException 404 "Category not found")) /\
  delete_category Ex2.s_reg "1-x" Ex2.dung =
    (Ex2.s_reg, Raise (HTTPException 400 "Cannot delete default category")).
Proof.
  split.
  - apply (proj1 (delete_category_refused Ex2.s_reg "1-x" Ex.an)).
    intros c Hc _. vm_compute in Hc.
    repeat (destruct Hc as [<-|Hc]; [vm_compute; discriminate|]).
    destruct Hc.
  - exact (proj2 (delete_category_refused Ex2.s_reg "1-x" Ex2.dung)
                 _ eq_refl eq_refl).
Defined.

Lemma delete_category_removes_own_witness :
  exists pre c post,
    categories Ex2.s_cat = pre ++ c :: post /\
    categories (fst (delete_category Ex2.s_cat "a-y" Ex2.dung)) = pre ++ post /\
    Category.id c = "a-y" /\
    Category.user_id c = "0-x" /\
    Category.is_default c = false.
Proof.
  assert (Hnd : NoDup (map Category.id (categories Ex2.s_cat))).
  { vm_compute.
    repeat (constructor; [simpl; intuition discriminate|]). constructor. }
  destruct (delete_category_removes_own Ex2.s_cat "a-y" Ex2.dung
              (fst (delete_category Ex2.s_cat "a-y" Ex2.dung))
              "Category deleted" Hnd eq_refl)
    as (pre & c & post & H1 & H2 & H3 & H4 & H5 & _).
  exists pre, c, post. auto.
Defined.

Lemma create_then_delete_category_witness :
  exists s1 c,
    create_category Ex2.env2 Ex2.s_reg Ex2.books Ex2.dung = (s1, Return c) /\
    (exists l, snd (get_categories s1 Ex2.dung) = Return l /\ In c l) /\
    delete_category s1 (Category.id c) Ex2.dung =
      (Ex2.s_reg, Return "Category deleted").
Proof.
  destruct (create_then_delete_category Ex2.env2 Ex2.s_reg Ex2.books Ex2.dung)
    as (s1 & c & Hrun & _ & _ & _ & Hlist & Hdel).
  { intros c Hc. vm_compute in Hc.
    repeat (destruct Hc as [<-|Hc]; [vm_compute; discriminate|]).
    destruct Hc. }
  exists s1, c. split; [exact Hrun|]. split; [|exact Hdel].
  apply Hlist. vm_compute. lia.
Defined.

(** ** Auth routes *)

Lemma find_user_doc_by_email_In ds email :
  In email (map UserDoc.email ds) -> find_user_doc_by_email ds email <> None.
Proof.
  intros Hin Hnone. apply in_map_iff in Hin. destruct Hin as (d & Hd & Hin).
  unfold find_user_doc_by_email in Hnone.
  apply (find_none _ _ Hnone) in Hin. rewrite Hd, String.eqb_refl in Hin.
  discriminate.
Qed.

Lemma find_user_doc_by_email_not_In ds email :
  find_user_doc_by_email ds email = None -> ~ In email (map UserDoc.email ds).
Proof.
  intros Hnone Hin. now apply (find_user_doc_by_email_In ds email).
Qed.

Lemma find_app {A : Type} (f : A -> bool) (l1 l2 : list A) :
  find f (l1 ++ l2) =
  match find f l1 with
  | Some x => Some x
  | None => find f l2
  end.
Proof.
  induction l1 as [|a l1 IH]; simpl; [reflexivity|].
  destruct (f a); auto.
Qed.

(** The three ways [register] can end. *)
Lemma register_cases auth env s user_data :
  (find_user_doc_by_email (user_docs s) (UserRegister.email user_data) <> None /\
   register auth env s user_data =
   (s, Raise (HTTPException 400 "Email already registered")))
  \/
  (find_user_doc_by_email (user_docs s) (UserRegister.email user_data) = None /\
   hash_password auth (UserRegister.password user_data) = None /\
   register auth env s user_data = (s, Raise ValueError))
  \/
  (exists password_hash,
   find_user_doc_by_email (user_docs s) (UserRegister.email user_data) = None /\
   hash_password auth (UserRegister.password user_data) = Some password_hash /\
   register auth env s user_data =
   (mkStore
      (user_docs s ++
         [UserDoc.mk (uuid4 env 0) (UserRegister.email user_data)
            password_hash
            (UserRegister.full_name user_data)
            None "VND" (PyFloat.of_Z 25000) (now env 0)])
      (categories s ++
         create_default_categories env 1 (uuid4 env 0) default_categories)
      (transactions s) (friendships s) (budgets s)
      (shared_expense_docs s) (notification_docs s),
    Return (AuthResponse.mk
              (create_access_token auth (uuid4 env 0) (now env 9)) "bearer"
              (User.mk (uuid4 env 0) (UserRegister.email user_data)
                       (UserRegister.full_name user_data))))).
Proof.
  unfold register.
  destruct (find_user_doc_by_email (user_docs s) (UserRegister.email user_data));
    [left; split; [discriminate|reflexivity]|right].
  destruct (hash_password auth (UserRegister.password user_data))
    as [password_hash|]; [right; exists password_hash|left]; auto.
Qed.

Lemma create_default_categories_spec env user_id cats : forall k c,
  In c (create_default_categories env k user_id cats) ->
  Category.user_id c = user_id /\ Category.is_default c = true.
Proof.
  induction cats as [|cat rest IH]; intros k c; simpl; [tauto|].
  intros [<-|Hc]; [auto|]. now apply (IH (S k)).
Qed.

(** X11. [register] refuses an email some user already has (400, store
    unchanged), so it keeps the emails of the user collection pairwise
    distinct. *)
Theorem register_keeps_emails_unique auth env s user_data :
  (In (UserRegister.email user_data) (map UserDoc.email (user_docs s)) ->
   register auth env s user_data =
   (s, Raise (HTTPException 400 "Email already registered"))) /\
  (NoDup (map UserDoc.email (user_docs s)) ->
   NoDup (map UserDoc.email (user_docs (fst (register auth env s user_data))))).
Proof.
  destruct (register_cases auth env s user_data)
    as [[Hsome Hc]|[(Hnone & _ & Hc)|(password_hash & Hnone & _ & Hc)]];
    rewrite Hc; simpl fst.
  - auto.
  - split; [|auto]. intros Hin. exfalso.
    now apply (find_user_doc_by_email_In _ _ Hin).
  - split.
    + intros Hin. exfalso.
      now apply (find_user_doc_by_email_In _ _ Hin).
    + intros Hnd. simpl. rewrite map_app. simpl.
      apply NoDup_app; [exact Hnd|repeat constructor; intros []|].
      intros email Hin [<-|[]].
      now apply (find_user_doc_by_email_not_In _ _ Hnone).
Qed.

Lemma register_keeps_emails_unique_witness :
  register Ex2.auth Ex2.env Ex2.s0
    (UserRegister.mk "an@example.com" "other-pw" "Another An") =
    (Ex2.s0, Raise (HTTPException 400 "Email already registered")) /\
  NoDup (map UserDoc.email (user_docs Ex2.s_reg)).
Proof.
  split.
  - apply (proj1 (register_keeps_emails_unique Ex2.auth Ex2.env Ex2.s0
                    (UserRegister.mk "an@example.com" "other-pw" "Another An"))).
    simpl. auto.
  - apply (proj2 (register_keeps_emails_unique Ex2.auth Ex2.env Ex2.s0
                    Ex2.dung_data)).
    simpl. repeat (constructor; [simpl; intuition discriminate|]). constructor.
Defined.

(** What a successful [register] did. *)
Lemma register_returns auth env s user_data s' r :
  register auth env s user_data = (s', Return r) ->
  exists password_hash,
    find_user_doc_by_email (user_docs s) (UserRegister.email user_data) = None /\
    hash_password auth (UserRegister.password user_data) = Some password_hash /\
    s' = mkStore
           (user_docs s ++
              [UserDoc.mk (uuid4 env 0) (UserRegister.email user_data)
                 password_hash (UserRegister.full_name user_data)
                 None "VND" (PyFloat.of_Z 25000) (now env 0)])
           (categories s ++
              create_default_categories env 1 (uuid4 env 0) default_categories)
           (transactions s) (friendships s) (budgets s)
           (shared_expense_docs s) (notification_docs s) /\
    r = AuthResponse.mk
          (create_access_token auth (uuid4 env 0) (now env 9)) "bearer"
          (User.mk (uuid4 env 0) (UserRegister.email user_data)
                   (UserRegister.full_name user_data)).
Proof.
  intros Hrun.
  destruct (register_cases auth env s user_data)
    as [[_ Hc]|[(_ & _ & Hc)|(password_hash & Hnone & Hhash & Hc)]];
    rewrite Hc in Hrun; try discriminate.
  exists password_hash. apply pair_equal_spec in Hrun.
  destruct Hrun as [Hs Hr]. repeat split; auto; congruence.
Qed.

(** X12. A registration that succeeds appends one user document, with the
    hashed password and the defaults of a new account, and eight default
    categories owned by the new user, and touches nothing else.  When no
    stored category was owned by the new id before, the new user cannot
    delete any of the eight: [delete_category] answers 400. *)
Theorem register_creates_account auth env s user_data s' r :
  register auth env s user_data = (s', Return r) ->
  exists doc new_categories,
    user_docs s' = user_docs s ++ [doc] /\
    UserDoc.id doc = uuid4 env 0 /\
    UserDoc.email doc = UserRegister.email user_data /\
    UserDoc.full_name doc = UserRegister.full_name user_data /\
    hash_password auth (UserRegister.password user_data) =
      Some (UserDoc.password_hash doc) /\
    UserDoc.avatar_url doc = None /\
    UserDoc.currency_preference doc = "VND" /\
    AuthResponse.user r = user_of_doc doc /\
    AuthResponse.token_type r = "bearer" /\
    categories s' = categories s ++ new_categories /\
    List.length new_categories = 8%nat /\
    map Category.type new_categories =
      [EXPENSE; EXPENSE; EXPENSE; EXPENSE; EXPENSE; EXPENSE; INCOME; EXPENSE] /\
    Forall (fun c => Category.user_id c = uuid4 env 0 /\
                     Category.is_default c = true) new_categories /\
    transactions s' = transactions s /\
    friendships s' = friendships s /\
    budgets s' = budgets s /\
    shared_expense_docs s' = shared_expense_docs s /\
    notification_docs s' = notification_docs s /\
    ((forall c, In c (categories s) -> Category.user_id c <> uuid4 env 0) ->
     forall c, In c new_categories ->
       delete_category s' (Category.id c) (AuthResponse.user r) =
       (s', Raise (HTTPException 400 "Cannot delete default category"))).
Proof.
  intros Hrun.
  destruct (register_returns auth env s user_data s' r Hrun)
    as (password_hash & Hnone & Hhash & -> & ->).
  set (new := create_default_categories env 1 (uuid4 env 0) default_categories).
  exists (UserDoc.mk (uuid4 env 0) (UserRegister.email user_data)
            password_hash
            (UserRegister.full_name user_data) None "VND"
            (PyFloat.of_Z 25000) (now env 0)),
         new.
  cbn [user_docs categories transactions friendships budgets
       shared_expense_docs notification_docs].
  split; [reflexivity|].
  cbn [UserDoc.id UserDoc.email UserDoc.full_name UserDoc.password_hash
       UserDoc.avatar_url UserDoc.currency_preference AuthResponse.user
       AuthResponse.token_type].
  split; [reflexivity|]. split; [reflexivity|]. split; [reflexivity|].
  split; [exact Hhash|].
  repeat (split; [reflexivity|]).
  split.
  { apply Forall_forall. intros c Hc'.
    exact (create_default_categories_spec _ _ _ _ _ Hc'). }
  repeat (split; [reflexivity|]).
  intros Hfresh c Hin.
  set (flt := fun c0 => String.eqb (Category.id c0) (Category.id c) &&
                        String.eqb (Category.user_id c0) (uuid4 env 0)).
  unfold delete_category. cbn [categories User.id].
  fold flt. rewrite find_app.
  replace (find flt (categories s)) with (@None Category.t).
  - destruct (find flt new) as [found|] eqn:Ef.
    + apply find_some in Ef. destruct Ef as [Hfound _].
      destruct (create_default_categories_spec _ _ _ _ _ Hfound) as [_ Hdef].
      cbv beta iota. now rewrite Hdef.
    + exfalso. pose proof (find_none _ _ Ef _ Hin) as Hf. unfold flt in Hf.
      destruct (create_default_categories_spec _ _ _ _ _ Hin) as [Hu _].
      rewrite Hu, !String.eqb_refl in Hf. discriminate.
  - symmetry. apply find_none_iff. intros c0 Hc0. unfold flt.
    apply Bool.andb_false_iff. right. apply String.eqb_neq. now apply Hfresh.
Qed.

Lemma register_creates_account_witness :
  exists new_categories,
    categories Ex2.s_reg = new_categories /\
    map Category.id new_categories =
      ["1-x"; "2-x"; "3-x"; "4-x"; "5-x"; "6-x"; "7-x"; "8-x"] /\
    forall c, In c new_categories ->
      delete_category Ex2.s_reg (Category.id c) Ex2.dung =
      (Ex2.s_reg, Raise (HTTPException 400 "Cannot delete default category")).
Proof.
  destruct (register_creates_account Ex2.auth Ex2.env Ex2.s0 Ex2.dung_data
              Ex2.s_reg
              (AuthResponse.mk "jwt:0-x@2024-02-01T00:00:00+00:00" "bearer"
                 Ex2.dung)
              eq_refl)
    as (doc & new & _ & _ & _ & _ & _ & _ & _ & _ & _ & Hcats & _ & _ & _ & _
        & _ & _ & _ & _ & Hdel).
  exists new. simpl in Hcats.
  split; [exact Hcats|]. split; [now rewrite <- Hcats|].
  apply Hdel. intros c [].
Defined.

(** The four ways [login] can end. *)
Lemma login_cases auth env s credentials :
  (find_user_doc_by_email (user_docs s) (UserLogin.email credentials) = None /\
   login auth env s credentials =
   (s, Raise (HTTPException 401 "Invalid email or password")))
  \/
  (exists user,
      find_user_doc_by_email (user_docs s) (UserLogin.email credentials)
        = Some user /\
      verify_password auth (UserLogin.password credentials)
        (UserDoc.password_hash user) = None /\
      login auth env s credentials = (s, Raise ValueError))
  \/
  (exists user,
      find_user_doc_by_email (user_docs s) (UserLogin.email credentials)
        = Some user /\
      verify_password auth (UserLogin.password credentials)
        (UserDoc.password_hash user) = Some false /\
      login auth env s credentials =
      (s, Raise (HTTPException 401 "Invalid email or password")))
  \/
  (exists user,
      find_user_doc_by_email (user_docs s) (UserLogin.email credentials)
        = Some user /\
      verify_password auth (UserLogin.password credentials)
        (UserDoc.password_hash user) = Some true /\
      login auth env s credentials =
      (s, Return (AuthResponse.mk
                    (create_access_token auth (UserDoc.id user) (now env 0))
                    "bearer" (user_of_doc user)))).
Proof.
  unfold login.
  destruct (find_user_doc_by_email (user_docs s) (UserLogin.email credentials))
    as [user|]; [right|left; auto].
  destruct (verify_password auth (UserLogin.password credentials)
              (UserDoc.password_hash user)) as [[]|] eqn:E;
    [right; right|right; left|left]; exists user; auto.
Qed.

(** X13. [login] never writes to the store.  An unknown email gets the 401,
    and so does a known email with a password [checkpw] rejects: the same
    status and the same detail.  But [checkpw] is asked for a known email
    only, and when it refuses the password with a [ValueError] the route
    does not catch it: the request then fails with that error and not with
    the 401.  A successful login names the user the email belongs to. *)
Theorem login_outcomes auth env s credentials :
  fst (login auth env s credentials) = s /\
  (find_user_doc_by_email (user_docs s) (UserLogin.email credentials) = None ->
   snd (login auth env s credentials) =
   Raise (HTTPException 401 "Invalid email or password")) /\
  (forall user,
      find_user_doc_by_email (user_docs s) (UserLogin.email credentials)
        = Some user ->
      verify_password auth (UserLogin.password credentials)
        (UserDoc.password_hash user) = Some false ->
      snd (login auth env s credentials) =
      Raise (HTTPException 401 "Invalid email or password")) /\
  (forall user,
      find_user_doc_by_email (user_docs s) (UserLogin.email credentials)
        = Some user ->
      verify_password auth (UserLogin.password credentials)
        (UserDoc.password_hash user) = None ->
      snd (login auth env s credentials) = Raise ValueError) /\
  (forall r,
      snd (login auth env s credentials) = Return r ->
      exists user,
        In user (user_docs s) /\
        UserDoc.email user = UserLogin.email credentials /\
        verify_password auth (UserLogin.password credentials)
          (UserDoc.password_hash user) = Some true /\
        AuthResponse.user r = user_of_doc user).
Proof.
  destruct (login_cases auth env s credentials)
    as [[Hf Hc]|[(user & Hf & Hv & Hc)|[(user & Hf & Hv & Hc)|
                                        (user & Hf & Hv & Hc)]]];
    rewrite Hc; cbn [fst snd]; (split; [reflexivity|]).
  - repeat (split; [reflexivity || (intros; congruence)|]). discriminate.
  - split; [rewrite Hf; discriminate|].
    split; [intros u Hu Hfalse; congruence|].
    split; [reflexivity|]. discriminate.
  - split; [reflexivity|]. split; [reflexivity|].
    split; [intros u Hu Hnone; congruence|]. discriminate.
  - split; [rewrite Hf; discriminate|].
    split; [intros u Hu Hfalse; congruence|].
    split; [intros u Hu Hnone; congruence|].
    intros r [= <-]. exists user.
    unfold find_user_doc_by_email in Hf. apply find_some in Hf.
    destruct Hf as [Hin Heq]. apply String.eqb_eq in Heq. auto.
Qed.

Lemma login_outcomes_witness :
  snd (login Ex2.auth Ex2.env Ex2.s0 (UserLogin.mk "nobody@example.com" "pw")) =
    Raise (HTTPException 401 "Invalid email or password") /\
  snd (login Ex2.auth Ex2.env Ex2.s0 (UserLogin.mk "an@example.com" "wrong")) =
    Raise (HTTPException 401 "Invalid email or password") /\
  snd (login Ex2.auth Ex2.env Ex2.s0
         (UserLogin.mk "nobody@example.com" Ex2.long_password)) =
    Raise (HTTPException 401 "Invalid email or password") /\
  snd (login Ex2.auth Ex2.env Ex2.s0
         (UserLogin.mk "an@example.com" Ex2.long_password)) =
    Raise ValueError.
Proof.
  split; [|split; [|split]].
  - exact (proj1 (proj2 (login_outcomes Ex2.auth Ex2.env Ex2.s0
                           (UserLogin.mk "nobody@example.com" "pw"))) eq_refl).
  - exact (proj1 (proj2 (proj2 (login_outcomes Ex2.auth Ex2.env Ex2.s0
                                   (UserLogin.mk "an@example.com" "wrong"))))
                 _ eq_refl eq_refl).
  - exact (proj1 (proj2 (login_outcomes Ex2.auth Ex2.env Ex2.s0
                           (UserLogin.mk "nobody@example.com"
                              Ex2.long_password))) eq_refl).
  - exact (proj1 (proj2 (proj2 (proj2
                    (login_outcomes Ex2.auth Ex2.env Ex2.s0
                       (UserLogin.mk "an@example.com" Ex2.long_password)))))
                 _ eq_refl eq_refl).
Defined.

(** X14. Whoever registered can log in: when [checkpw] accepts a password
    against its own hash, a login with the registered email and password
    succeeds on the store the registration left and names the registered
    user; a password [checkpw] rejects against that hash gets the 401. *)
Theorem register_then_login auth env env' s user_data s' r hashed :
  register auth env s user_data = (s', Return r) ->
  hash_password auth (UserRegister.password user_data) = Some hashed ->
  verify_password auth (UserRegister.password user_data) hashed = Some true ->
  (exists r',
      login auth env' s' (UserLogin.mk (UserRegister.email user_data)
                                       (UserRegister.password user_data))
      = (s', Return r') /\
      AuthResponse.user r' = AuthResponse.user r /\
      User.id (AuthResponse.user r') = uuid4 env 0) /\
  (forall wrong,
      verify_password auth wrong hashed = Some false ->
      login auth env' s' (UserLogin.mk (UserRegister.email user_data) wrong)
      = (s', Raise (HTTPException 401 "Invalid email or password"))).
Proof.
  intros Hrun Hhashed Hcheck.
  destruct (register_returns auth env s user_data s' r Hrun)
    as (password_hash & Hnone & Hhash & -> & ->).
  assert (password_hash = hashed) by congruence. subst password_hash.
  assert (Hfind : forall password,
    find_user_doc_by_email
      (user_docs s ++
         [UserDoc.mk (uuid4 env 0) (UserRegister.email user_data)
            hashed
            (UserRegister.full_name user_data) None "VND"
            (PyFloat.of_Z 25000) (now env 0)])
      (UserLogin.email (UserLogin.mk (UserRegister.email user_data) password))
    = Some (UserDoc.mk (uuid4 env 0) (UserRegister.email user_data)
              hashed
              (UserRegister.full_name user_data) None "VND"
              (PyFloat.of_Z 25000) (now env 0))).
  { intros password. unfold find_user_doc_by_email in *. rewrite find_app.
    cbn [UserLogin.email]. rewrite Hnone. simpl. now rewrite String.eqb_refl. }
  split.
  - eexists. unfold login. cbn [user_docs]. rewrite Hfind.
    cbn [UserLogin.password UserDoc.password_hash]. rewrite Hcheck.
    split; [reflexivity|]. split; reflexivity.
  - intros wrong Hwrong. unfold login. cbn [user_docs]. rewrite Hfind.
    cbn [UserLogin.password UserDoc.password_hash]. rewrite Hwrong.
    reflexivity.
Qed.

Lemma register_then_login_witness :
  (exists r',
      login Ex2.auth Ex2.env2 Ex2.s_reg
        (UserLogin.mk "dung@example.com" "dung-pw") = (Ex2.s_reg, Return r') /\
      AuthResponse.user r' = Ex2.dung) /\
  login Ex2.auth Ex2.env2 Ex2.s_reg (UserLogin.mk "dung@example.com" "guess")
  = (Ex2.s_reg, Raise (HTTPException 401 "Invalid email or password")).
Proof.
  destruct (register_then_login Ex2.auth Ex2.env Ex2.env2 Ex2.s0 Ex2.dung_data
              Ex2.s_reg
              (AuthResponse.mk "jwt:0-x@2024-02-01T00:00:00+00:00" "bearer"
                 Ex2.dung)
              "salt:dung-pw" eq_refl eq_refl eq_refl)
    as [(r' & Hlogin & Huser & _) Hwrong].
  split.
  - exists r'. split; [exact Hlogin|exact Huser].
  - exact (Hwrong "guess" eq_refl).
Defined.

(** ** Transaction routes *)

(** X15. [delete_transaction] answers 404, and leaves the store as it was,
    when the caller owns no transaction with the id, even if another user's
    transaction carries it.  When it succeeds it removed exactly one
    transaction, the first one with that id that belongs to the caller; all
    the others keep their order and the other collections are untouched. *)
Theorem delete_transaction_own_only s transaction_id current_user :
  ((forall t, In t (transactions s) ->
              Transaction.id t = transaction_id ->
              Transaction.user_id t <> User.id current_user) ->
   delete_transaction s transaction_id current_user =
   (s, Raise (HTTPException 404 "Transaction not found"))) /\
  (forall s' msg,
      delete_transaction s transaction_id current_user = (s', Return msg) ->
      exists pre t post,
        transactions s = pre ++ t :: post /\
        transactions s' = pre ++ post /\
        Transaction.id t = transaction_id /\
        Transaction.user_id t = User.id current_user /\
        (forall x, In x pre ->
                   Transaction.id x = transaction_id ->
                   Transaction.user_id x <> User.id current_user) /\
        user_docs s' = user_docs s /\
        categories s' = categories s /\
        friendships s' = friendships s /\
        budgets s' = budgets s /\
        shared_expense_docs s' = shared_expense_docs s /\
        notification_docs s' = notification_docs s).
Proof.
  unfold delete_transaction.
  set (flt := fun t => String.eqb (Transaction.id t) transaction_id &&
                       String.eqb (Transaction.user_id t) (User.id current_user)).
  assert (Hflt : forall t, flt t = false ->
                   Transaction.id t = transaction_id ->
                   Transaction.user_id t <> User.id current_user).
  { intros t Ht Hid Hu. unfold flt in Ht.
    rewrite Hid, Hu, !String.eqb_refl in Ht. discriminate. }
  split.
  - intros Hno. rewrite delete_one_none; [reflexivity|].
    intros t Ht. unfold flt. apply Bool.andb_false_iff.
    destruct (String.eqb_spec (Transaction.id t) transaction_id) as [Hid|]; auto.
    right. apply String.eqb_neq. now apply Hno.
  - intros s' msg.
    destruct (delete_one_cases flt (transactions s))
      as [[_ Hdel]|(pre & t & post & Hsplit & Hpre & Ht & Hdel)];
      rewrite Hdel; simpl; [discriminate|].
    intros [= <- _]. exists pre, t, post. simpl.
    unfold flt in Ht. apply Bool.andb_true_iff in Ht.
    rewrite !String.eqb_eq in Ht. destruct Ht as [Hid Hu].
    repeat split; auto.
Qed.

Lemma delete_transaction_own_only_witness :
  delete_transaction Ex2.s_txn "a-y" Ex.an =
    (Ex2.s_txn, Raise (HTTPException 404 "Transaction not found")) /\
  exists pre t post,
    transactions Ex2.s_txn = pre ++ t :: post /\
    transactions (fst (delete_transaction Ex2.s_txn "a-y" Ex2.dung)) =
      pre ++ post /\
    Transaction.user_id t = "0-x".
Proof.
  split.
  - apply (proj1 (delete_transaction_own_only Ex2.s_txn "a-y" Ex.an)).
    intros t Ht _. vm_compute in Ht.
    destruct Ht as [<-|[]]. vm_compute. discriminate.
  - destruct (proj2 (delete_transaction_own_only Ex2.s_txn "a-y" Ex2.dung)
                (fst (delete_transaction Ex2.s_txn "a-y" Ex2.dung))
                "Transaction deleted" eq_refl)
      as (pre & t & post & H1 & H2 & _ & H4 & _).
    exists pre, t, post. auto.
Defined.

(** X16. A transaction that was just created is stored last, unshared and
    owned by the caller, and its creator can delete it again: the store is
    then the one before the creation (the caller owning no older transaction
    with the new id). *)
Theorem create_then_delete_transaction env s txn_data current_user :
  (forall t, In t (transactions s) ->
             Transaction.id t = uuid4 env 0 ->
             Transaction.user_id t <> User.id current_user) ->
  exists s1 t,
    create_transaction env s txn_data current_user = (s1, Return t) /\
    Transaction.id t = uuid4 env 0 /\
    Transaction.user_id t = User.id current_user /\
    Transaction.is_shared t = false /\
    Transaction.shared_expense_id t = None /\
    Transaction.amount t = TransactionCreate.amount txn_data /\
    Transaction.category_id t = TransactionCreate.category_id txn_data /\
    transactions s1 = transactions s ++ [t] /\
    delete_transaction s1 (Transaction.id t) current_user =
      (s, Return "Transaction deleted").
Proof.
  intros Hfresh. unfold create_transaction. eexists _, _.
  split; [reflexivity|].
  cbn [Transaction.id Transaction.user_id Transaction.is_shared
       Transaction.shared_expense_id Transaction.amount Transaction.category_id
       transactions].
  repeat (split; [reflexivity|]).
  unfold delete_transaction. cbn [transactions].
  rewrite (delete_one_first _ (transactions s) []).
  - cbn. rewrite app_nil_r. now destruct s.
  - intros x Hx. apply Bool.andb_false_iff.
    destruct (String.eqb_spec (Transaction.id x) (uuid4 env 0)) as [Hid|]; auto.
    right. apply String.eqb_neq. now apply Hfresh.
  - cbn. now rewrite !String.eqb_refl.
Qed.

Lemma create_then_delete_transaction_witness :
  exists s1 t,
    create_transaction Ex2.env2 Ex2.s_reg Ex2.lunch Ex2.dung = (s1, Return t) /\
    delete_transaction s1 (Transaction.id t) Ex2.dung =
      (Ex2.s_reg, Return "Transaction deleted").
Proof.
  destruct (create_then_delete_transaction Ex2.env2 Ex2.s_reg Ex2.lunch Ex2.dung)
    as (s1 & t & Hrun & _ & _ & _ & _ & _ & _ & _ & Hdel).
  { intros t []. }
  exists s1, t. auto.
Defined.

(** ** Budget routes *)

(** X17. [delete_budget] answers 404, and leaves the store as it was, when
    the caller owns no budget with the id.  When it succeeds it removed
    exactly one budget, the first one with that id that belongs to the
    caller, and nothing else. *)
Theorem delete_budget_own_only s budget_id current_user :
  ((forall b, In b (budgets s) ->
              Budget.id b = budget_id ->
              Budget.user_id b <> User.id current_user) ->
   delete_budget s budget_id current_user =
   (s, Raise (HTTPException 404 "Budget not found"))) /\
  (forall s' msg,
      delete_budget s budget_id current_user = (s', Return msg) ->
      exists pre b post,
        budgets s = pre ++ b :: post /\
        budgets s' = pre ++ post /\
        Budget.id b = budget_id /\
        Budget.user_id b = User.id current_user /\
        (forall x, In x pre ->
                   Budget.id x = budget_id ->
                   Budget.user_id x <> User.id current_user) /\
        user_docs s' = user_docs s /\
        categories s' = categories s /\
        transactions s' = transactions s /\
        friendships s' = friendships s /\
        shared_expense_docs s' = shared_expense_docs s /\
        notification_docs s' = notification_docs s).
Proof.
  unfold delete_budget.
  set (flt := fun b => String.eqb (Budget.id b) budget_id &&
                       String.eqb (Budget.user_id b) (User.id current_user)).
  assert (Hflt : forall b, flt b = false ->
                   Budget.id b = budget_id ->
                   Budget.user_id b <> User.id current_user).
  { intros b Hb Hid Hu. unfold flt in Hb.
    rewrite Hid, Hu, !String.eqb_refl in Hb. discriminate. }
  split.
  - intros Hno. rewrite delete_one_none; [reflexivity|].
    intros b Hb. unfold flt. apply Bool.andb_false_iff.
    destruct (String.eqb_spec (Budget.id b) budget_id) as [Hid|]; auto.
    right. apply String.eqb_neq. now apply Hno.
  - intros s' msg.
    destruct (delete_one_cases flt (budgets s))
      as [[_ Hdel]|(pre & b & post & Hsplit & Hpre & Hb & Hdel)];
      rewrite Hdel; simpl; [discriminate|].
    intros [= <- _]. exists pre, b, post. simpl.
    unfold flt in Hb. apply Bool.andb_true_iff in Hb.
    rewrite !String.eqb_eq in Hb. destruct Hb as [Hid Hu].
    repeat split; auto.
Qed.

Lemma delete_budget_own_only_witness :
  delete_budget Ex2.s_bud "a-y" Ex.an =
    (Ex2.s_bud, Raise (HTTPException 404 "Budget not found")) /\
  exists pre b post,
    budgets Ex2.s_bud = pre ++ b :: post /\
    budgets (fst (delete_budget Ex2.s_bud "a-y" Ex2.dung)) = pre ++ post /\
    Budget.user_id b = "0-x".
Proof.
  split.
  - apply (proj1 (delete_budget_own_only Ex2.s_bud "a-y" Ex.an)).
    intros b Hb _. vm_compute in Hb.
    destruct Hb as [<-|[]]. vm_compute. discriminate.
  - destruct (proj2 (delete_budget_own_only Ex2.s_bud "a-y" Ex2.dung)
                (fst (delete_budget Ex2.s_bud "a-y" Ex2.dung))
                "Budget deleted" eq_refl)
      as (pre & b & post & H1 & H2 & _ & H4 & _).
    exists pre, b, post. auto.
Defined.

Lemma find_to_list_snoc {A : Type} (f : A -> bool) (n : nat) (docs : list A)
      (d : A) :
  find_to_list f n (docs ++ [d]) =
  if f d
  then if (List.length (List.filter f docs) <? n)%nat
       then List.filter f docs ++ [d]
       else find_to_list f n docs
  else find_to_list f n docs.
Proof.
  unfold find_to_list. rewrite filter_app. simpl.
  destruct (f d); [|now rewrite app_nil_r].
  destruct (Nat.ltb_spec (List.length (List.filter f docs)) n) as [Hlt|Hge].
  - apply firstn_all2. rewrite length_app. simpl. lia.
  - rewrite firstn_app.
    replace (n - List.length (List.filter f docs))%nat with 0%nat by lia.
    simpl. apply app_nil_r.
Qed.

(** X18. A budget that was just created belongs to the caller and is stored
    last.  The caller's budget list shows it, after the budgets listed
    before, as long as the caller owned fewer than 100 budgets; from the
    hundredth on the list stays as it was and the new budget is never
    listed.  Nobody else's list changes. *)
Theorem create_budget_listed env s budget_data current_user :
  exists s1 b,
    create_budget env s budget_data current_user = (s1, Return b) /\
    Budget.id b = uuid4 env 0 /\
    Budget.user_id b = User.id current_user /\
    Budget.amount b = BudgetCreate.amount budget_data /\
    budgets s1 = budgets s ++ [b] /\
    (forall owned,
        snd (get_budgets s current_user) = Return owned ->
        ((List.length
            (List.filter (fun b0 => String.eqb (Budget.user_id b0)
                                               (User.id current_user))
                         (budgets s)) < 100)%nat ->
         snd (get_budgets s1 current_user) = Return (owned ++ [b])) /\
        ((100 <= List.length
            (List.filter (fun b0 => String.eqb (Budget.user_id b0)
                                               (User.id current_user))
                         (budgets s)))%nat ->
         snd (get_budgets s1 current_user) = Return owned)) /\
    (forall other,
        User.id other <> User.id current_user ->
        snd (get_budgets s1 other) = snd (get_budgets s other)).
Proof.
  unfold create_budget. eexists _, _. split; [reflexivity|].
  cbn [Budget.id Budget.user_id Budget.amount budgets].
  repeat (split; [reflexivity|]).
  unfold get_budgets. cbn [snd budgets]. split.
  - intros owned [= <-]. rewrite find_to_list_snoc.
    cbn [Budget.user_id]. rewrite String.eqb_refl.
    split; intros Hlen.
    + destruct (Nat.ltb_spec
                  (List.length
                     (List.filter (fun b0 => String.eqb (Budget.user_id b0)
                                                        (User.id current_user))
                                  (budgets s))) 100) as [_|Hge]; [|lia].
      unfold find_to_list. rewrite firstn_all2 by lia. reflexivity.
    + destruct (Nat.ltb_spec
                  (List.length
                     (List.filter (fun b0 => String.eqb (Budget.user_id b0)
                                                        (User.id current_user))
                                  (budgets s))) 100) as [Hlt|_]; [lia|].
      reflexivity.
  - intros other Hother. rewrite find_to_list_snoc. cbn [Budget.user_id].
    replace (String.eqb (User.id current_user) (User.id other)) with false;
      [reflexivity|].
    symmetry. apply String.eqb_neq. congruence.
Qed.

Lemma create_budget_listed_witness :
  exists b,
    snd (get_budgets Ex2.s_bud Ex2.dung) = Return [b] /\
    Budget.id b = "a-y" /\
    snd (get_budgets Ex2.s_bud Ex.an) = Return [].
Proof.
  destruct (create_budget_listed Ex2.env2 Ex2.s_reg Ex2.food_budget Ex2.dung)
    as (s1 & b & Hrun & Hid & _ & _ & _ & Hown & Hother).
  assert (Hs : Ex2.s_bud = s1) by (unfold Ex2.s_bud; now rewrite Hrun).
  rewrite Hs. exists b. split; [|split; [exact Hid|]].
  - apply (proj1 (Hown [] eq_refl)). vm_compute. lia.
  - rewrite (Hother Ex.an) by (vm_compute; discriminate). reflexivity.
Defined.

(** ** A new account's categories *)

Lemma create_default_categories_maps env user_id cats : forall k,
  map Category.name (create_default_categories env k user_id cats) =
    map CategoryCreate.name cats /\
  map Category.type (create_default_categories env k user_id cats) =
    map CategoryCreate.type cats /\
  map Category.id (create_default_categories env k user_id cats) =
    map (uuid4 env) (seq k (List.length cats)).
Proof.
  induction cats as [|cat rest IH]; intros k; simpl; [auto|].
  destruct (IH (S k)) as (-> & -> & ->). auto.
Qed.

Lemma filter_all {A : Type} (f : A -> bool) (l : list A) :
  (forall x, In x l -> f x = true) -> List.filter f l = l.
Proof.
  induction l as [|a l IH]; intros H; simpl; [reflexivity|].
  rewrite (H a) by (simpl; auto). f_equal. apply IH. intros x Hx. apply H.
  simpl. auto.
Qed.

Lemma filter_none {A : Type} (f : A -> bool) (l : list A) :
  (forall x, In x l -> f x = false) -> List.filter f l = [].
Proof.
  induction l as [|a l IH]; intros H; simpl; [reflexivity|].
  rewrite (H a) by (simpl; auto). apply IH. intros x Hx. apply H.
  simpl. auto.
Qed.

(** X19. The category list of a user who just registered (no stored
    category carrying the new id as owner) is the eight default categories,
    in the order of the table, with the ids drawn during the registration.
    The list of every other user is what it was before. *)
Theorem register_then_get_categories auth env s user_data s' r :
  register auth env s user_data = (s', Return r) ->
  (forall c, In c (categories s) -> Category.user_id c <> uuid4 env 0) ->
  (exists cats,
      get_categories s' (AuthResponse.user r) = (s', Return cats) /\
      map Category.name cats = map CategoryCreate.name default_categories /\
      map Category.type cats = map CategoryCreate.type default_categories /\
      map Category.id cats = map (uuid4 env) (seq 1 8) /\
      Forall (fun c => Category.is_default c = true) cats) /\
  (forall other,
      User.id other <> uuid4 env 0 ->
      snd (get_categories s' other) = snd (get_categories s other)).
Proof.
  intros Hrun Hfresh.
  destruct (register_returns auth env s user_data s' r Hrun)
    as (password_hash & Hnone & Hhash & -> & ->).
  cbn [AuthResponse.user].
  pose proof (create_default_categories_spec env (uuid4 env 0)
                default_categories 1) as Hspec.
  pose proof (create_default_categories_maps env (uuid4 env 0)
                default_categories 1) as Hmaps.
  set (new := create_default_categories env 1 (uuid4 env 0) default_categories)
    in *.
  unfold get_categories. cbn [categories User.id snd].
  split.
  - exists new. unfold find_to_list. rewrite filter_app.
    rewrite filter_none, filter_all.
    + simpl app. rewrite firstn_all2.
      * split; [reflexivity|]. destruct Hmaps as (Hn & Ht & Hi).
        repeat split; auto.
        apply Forall_forall. intros c Hin. now apply Hspec.
      * replace (List.length new) with (List.length (map Category.name new))
          by apply length_map.
        destruct Hmaps as (-> & _). simpl. lia.
    + intros c Hin. destruct (Hspec c Hin) as [-> _]. apply String.eqb_refl.
    + intros c Hin. apply String.eqb_neq. now apply Hfresh.
  - intros other Hother. unfold find_to_list. rewrite filter_app.
    rewrite (filter_none _ new).
    + now rewrite app_nil_r.
    + intros c Hin. destruct (Hspec c Hin) as [-> _].
      apply String.eqb_neq. congruence.
Qed.

Lemma register_then_get_categories_witness :
  exists cats,
    get_categories Ex2.s_reg Ex2.dung = (Ex2.s_reg, Return cats) /\
    map Category.id cats =
      ["1-x"; "2-x"; "3-x"; "4-x"; "5-x"; "6-x"; "7-x"; "8-x"].
Proof.
  destruct (register_then_get_categories Ex2.auth Ex2.env Ex2.s0 Ex2.dung_data
              Ex2.s_reg
              (AuthResponse.mk "jwt:0-x@2024-02-01T00:00:00+00:00" "bearer"
                 Ex2.dung)
              eq_refl)
    as [(cats & Hget & _ & _ & Hids & _) _].
  { intros c []. }
  exists cats. split; [exact Hget|exact Hids].
Defined.

(** ** User routes *)

Lemma set_update_data_frame settings caller_id d :
  UserDoc.id d = caller_id ->
  profile_frame caller_id d (set_update_data settings d).
Proof.
  intros Hid. unfold profile_frame, set_update_data. simpl.
  repeat split; auto.
  destruct (UserSettings.avatar_url settings); [discriminate|auto].
Qed.

Lemma profile_frame_refl caller_id d : profile_frame caller_id d d.
Proof. unfold profile_frame. tauto. Qed.

(** X20. [update_profile] changes at most one user document, the first one
    with the caller's id: every document keeps its place, id, email,
    password hash, name and creation date, an avatar that was set stays
    set, and the other collections are untouched.  With no setting given
    the store is left as it was. *)
Theorem update_profile_frame s settings current_user :
  let s' := fst (update_profile s settings current_user) in
  Forall2 (profile_frame (User.id current_user)) (user_docs s) (user_docs s') /\
  (exists i, forall k, k <> i ->
     nth_error (user_docs s') k = nth_error (user_docs s) k) /\
  categories s' = categories s /\
  transactions s' = transactions s /\
  friendships s' = friendships s /\
  budgets s' = budgets s /\
  shared_expense_docs s' = shared_expense_docs s /\
  notification_docs s' = notification_docs s /\
  (update_data_is_empty settings = true -> s' = s).
Proof.
  intros s'. subst s'. unfold update_profile.
  set (flt := fun d => String.eqb (UserDoc.id d) (User.id current_user)).
  set (docs := if update_data_is_empty settings then user_docs s
               else update_one flt (set_update_data settings) (user_docs s)).
  assert (Hfst : fst (match find flt docs with
                      | Some updated_user =>
                          (mkStore docs (categories s) (transactions s)
                             (friendships s) (budgets s) (shared_expense_docs s)
                             (notification_docs s),
                           ProfileReturn (user_out_of_doc updated_user))
                      | None =>
                          (mkStore docs (categories s) (transactions s)
                             (friendships s) (budgets s) (shared_expense_docs s)
                             (notification_docs s), ProfileTypeError)
                      end) =
                 mkStore docs (categories s) (transactions s)
                   (friendships s) (budgets s) (shared_expense_docs s)
                   (notification_docs s))
    by (destruct (find flt docs); reflexivity).
  rewrite Hfst. cbn [user_docs categories transactions friendships budgets
                     shared_expense_docs notification_docs].
  assert (Hrefl : Forall2 (profile_frame (User.id current_user))
                          (user_docs s) (user_docs s))
    by (apply Forall2_refl_of; intros d; apply profile_frame_refl).
  unfold docs. destruct (update_data_is_empty settings).
  - repeat split; auto.
    + exists 0%nat. reflexivity.
    + intros _. now destruct s.
  - split; [|split; [|repeat split; auto; discriminate]].
    + apply update_one_Forall2; intros d.
      * apply profile_frame_refl.
      * intros Hd. apply set_update_data_frame. now apply String.eqb_eq.
    + destruct (update_one_cases flt (set_update_data settings) (user_docs s))
        as [[_ ->]|(pre & d & post & Hsplit & _ & _ & ->)].
      * exists 0%nat. reflexivity.
      * exists (List.length pre). intros k Hk. rewrite Hsplit.
        now apply nth_error_app_middle_gen.
Qed.

(** X21. For a caller with a stored document, [update_profile] answers
    with that document after the update: id, email, name and creation date
    as stored, and each of the three settings as given, or as stored when
    it is not given.  So an avatar can be replaced but not removed.  The
    stored document now carries what was answered: calling again with the
    same settings gives the same answer and changes nothing more.  A caller
    without a document gets no answer (Python raises [TypeError]) and the
    store stays as it was. *)
Theorem update_profile_result s settings current_user :
  (forall d,
      find (fun d => String.eqb (UserDoc.id d) (User.id current_user))
           (user_docs s) = Some d ->
      exists s' out,
        update_profile s settings current_user = (s', ProfileReturn out) /\
        UserOut.id out = UserDoc.id d /\
        UserOut.email out = UserDoc.email d /\
        UserOut.full_name out = UserDoc.full_name d /\
        UserOut.created_at out = UserDoc.created_at d /\
        UserOut.currency_preference out =
          match UserSettings.currency_preference settings with
          | Some v => v
          | None => UserDoc.currency_preference d
          end /\
        UserOut.usd_vnd_rate out =
          match UserSettings.usd_vnd_rate settings with
          | Some v => v
          | None => UserDoc.usd_vnd_rate d
          end /\
        UserOut.avatar_url out =
          match UserSettings.avatar_url settings with
          | Some v => Some v
          | None => UserDoc.avatar_url d
          end /\
        update_profile s' settings current_user = (s', ProfileReturn out)) /\
  (find (fun d => String.eqb (UserDoc.id d) (User.id current_user))
        (user_docs s) = None ->
   update_profile s settings current_user = (s, ProfileTypeError)).
Proof.
  set (flt := fun d => String.eqb (UserDoc.id d) (User.id current_user)).
  assert (Hidem : forall d,
            set_update_data settings (set_update_data settings d) =
            set_update_data settings d).
  { intros d. unfold set_update_data. simpl.
    destruct (UserSettings.avatar_url settings),
             (UserSettings.currency_preference settings),
             (UserSettings.usd_vnd_rate settings); reflexivity. }
  assert (Hnoop : update_data_is_empty settings = true ->
                  forall d, set_update_data settings d = d).
  { intros He d. unfold update_data_is_empty in He. unfold set_update_data.
    destruct (UserSettings.currency_preference settings); [discriminate|].
    destruct (UserSettings.usd_vnd_rate settings); [discriminate|].
    destruct (UserSettings.avatar_url settings); [discriminate|].
    now destruct d. }
  split.
  - intros d Hfind.
    destruct (find_split flt (user_docs s) d Hfind)
      as (pre & post & Hsplit & Hpre & Hd).
    assert (Hd' : flt (set_update_data settings d) = true) by exact Hd.
    exists (mkStore (pre ++ set_update_data settings d :: post) (categories s)
              (transactions s) (friendships s) (budgets s)
              (shared_expense_docs s) (notification_docs s)),
           (user_out_of_doc (set_update_data settings d)).
    split; [|split; [reflexivity|]; split; [reflexivity|];
             split; [reflexivity|]; split; [reflexivity|];
             split; [reflexivity|]; split; [reflexivity|];
             split; [reflexivity|]].
    + unfold update_profile. fold flt.
      destruct (update_data_is_empty settings) eqn:He.
      * rewrite Hfind, (Hnoop eq_refl d), <- Hsplit. reflexivity.
      * rewrite Hsplit, (update_one_first flt _ pre post d Hpre Hd).
        now rewrite (find_app_first flt pre post _ Hpre Hd').
    + unfold update_profile. fold flt. cbn [user_docs categories transactions
        friendships budgets shared_expense_docs notification_docs].
      destruct (update_data_is_empty settings) eqn:He.
      * now rewrite (find_app_first flt pre post _ Hpre Hd').
      * rewrite (update_one_first flt _ pre post _ Hpre Hd'), Hidem.
        now rewrite (find_app_first flt pre post _ Hpre Hd').
  - intros Hnone. unfold update_profile. fold flt.
    assert (Hno : forall d, In d (user_docs s) -> flt d = false)
      by (now apply find_none_iff).
    rewrite (update_one_none flt (set_update_data settings) _ Hno).
    destruct (update_data_is_empty settings); rewrite Hnone; now destruct s.
Qed.

Lemma update_profile_result_witness :
  (exists s' out,
      update_profile Ex2.s0 Ex2.to_usd Ex.an = (s', ProfileReturn out) /\
      UserOut.currency_preference out = "USD" /\
      UserOut.avatar_url out = None /\
      UserOut.email out = "an@example.com") /\
  update_profile Ex2.s0 Ex2.to_usd Ex.dung = (Ex2.s0, ProfileTypeError).
Proof.
  split.
  - destruct (proj1 (update_profile_result Ex2.s0 Ex2.to_usd Ex.an)
                (Ex2.doc "u-an" "an@example.com" "an-pw" "An") eq_refl)
      as (s' & out & Hrun & _ & Hemail & _ & _ & Hcur & _ & Hav & _).
    exists s', out. auto.
  - exact (proj2 (update_profile_result Ex2.s0 Ex2.to_usd Ex.dung) eq_refl).
Defined.

(** ** Statistics *)

Section FloatSigns.
Import PyFloat.
Local Open Scope Z_scope.

Lemma shr_fexp_nonneg m e l :
  0 <= m -> 0 <= shr_m (fst (shr_fexp prec emax m e l)).
Proof.
  intros Hm. unfold shr_fexp, shr.
  destruct (fexp prec emax (Zdigits2 m + e) - e) as [|p|p]; simpl fst;
    rewrite ?shr_record_of_loc_m; auto.
  rewrite iter_pos_shr_m by (rewrite shr_record_of_loc_m; lia).
  rewrite shr_record_of_loc_m. apply Z.shiftr_nonneg. lia.
Qed.

Lemma round_nearest_even_nonneg m l : 0 <= m -> 0 <= round_nearest_even m l.
Proof.
  intros Hm. unfold round_nearest_even.
  destruct l as [|[]]; try lia. destruct (Z.even m); lia.
Qed.

(** Rounding a non-negative mantissa with the positive sign never gives a
    negative float or a NaN. *)
Lemma binary_round_aux_nonneg m e l :
  0 <= m -> nonneg_float (binary_round_aux prec emax false m e l) = true.
Proof.
  intros Hm. unfold binary_round_aux.
  pose proof (shr_fexp_nonneg m e l Hm) as H1.
  destruct (shr_fexp prec emax m e l) as [mrs' e']. simpl in H1.
  pose proof (round_nearest_even_nonneg _ (loc_of_shr_record mrs') H1) as H2.
  pose proof (shr_fexp_nonneg _ e' loc_Exact H2) as H3.
  destruct (shr_fexp prec emax
              (round_nearest_even (shr_m mrs') (loc_of_shr_record mrs'))
              e' loc_Exact) as [mrs'' e''].
  simpl in H3.
  destruct (shr_m mrs'') as [|m2|m2]; try lia; [reflexivity|].
  destruct (e'' <=? emax - prec); reflexivity.
Qed.

Lemma binary_round_nonneg m e :
  nonneg_float (binary_round prec emax false m e) = true.
Proof.
  unfold binary_round.
  destruct (shl_align m e (fexp prec emax (Z.pos (digits2_pos m) + e)))
    as [mz ez].
  apply binary_round_aux_nonneg. lia.
Qed.

Lemma of_Z_nonneg z : 0 <= z -> nonneg_float (of_Z z) = true.
Proof.
  intros Hz. unfold of_Z, binary_normalize.
  destruct z as [|p|p]; [reflexivity|apply binary_round_nonneg|lia].
Qed.

(** [x + y] of two floats that are neither negative nor NaN is neither. *)
Lemma SFadd_nonneg x y :
  nonneg_float x = true -> nonneg_float y = true ->
  nonneg_float (SFadd prec emax x y) = true.
Proof.
  destruct x as [sx|sx| |sx mx ex], y as [sy|sy| |sy my ey]; simpl;
    try discriminate; try (destruct sx; simpl; try discriminate);
    try (destruct sy; simpl; try discriminate); auto.
  intros _ _. apply binary_round_nonneg.
Qed.

Lemma SFdiv_finite_nonneg (mx : positive) ex (my : positive) ey :
  nonneg_float (SFdiv prec emax (S754_finite false mx ex)
                      (S754_finite false my ey)) = true.
Proof.
  unfold SFdiv, SFdiv_core_binary.
  set (e' := Z.min _ _).
  set (m' := match ex - ey - e' with
             | 0 => Z.pos mx
             | Z.pos _ => Z.shiftl (Z.pos mx) (ex - ey - e')
             | Z.neg _ => 0
             end).
  assert (Hm' : 0 <= m').
  { unfold m'. destruct (ex - ey - e') as [|p|p]; try lia.
    apply Z.shiftl_nonneg. lia. }
  pose proof (Z.div_pos m' (Z.pos my) Hm' ltac:(lia)) as Hq.
  unfold Z.div in Hq.
  destruct (Z.div_eucl m' (Z.pos my)) as [q r]. simpl in Hq.
  simpl xorb. now apply binary_round_aux_nonneg.
Qed.

(** [round(x, ndigits)] keeps a float that is neither negative nor NaN
    so. *)
Lemma round_nonneg x ndigits :
  nonneg_float x = true -> nonneg_float (round x ndigits) = true.
Proof.
  destruct x as [s|s| |s m e]; simpl; auto.
  destruct s; simpl; [discriminate|]. intros _.
  destruct (Nat.ltb NDIGITS_MAX ndigits); [reflexivity|].
  destruct (scaled_round m e ndigits) as [|d|d]; try reflexivity.
  apply SFdiv_finite_nonneg.
Qed.

(** A float below [0.0] has an absolute value that is neither negative nor
    NaN. *)
Lemma SFabs_of_negative b :
  SFltb b zero = true -> nonneg_float (SFabs b) = true.
Proof. destruct b; simpl; auto. Qed.

(** [balance >= 0] excludes [balance < 0]. *)
Lemma ge_zero_not_lt b : ge b zero = true -> SFltb b zero = false.
Proof.
  unfold ge, SFleb, SFltb, zero.
  destruct b as [s|s| |s m e]; simpl; try discriminate; auto;
    destruct s; simpl; auto; discriminate.
Qed.
End FloatSigns.

Lemma add_float_nonneg total x :
  nonneg_number total = true -> nonneg_float x = true ->
  nonneg_number (add_float total x) = true.
Proof.
  intros Ht Hx. unfold add_float. simpl. apply SFadd_nonneg; [|exact Hx].
  destruct total as [z|y]; simpl in *; [|exact Ht].
  apply of_Z_nonneg. now apply Z.leb_le.
Qed.

Lemma owed_in_participants_nonneg user_id ps : forall total_owed,
  nonneg_number total_owed = true ->
  nonneg_number (owed_in_participants user_id ps total_owed) = true.
Proof.
  induction ps as [|p rest IH]; intros total Ht; simpl; [exact Ht|].
  destruct (String.eqb (P.user_id p) user_id); [|now apply IH].
  destruct (SFltb (PyFloat.sub (P.paid p) (P.amount p)) PyFloat.zero) eqn:E;
    [|now apply IH].
  apply IH. apply add_float_nonneg; [exact Ht|].
  now apply SFabs_of_negative.
Qed.

Lemma owed_in_expenses_nonneg user_id es : forall total_owed,
  nonneg_number total_owed = true ->
  nonneg_number (owed_in_expenses user_id es total_owed) = true.
Proof.
  induction es as [|e rest IH]; intros total Ht; simpl; [exact Ht|].
  apply IH. now apply owed_in_participants_nonneg.
Qed.

Lemma number_round2_nonneg n :
  nonneg_number n = true -> nonneg_number (number_round2 n) = true.
Proof.
  destruct n as [z|x]; simpl; [auto|]. apply round_nonneg.
Qed.

(** X22. [get_statistics_overview] never writes to the store and always
    answers.  Its [total_owed] is never negative and never NaN, whatever
    amounts the stored expenses carry, and its [transaction_count] is at
    most 10000. *)
Theorem total_owed_never_negative cal env s period current_user :
  exists o,
    get_statistics_overview cal env s period current_user = (s, Return o) /\
    nonneg_number (Overview.total_owed o) = true /\
    (Overview.transaction_count o <= 10000)%nat.
Proof.
  unfold get_statistics_overview.
  destruct (calculate_totals _ _ _ _) as [total_expense total_income].
  eexists. split; [reflexivity|]. cbn [Overview.total_owed
                                        Overview.transaction_count].
  split.
  - apply number_round2_nonneg. now apply owed_in_expenses_nonneg.
  - apply find_to_list_length.
Qed.

Lemma owed_in_participants_settled user_id ps : forall total_owed,
  (forall p, In p ps -> P.user_id p = user_id ->
             Settlement.status (settlement_of p) = "settled") ->
  owed_in_participants user_id ps total_owed = total_owed.
Proof.
  induction ps as [|p rest IH]; intros total H; simpl; [reflexivity|].
  assert (Hrest : forall q, In q rest -> P.user_id q = user_id ->
                    Settlement.status (settlement_of q) = "settled")
    by (intros q Hq; apply H; simpl; auto).
  destruct (String.eqb_spec (P.user_id p) user_id) as [Hid|]; [|now apply IH].
  pose proof (H p (or_introl eq_refl) Hid) as Hs.
  unfold settlement_of in Hs. cbn [Settlement.status] in Hs.
  destruct (PyFloat.ge (PyFloat.sub (P.paid p) (P.amount p)) PyFloat.zero)
    eqn:E; [|discriminate].
  rewrite (ge_zero_not_lt _ E). now apply IH.
Qed.

Lemma owed_in_expenses_settled user_id es : forall total_owed,
  (forall e p, In e es -> In p (SharedExpense.participants e) ->
               P.user_id p = user_id ->
               Settlement.status (settlement_of p) = "settled") ->
  owed_in_expenses user_id es total_owed = total_owed.
Proof.
  induction es as [|e rest IH]; intros total H; simpl; [reflexivity|].
  rewrite owed_in_participants_settled
    by (intros p Hp; apply (H e); simpl; auto).
  apply IH. intros e' p He'. apply H. simpl. auto.
Qed.

(** X23. The overview agrees with [get_settlements]: a user whose every
    entry in the stored expenses has the status ["settled"] there has a
    [total_owed] of 0, the [int] the total starts with. *)
Theorem settled_user_owes_nothing cal env s period current_user :
  (forall e p, In e (shared_expense_docs s) ->
               In p (SharedExpense.participants e) ->
               P.user_id p = User.id current_user ->
               Settlement.status (settlement_of p) = "settled") ->
  exists o,
    get_statistics_overview cal env s period current_user = (s, Return o) /\
    Overview.total_owed o = Int 0.
Proof.
  intros Hsettled. unfold get_statistics_overview.
  destruct (calculate_totals _ _ _ _) as [total_expense total_income].
  eexists. split; [reflexivity|]. cbn [Overview.total_owed].
  rewrite owed_in_expenses_settled; [reflexivity|].
  intros e p He. apply Hsettled.
  now apply find_to_list_In in He.
Qed.

Lemma settled_user_owes_nothing_witness :
  exists o,
    get_statistics_overview Ex2.cal Ex2.env Ex2.s_dinner "month" Ex.an =
      (Ex2.s_dinner, Return o) /\
    Overview.total_owed o = Int 0.
Proof.
  apply (settled_user_owes_nothing Ex2.cal Ex2.env Ex2.s_dinner "month" Ex.an).
  intros e p He Hp Hid. vm_compute in He. destruct He as [<-|[]].
  vm_compute in Hp.
  destruct Hp as [<-|[<-|[<-|[]]]]; try (vm_compute in Hid; discriminate).
  vm_compute. reflexivity.
Defined.

Lemma calculate_totals_orphans cats txns : forall total_expense total_income,
  (forall t, In t txns ->
     forall c, In c cats -> Category.id c <> Transaction.category_id t) ->
  calculate_totals cats txns total_expense total_income =
  (total_expense, total_income).
Proof.
  induction txns as [|t rest IH]; intros te ti H; simpl; [reflexivity|].
  replace (find _ cats) with (@None Category.t).
  - apply IH. intros t' Ht'. apply H. simpl. auto.
  - symmetry. apply find_none_iff. intros c Hc. apply String.eqb_neq.
    apply (H t); simpl; auto.
Qed.

(** X24. Transactions whose category is not stored (any more) are counted
    but not summed: when none of the caller's transactions has a stored
    category, the overview reports the [int] 0 as expense, income and
    balance, while [transaction_count] is the number of the caller's
    transactions dated from the start of the period on (of the first 10000
    of them). *)
Theorem orphan_transactions_counted_not_summed cal env s period current_user :
  (forall t, In t (transactions s) ->
     Transaction.user_id t = User.id current_user ->
     forall c, In c (categories s) ->
       Category.id c <> Transaction.category_id t) ->
  exists o txns,
    get_statistics_overview cal env s period current_user = (s, Return o) /\
    Overview.total_expense o = Int 0 /\
    Overview.total_income o = Int 0 /\
    Overview.balance o = Int 0 /\
    Overview.transaction_count o = List.length txns /\
    (forall t, In t txns ->
       In t (transactions s) /\
       Transaction.user_id t = User.id current_user) /\
    ((List.length (transactions s) <= 10000)%nat ->
     txns =
     List.filter
       (fun t =>
          String.eqb (Transaction.user_id t) (User.id current_user) &&
          String.leb
            (if String.eqb period "month" then month_start cal (now env 0)
             else if String.eqb period "year" then year_start cal (now env 0)
             else minus_30_days cal (now env 0))
            (Transaction.date t))
       (transactions s)).
Proof.
  intros Horphan. unfold get_statistics_overview.
  set (start_date := if String.eqb period "month" then _ else _).
  set (flt := fun t => String.eqb (Transaction.user_id t) (User.id current_user)
                       && String.leb start_date (Transaction.date t)).
  rewrite calculate_totals_orphans.
  - eexists _, (find_to_list flt 10000 (transactions s)).
    split; [reflexivity|].
    cbn [Overview.total_expense Overview.total_income Overview.balance
         Overview.transaction_count].
    repeat (split; [reflexivity|]).
    split.
    + intros t Ht. apply find_to_list_In in Ht. destruct Ht as [Hin Hf].
      split; [exact Hin|]. unfold flt in Hf.
      apply Bool.andb_true_iff in Hf. destruct Hf as [Hf _].
      now apply String.eqb_eq.
    + intros Hlen. now apply find_to_list_all.
  - intros t Ht. apply find_to_list_In in Ht. destruct Ht as [Hin Hf].
    apply Horphan; [exact Hin|].
    apply Bool.andb_true_iff in Hf. destruct Hf as [Hf _].
    now apply String.eqb_eq.
Qed.

Lemma orphan_transactions_counted_not_summed_witness :
  exists o,
    get_statistics_overview Ex2.cal Ex2.env Ex2.s_orphan "month" Ex.an =
      (Ex2.s_orphan, Return o) /\
    Overview.total_expense o = Int 0 /\
    Overview.transaction_count o = 1%nat.
Proof.
  destruct (orphan_transactions_counted_not_summed Ex2.cal Ex2.env Ex2.s_orphan
              "month" Ex.an)
    as (o & txns & Hrun & He & _ & _ & Hcount & _ & _).
  { intros t _ _ c []. }
  exists o. split; [exact Hrun|]. split; [exact He|].
  injection Hrun as <-. reflexivity.
Defined.

(** ** More on the shared-expense routes *)

Lemma create_notifications_spec env title current_user ps : forall k,
  let new := create_notifications env k title current_user ps in
  map Notification.user_id new =
    List.filter (fun id => negb (String.eqb id (User.id current_user)))
                (map P.user_id ps) /\
  map Notification.id new = map (uuid4 env) (seq k (List.length new)) /\
  Forall (fun n => Notification.read n = false /\
                   Notification.type n = "shared_expense_added" /\
                   Notification.user_id n <> User.id current_user) new.
Proof.
  induction ps as [|p rest IH]; intros k; simpl; [auto|].
  destruct (String.eqb_spec (P.user_id p) (User.id current_user)) as [Heq|Hne];
    simpl.
  - apply IH.
  - destruct (IH (S k)) as (H1 & H2 & H3). simpl in H1, H2, H3.
    rewrite H1, H2. repeat split; auto.
Qed.

Lemma stored_participants_user_ids db expense_data current_user :
  map P.user_id (stored_participants db expense_data current_user) =
  map User.id (resolved_users (users db)
                 (SharedExpenseCreate.participant_emails expense_data))
  ++ [User.id current_user].
Proof.
  unfold stored_participants, built_participants.
  rewrite map_map. cbn [P.user_id P.set_amount].
  rewrite map_app, map_map. reflexivity.
Qed.

(** X25. [create_shared_expense] appends one unread notification for every
    invitee it resolved whose id is not the creator's, in the order of the
    invitation (an invitee named twice is notified twice), and none for the
    creator; their ids are the ones drawn after the expense id.  So there
    are never more notifications than invited emails. *)
Theorem create_notifies_the_others env db expense_data current_user :
  exists db' doc new,
    create_shared_expense env db expense_data current_user = (db', Return doc) /\
    notifications db' = notifications db ++ new /\
    map Notification.user_id new =
      List.filter (fun id => negb (String.eqb id (User.id current_user)))
        (map User.id
           (resolved_users (users db)
              (SharedExpenseCreate.participant_emails expense_data))) /\
    map Notification.id new = map (uuid4 env) (seq 1 (List.length new)) /\
    Forall (fun n => Notification.read n = false /\
                     Notification.type n = "shared_expense_added" /\
                     Notification.user_id n <> User.id current_user) new /\
    (List.length new <=
     List.length (SharedExpenseCreate.participant_emails expense_data))%nat.
Proof.
  rewrite create_shared_expense_returns.
  set (new := create_notifications env 1
                (SharedExpenseCreate.title expense_data) current_user
                (stored_participants db expense_data current_user)).
  exists (mkDB (users db)
            (shared_expenses db ++ [created_doc env db expense_data current_user])
            (notifications db ++ new)),
         (created_doc env db expense_data current_user), new.
  split; [reflexivity|]. split; [reflexivity|].
  destruct (create_notifications_spec env
              (SharedExpenseCreate.title expense_data) current_user
              (stored_participants db expense_data current_user) 1)
    as (H1 & H2 & H3).
  fold new in H1, H2, H3.
  assert (Hrecv : map Notification.user_id new =
            List.filter (fun id => negb (String.eqb id (User.id current_user)))
              (map User.id
                 (resolved_users (users db)
                    (SharedExpenseCreate.participant_emails expense_data)))).
  { rewrite H1, stored_participants_user_ids, filter_app. simpl.
    rewrite String.eqb_refl. simpl. apply app_nil_r. }
  repeat split; auto.
  rewrite <- (length_map Notification.user_id new), Hrecv.
  etransitivity; [apply filter_length_le|]. rewrite length_map.
  generalize (SharedExpenseCreate.participant_emails expense_data).
  induction l as [|email rest IH]; simpl; [lia|].
  destruct (find_user_by_email (users db) email); simpl; lia.
Qed.

Lemma find_expense_update_other es expense_id ps other_id :
  other_id <> expense_id ->
  find_expense (update_participants es expense_id ps) other_id =
  find_expense es other_id.
Proof.
  intros Hne. unfold find_expense.
  induction es as [|e rest IH]; simpl; [reflexivity|].
  destruct (String.eqb_spec (SharedExpense.id e) expense_id) as [Heq|_]; simpl.
  - destruct (String.eqb_spec (SharedExpense.id e) other_id); congruence.
  - destruct (String.eqb (SharedExpense.id e) other_id); auto.
Qed.

(** X26. A confirmation never changes what is owed: after
    [confirm_shared_expense], accepted or refused, [get_settlements] answers
    every request as it did before. *)
Theorem confirm_keeps_settlements db expense_id current_user any_id any_user :
  snd (get_settlements
         (fst (confirm_shared_expense db expense_id current_user))
         any_id any_user) =
  snd (get_settlements db any_id any_user).
Proof.
  destruct (confirm_shared_expense_cases db expense_id current_user)
    as [[_ Hc]|[(e & _ & _ & Hc)|(e & pre & p & post & Hf & Hps & _ & _ & Hc)]];
    rewrite Hc; cbn [fst]; try reflexivity.
  unfold get_settlements. cbn [shared_expenses].
  destruct (String.eqb_spec any_id expense_id) as [->|Hne].
  - rewrite (find_expense_update _ _ _ _ Hf), Hf. cbn [snd]. f_equal.
    cbn [SharedExpense.participants SharedExpense.set_participants].
    rewrite Hps, !settlements_loop_acc, !map_app. reflexivity.
  - rewrite find_expense_update_other by exact Hne.
    now destruct (find_expense (shared_expenses db) any_id).
Qed.

(** ** A new account and the session dependency *)

(** X27. The subject [register] puts in the token resolves to the new user:
    [get_current_user] answers with the identity the registration returned
    (the id being non-empty and new among the stored users).  Every subject
    that resolved before the registration still resolves to the same
    user. *)
Theorem register_then_get_current_user auth env s user_data s' r :
  register auth env s user_data = (s', Return r) ->
  uuid4 env 0 <> "" ->
  (forall d, In d (user_docs s) -> UserDoc.id d <> uuid4 env 0) ->
  get_current_user (db_of s') (Some (uuid4 env 0)) =
    Return (AuthResponse.user r) /\
  (forall sub user,
      get_current_user (db_of s) sub = Return user ->
      get_current_user (db_of s') sub = Return user).
Proof.
  intros Hrun Hne Hfresh.
  destruct (register_returns auth env s user_data s' r Hrun)
    as (password_hash & Hnone & Hhash & -> & ->).
  cbn [AuthResponse.user].
  unfold get_current_user, db_of. cbn [users user_docs].
  rewrite map_app. split.
  - apply String.eqb_neq in Hne. rewrite Hne. rewrite find_app.
    replace (find _ (map user_of_doc (user_docs s))) with (@None User.t).
    + simpl. now rewrite String.eqb_refl.
    + symmetry. apply find_none_iff. intros u Hu.
      apply in_map_iff in Hu. destruct Hu as (d & <- & Hd).
      apply String.eqb_neq. cbn [user_of_doc User.id]. now apply Hfresh.
  - intros [user_id|] user; [|discriminate].
    destruct (String.eqb user_id ""); [discriminate|].
    rewrite find_app.
    destruct (find _ (map user_of_doc (user_docs s))); [auto|discriminate].
Qed.

Lemma register_then_get_current_user_witness :
  get_current_user (db_of Ex2.s_reg) (Some "0-x") = Return Ex2.dung /\
  get_current_user (db_of Ex2.s_reg) (Some "u-an") = Return Ex.an.
Proof.
  destruct (register_then_get_current_user Ex2.auth Ex2.env Ex2.s0
              Ex2.dung_data Ex2.s_reg
              (AuthResponse.mk "jwt:0-x@2024-02-01T00:00:00+00:00" "bearer"
                 Ex2.dung)
              eq_refl)
    as [Hnew Hold].
  - vm_compute. discriminate.
  - intros d Hd. vm_compute in Hd.
    repeat (destruct Hd as [<-|Hd]; [vm_compute; discriminate|]).
    destruct Hd.
  - split; [exact Hnew|]. apply Hold. reflexivity.
Defined.

(** ** The custom split *)



